(** * Stream processor of the Kafka streaming project

    A shallow embedding of [app/services/stream_processor.py] together with
    the two sink methods it calls ([KafkaService.produce_message] and
    [KinesisService.put_record]), and the properties of the processing
    pipeline, the processor registry and the metrics aggregator.
    The consumer loop of the broker service
    ([KafkaService._consume_messages]), the batch call of the secondary
    stream ([KinesisService.put_records]) and the health checks of the
    three services are embedded as well.

    Conventions of the embedding:
    - a Python dict with string keys is a [gmap string value]; no modelled
      code depends on the order of the keys;
    - numbers inside payloads are Python ints ([Z]) and binary64 floats
      ([float]); the modelled code compares them with integer thresholds
      and otherwise hands them to the runtime;
    - a wall-clock reading ([time.time()]) is a binary64 value and is
      taken as the rational it denotes ([Q]).  The mean of the processing
      times and the product inside [event_id] are rounded to binary64 as
      the interpreter rounds them ([binary64]).  A duration is the exact
      difference of its two readings, which is what binary64 subtraction
      gives for readings less than a factor of two apart, and the message
      rate is kept as the exact quotient;
    - a str is the string of its UTF-8 bytes; lower-casing text that is not
      ASCII is left to the runtime ([str_lower]);
    - every handler of the modelled code is [except Exception], so a call
      either returns a value or raises, and the kind of exception is not
      kept;
    - logging is not modelled. *)

From Stdlib Require Import ZArith QArith Qabs Qpower Lqa Floats.
From Stdlib Require Import String Ascii List Lia.
From Stdlib Require Import DecimalString.
From stdpp Require Import gmap strings list sorting.

Set Warnings "-register-all,-inexact-float".

Local Open Scope string_scope.
Local Open Scope Z_scope.

(** ** Python values *)

Module Py.

(** The values a JSON-decoded payload is made of. *)
Inductive value : Type :=
  | VNone
  | VBool (b : bool)
  | VInt (n : Z)
  | VFloat (x : float)
  | VStr (s : string)
  | VList (l : list value)
  | VDict (d : gmap string value).

(** The outcome of a call: a returned value or a raised exception. *)
Inductive result (A : Type) : Type :=
  | Return (a : A)
  | Raise.
Arguments Return {A} a.
Arguments Raise {A}.

Definition result_bind {A B} (r : result A) (k : A -> result B) : result B :=
  match r with
  | Return a => k a
  | Raise => Raise
  end.

(** [d.get(k)] on something expected to be a dict; [None] when the key is
    absent or the value is not a dict. *)
Definition field (v : value) (k : string) : option value :=
  match v with
  | VDict d => d !! k
  | _ => None
  end.

(** [str.isascii()] on the UTF-8 bytes of a str: no byte is above 127. *)
Fixpoint isascii (s : string) : bool :=
  match s with
  | EmptyString => true
  | String c s' => (nat_of_ascii c <? 128)%nat && isascii s'
  end.

(** [str.lower()] on the UTF-8 bytes of a str.  In ASCII text the letters
    A-Z are lowered and every other character is kept.  Text with other
    characters is lowered by the case mapping of the interpreter's Unicode
    database, which is not part of the repository: [unicode_lower]. *)
Definition lower_ascii (c : ascii) : ascii :=
  let n := nat_of_ascii c in
  if ((65 <=? n) && (n <=? 90))%nat then ascii_of_nat (n + 32) else c.

Fixpoint lower_ascii_text (s : string) : string :=
  match s with
  | EmptyString => EmptyString
  | String c s' => String (lower_ascii c) (lower_ascii_text s')
  end.

Definition lower (unicode_lower : string -> string) (s : string) : string :=
  if isascii s then lower_ascii_text s else unicode_lower s.

(** [s.split(sep)] for a one-character separator: the list of the pieces
    between the occurrences of [sep]; never empty. *)
Fixpoint split (sep : ascii) (s : string) : list string :=
  match s with
  | EmptyString => [EmptyString]
  | String c s' =>
      if Ascii.eqb c sep then EmptyString :: split sep s'
      else match split sep s' with
           | piece :: pieces => String c piece :: pieces
           | [] => [String c EmptyString]
           end
  end.

(** [l[-1]] on a list of strings that is known to be non-empty. *)
Definition last_piece (l : list string) : string := List.last l EmptyString.

(** [amount < k] for an integer literal [k]: defined on ints, bools (a
    subclass of int) and floats, a [TypeError] on everything else.  The
    literals of the source (10, 100, 1000, 10000) are exact as binary64
    values, so comparing a float with them is a float comparison. *)
Definition lt_int (amount : value) (k : Z) : result bool :=
  match amount with
  | VInt n => Return (n <? k)
  | VBool b => Return (Z.b2z b <? k)
  | VFloat x => Return (PrimFloat.ltb x (PrimFloat.of_uint63 (Uint63.of_Z k)))
  | _ => Raise
  end.

(** [isinstance(v, (int, float))]. *)
Definition is_int_or_float (v : value) : bool :=
  match v with
  | VInt _ | VBool _ | VFloat _ => true
  | _ => false
  end.

(** Decimal rendering of a Python int, as an f-string prints it. *)
Definition str_of_int (n : Z) : string := NilZero.string_of_int (Z.to_int n).

End Py.
Import Py.

Declare Scope result_scope.
Delimit Scope result_scope with result.
Notation "'let?' x ':=' r 'in' k" :=
  (result_bind r (fun x => k))
  (at level 10, x name, r at level 100, k at level 200) : result_scope.
Local Open Scope result_scope.

(** ** Calls that read and update a state, and may raise *)

Definition M (S A : Type) : Type := S -> result A * S.

Definition ret {S A} (a : A) : M S A := fun s => (Return a, s).
Definition raise {S A} : M S A := fun s => (Raise, s).
Definition bind {S A B} (m : M S A) (k : A -> M S B) : M S B :=
  fun s => match m s with
           | (Return a, s') => k a s'
           | (Raise, s') => (Raise, s')
           end.
Definition gets {S A} (f : S -> A) : M S A := fun s => (Return (f s), s).
Definition modify {S} (f : S -> S) : M S unit := fun s => (Return tt, f s).
Definition lift_result {S A} (r : result A) : M S A := fun s => (r, s).

(** [try: body / except Exception: handler]. *)
Definition try_except {S A} (body : M S A) (handler : M S A) : M S A :=
  fun s => match body s with
           | (Return a, s') => (Return a, s')
           | (Raise, s') => handler s'
           end.

(** A call on a component [get s] of the state, written back with [set]. *)
Definition on_field {S T A} (get : S -> T) (set : T -> S -> S)
    (m : M T A) : M S A :=
  fun s => let '(r, t') := m (get s) in (r, set t' s).

Declare Scope M_scope.
Delimit Scope M_scope with M.
Notation "'let!' x ':=' m 'in' k" :=
  (bind m (fun x => k))
  (at level 10, x name, m at level 100, k at level 200) : M_scope.
Notation "m ';;' k" :=
  (bind m (fun _ => k))
  (at level 100, k at level 200, right associativity) : M_scope.

(** [@retry(stop=stop_after_attempt(n))] of tenacity: the call is made
    again after a failure, up to [n] times in all; when the last attempt
    fails too, the call raises.  [i] numbers the attempts.  The waits
    between attempts are not modelled. *)
Fixpoint retry {St A} (n : nat) (i : nat) (call : nat -> M St A) : M St A :=
  match n with
  | O => raise
  | S n' =>
      fun s => match call i s with
               | (Return a, s') => (Return a, s')
               | (Raise, s') => retry n' (S i) call s'
               end
  end.

(** ** What the pipeline observes of its surroundings *)

(** Functions of the Python runtime and standard library that the code
    calls and whose results it only stores. *)
Record Runtime : Type := {
  py_str : value -> string;            (* str(v), also inside f-strings *)
  py_hash : value -> Z;                (* hash(v) of a hashable value *)
  json_dumps : value -> string;        (* json.dumps(v) *)
  builtin_sum : list value -> result value; (* sum(vs), starting from 0 *)
  str_lower : string -> string         (* s.lower() of text beyond ASCII *)
}.

(** What one call observes of the outside world: clock readings, and
    whether each attempt to reach a sink succeeds.  The readings of a clock
    are numbered by the place that takes them.  [time_time]: 0 at the
    start of [_process_message] and for [current_time] in
    [_collect_metrics], 1 at the end of [_process_message], 2 in
    [_get_session_info], 3 in [event_processor].  [datetime_now]: 0 for
    [enriched_at], 1 for a missing [timestamp], 2 for [processed_at], 3 in
    [produce_message], 4 in [put_record], 5 for a metrics record, 6 for
    [flushed_at]. *)
Record Env : Type := {
  time_time : nat -> Q;          (* time.time(), a binary64 value *)
  datetime_now : nat -> string;  (* datetime.now().isoformat() *)
  session_start : string;        (* (datetime.now() - 30 min).isoformat() *)
  uuid4 : string;                (* str(uuid.uuid4()) *)
  broker_ack : nat -> bool;      (* attempt i of producer.send_and_wait *)
  kinesis_ack : nat -> bool      (* attempt i of client.put_record *)
}.

(** ** Classification tables *)

(** [StreamProcessor._categorize_event]: lookup of the lower-cased event
    type in a fixed table, ["other"] when absent.  The argument has to be a
    string (anything else has no [lower] method). *)
Definition event_categories : gmap string string :=
  list_to_map
    [ ("user_login", "authentication");
      ("user_logout", "authentication");
      ("password_reset", "authentication");
      ("purchase", "transaction");
      ("refund", "transaction");
      ("payment", "transaction");
      ("page_view", "analytics");
      ("click", "analytics");
      ("search", "analytics");
      ("error", "system");
      ("warning", "system") ].

Definition _categorize_event (rt : Runtime) (event_type : value)
    : result string :=
  match event_type with
  | VStr s =>
      Return (default "other" (event_categories !! lower (str_lower rt) s))
  | _ => Raise
  end.

(** [StreamProcessor._categorize_amount]. *)
Definition _categorize_amount (amount : value) : result string :=
  let? c := lt_int amount 10 in
  if c then Return "micro" else
  let? c := lt_int amount 100 in
  if c then Return "small" else
  let? c := lt_int amount 1000 in
  if c then Return "medium" else
  let? c := lt_int amount 10000 in
  if c then Return "large" else
  Return "enterprise".

(** [int(x)] of a float: truncation towards zero. *)
Definition py_int (x : Q) : Z := Z.quot (Qnum x) (Z.pos (Qden x)).

(** [if "timestamp" not in d: d["timestamp"] = now]. *)
Definition ensure_timestamp (now : string) (d : gmap string value)
    : gmap string value :=
  match d !! "timestamp" with
  | Some _ => d
  | None => <["timestamp" := VStr now]> d
  end.

(** ** The broker sink: [KafkaService.produce_message] *)

Module KafkaService.

Record record : Type := {
  topic : string;
  value : gmap string Py.value;
  key : option string
}.

Record t : Type := {
  producer : bool;       (* self.producer is set *)
  is_running : bool;
  produced_count : Z;
  error_count : Z;
  sent : list record     (* what the broker has acknowledged, oldest first *)
}.

(** One attempt of the body of [produce_message].  The dict [value] is
    passed by reference and gets its ["timestamp"] in place, so it is part
    of the state of the attempt.  Headers and the returned metadata, which
    no caller reads, are left out. *)
Definition produce_attempt (env : Env) (topic : string) (key : option string)
    (i : nat) : M (gmap string Py.value * t) unit :=
  fun '(value, ks) =>
    if negb (producer ks && is_running ks) then (Raise, (value, ks))
    else
      let value := ensure_timestamp (datetime_now env 3) value in
      if broker_ack env i then
        (Return tt,
         (value,
          {| producer := producer ks; is_running := is_running ks;
             produced_count := produced_count ks + 1;
             error_count := error_count ks;
             sent := sent ks ++ [ {| topic := topic; value := value;
                                     key := key |} ] |}))
      else
        (Raise,
         (value,
          {| producer := producer ks; is_running := is_running ks;
             produced_count := produced_count ks;
             error_count := error_count ks + 1;
             sent := sent ks |})).

(** [produce_message], with its three attempts.  Returns the dict as the
    call leaves it. *)
Definition produce_message (env : Env) (topic : string)
    (value : gmap string Py.value) (key : option string)
    : M t (gmap string Py.value) :=
  fun ks =>
    match retry 3 0 (produce_attempt env topic key) (value, ks) with
    | (Return _, (value', ks')) => (Return value', ks')
    | (Raise, (_, ks')) => (Raise, ks')
    end.

End KafkaService.

(** ** The secondary-stream sink: [KinesisService.put_record] *)

Module KinesisService.

Record record : Type := {
  StreamName : string;
  Data : string;
  PartitionKey : string
}.

Record t : Type := {
  client : bool;         (* self.client is set *)
  is_running : bool;
  produced_count : Z;
  error_count : Z;
  sent : list record
}.

Section WithRuntime.
Variable rt : Runtime.

Definition put_attempt (env : Env) (stream_name : string)
    (partition_key : string) (i : nat) : M (gmap string Py.value * t) unit :=
  fun '(data, ks) =>
    if negb (client ks && is_running ks) then (Raise, (data, ks))
    else
      let data := ensure_timestamp (datetime_now env 4) data in
      let partition_key :=
        if String.eqb partition_key "" then uuid4 env else partition_key in
      let serialized_data := json_dumps rt (VDict data) in
      if kinesis_ack env i then
        (Return tt,
         (data,
          {| client := client ks; is_running := is_running ks;
             produced_count := produced_count ks + 1;
             error_count := error_count ks;
             sent := sent ks ++ [ {| StreamName := stream_name;
                                     Data := serialized_data;
                                     PartitionKey := partition_key |} ] |}))
      else
        (Raise,
         (data,
          {| client := client ks; is_running := is_running ks;
             produced_count := produced_count ks;
             error_count := error_count ks + 1;
             sent := sent ks |})).

Definition put_record (env : Env) (stream_name : string)
    (data : gmap string Py.value) (partition_key : string)
    : M t (gmap string Py.value) :=
  fun ks =>
    match retry 3 0 (put_attempt env stream_name partition_key) (data, ks) with
    | (Return _, (data', ks')) => (Return data', ks')
    | (Raise, (_, ks')) => (Raise, ks')
    end.

End WithRuntime.
End KinesisService.

(** ** Configuration and messages *)

(** Modelled from the spec: the configuration fields that the stream
    processor reads from [settings] and that [Settings] in
    [app/core/config.py] does not declare (enable-broker-output,
    enable-secondary-output, metrics-buffer-size, and the switch of the
    metrics batch); they are taken as given, under the names the code
    uses. *)
Record Settings : Type := {
  enable_kafka_output : bool;
  enable_kinesis_output : bool;
  enable_metrics_to_kafka : bool;
  metrics_buffer_size : Z
}.

(** The dict that [KafkaService._consume_messages] hands to the message
    handler: [message.value] is whatever the JSON decoder produced. *)
Module RawMessage.
Record t : Type := {
  topic : string;
  partition : Z;
  offset : Z;
  key : option string;
  value : Py.value
}.
End RawMessage.

(** [d.update({k1: v1, ...})]. *)
Definition dict_update (d : gmap string value) (kvs : list (string * value))
    : gmap string value :=
  foldl (fun d kv => <[kv.1 := kv.2]> d) d kvs.

(** A processor: an async callable from a payload to a payload. *)
Definition Processor : Type := Env -> value -> result value.

(** ** The stream processor *)

(** A record of the metrics buffer: the dict that
    [_handle_processed_data] builds for each message it has fanned out.
    [to_value] is that dict, as it is sent in a batch. *)
Module MetricRecord.
Record t : Type := {
  timestamp : string;
  topic : string;
  message_size : Z;
  original_partition : Z;
  original_offset : Z
}.

Definition to_value (r : t) : Py.value :=
  VDict (dict_update ∅
    [ ("timestamp", VStr (timestamp r));
      ("topic", VStr (topic r));
      ("message_size", VInt (message_size r));
      ("processing_metadata",
       VDict (dict_update ∅
         [ ("original_partition", VInt (original_partition r));
           ("original_offset", VInt (original_offset r)) ])) ]).
End MetricRecord.

Record ProcessingStats : Type := {
  messages_processed : Z;
  processing_errors : Z;
  avg_processing_time : Q;
  messages_per_second : Q;
  last_reset : string
}.

Record StreamProcessor : Type := {
  kafka_service : KafkaService.t;
  kinesis_service : KinesisService.t;
  is_running : bool;
  _processors : gmap string Processor;
  _metrics_buffer : list MetricRecord.t;
  _processing_stats : ProcessingStats;
  _processing_times : list Q;
  _last_metrics_flush : Q
}.

Definition set_kafka_service (k : KafkaService.t) (sp : StreamProcessor) :=
  {| kafka_service := k; kinesis_service := kinesis_service sp;
     is_running := is_running sp; _processors := _processors sp;
     _metrics_buffer := _metrics_buffer sp;
     _processing_stats := _processing_stats sp;
     _processing_times := _processing_times sp;
     _last_metrics_flush := _last_metrics_flush sp |}.

Definition set_kinesis_service (k : KinesisService.t) (sp : StreamProcessor) :=
  {| kafka_service := kafka_service sp; kinesis_service := k;
     is_running := is_running sp; _processors := _processors sp;
     _metrics_buffer := _metrics_buffer sp;
     _processing_stats := _processing_stats sp;
     _processing_times := _processing_times sp;
     _last_metrics_flush := _last_metrics_flush sp |}.

Definition set_processors (ps : gmap string Processor) (sp : StreamProcessor) :=
  {| kafka_service := kafka_service sp; kinesis_service := kinesis_service sp;
     is_running := is_running sp; _processors := ps;
     _metrics_buffer := _metrics_buffer sp;
     _processing_stats := _processing_stats sp;
     _processing_times := _processing_times sp;
     _last_metrics_flush := _last_metrics_flush sp |}.

Definition set_metrics_buffer (b : list MetricRecord.t)
    (sp : StreamProcessor) :=
  {| kafka_service := kafka_service sp; kinesis_service := kinesis_service sp;
     is_running := is_running sp; _processors := _processors sp;
     _metrics_buffer := b;
     _processing_stats := _processing_stats sp;
     _processing_times := _processing_times sp;
     _last_metrics_flush := _last_metrics_flush sp |}.

Definition set_processing_stats (st : ProcessingStats) (sp : StreamProcessor) :=
  {| kafka_service := kafka_service sp; kinesis_service := kinesis_service sp;
     is_running := is_running sp; _processors := _processors sp;
     _metrics_buffer := _metrics_buffer sp;
     _processing_stats := st;
     _processing_times := _processing_times sp;
     _last_metrics_flush := _last_metrics_flush sp |}.

Definition set_processing_times (ts : list Q) (sp : StreamProcessor) :=
  {| kafka_service := kafka_service sp; kinesis_service := kinesis_service sp;
     is_running := is_running sp; _processors := _processors sp;
     _metrics_buffer := _metrics_buffer sp;
     _processing_stats := _processing_stats sp;
     _processing_times := ts;
     _last_metrics_flush := _last_metrics_flush sp |}.

Definition set_last_metrics_flush (t : Q) (sp : StreamProcessor) :=
  {| kafka_service := kafka_service sp; kinesis_service := kinesis_service sp;
     is_running := is_running sp; _processors := _processors sp;
     _metrics_buffer := _metrics_buffer sp;
     _processing_stats := _processing_stats sp;
     _processing_times := _processing_times sp;
     _last_metrics_flush := t |}.

Definition set_messages_processed (n : Z) (st : ProcessingStats) :=
  {| messages_processed := n; processing_errors := processing_errors st;
     avg_processing_time := avg_processing_time st;
     messages_per_second := messages_per_second st;
     last_reset := last_reset st |}.

Definition set_processing_errors (n : Z) (st : ProcessingStats) :=
  {| messages_processed := messages_processed st; processing_errors := n;
     avg_processing_time := avg_processing_time st;
     messages_per_second := messages_per_second st;
     last_reset := last_reset st |}.

Definition set_avg_processing_time (x : Q) (st : ProcessingStats) :=
  {| messages_processed := messages_processed st;
     processing_errors := processing_errors st;
     avg_processing_time := x;
     messages_per_second := messages_per_second st;
     last_reset := last_reset st |}.

Definition set_messages_per_second (x : Q) (st : ProcessingStats) :=
  {| messages_processed := messages_processed st;
     processing_errors := processing_errors st;
     avg_processing_time := avg_processing_time st;
     messages_per_second := x;
     last_reset := last_reset st |}.

(** [StreamProcessor.__init__]; [now] and [t] are the readings of
    [datetime.now()] and [time.time()] at construction. *)
Definition __init__ (kafka : KafkaService.t) (kinesis : KinesisService.t)
    (now : string) (t : Q) : StreamProcessor :=
  {| kafka_service := kafka; kinesis_service := kinesis;
     is_running := false; _processors := ∅;
     _metrics_buffer := [];
     _processing_stats :=
       {| messages_processed := 0; processing_errors := 0;
          avg_processing_time := 0%Q; messages_per_second := 0%Q;
          last_reset := now |};
     _processing_times := [];
     _last_metrics_flush := t |}.

(** ** Binary64 values *)

(** The integer nearest to [n / d] for a positive [d], the even one of
    the two when [n / d] lies half-way. *)
Definition round_half_even (n d : Z) : Z :=
  let q := n / d in
  let r := n mod d in
  if 2 * r <? d then q
  else if d <? 2 * r then q + 1
  else if Z.even q then q else q + 1.

(** The integer [k] with [2^k <= |x| < 2^(k+1)], for [x] other than 0. *)
Definition Qlog2 (x : Q) : Z :=
  let p := Z.abs (Qnum x) in
  let q := Z.pos (Qden x) in
  let d := Z.log2 p - Z.log2 q in
  if (q * 2 ^ Z.max 0 d <=? p * 2 ^ Z.max 0 (- d)) then d else d - 1.

(** The exponent of the last binary digit that a binary64 value near [x]
    keeps: 53 digits, and none below [2^-1074]. *)
Definition binary64_exponent (x : Q) : Z := Z.max (Qlog2 x - 52) (- 1074).

(** The binary64 value nearest to [x], ties to even: the result of a
    correctly rounded operation whose exact result is [x].  The exponent
    is not bounded from above here: a result beyond [max_binary64], which
    the interpreter turns into an infinity, is tested for where it can
    arise ([event_processor]); the mean of binary64 samples is never
    beyond it. *)
Definition binary64 (x : Q) : Q :=
  if Qnum x =? 0 then 0%Q
  else
    let e := binary64_exponent x in
    let n := Qnum x * 2 ^ Z.max 0 (- e) in
    let d := Z.pos (Qden x) * 2 ^ Z.max 0 e in
    Qred (inject_Z (round_half_even n d) * 2 ^ e)%Q.

(** The finite binary64 values: a significand of at most 53 binary
    digits at an exponent from -1074 to 971. *)
Definition is_binary64 (y : Q) : Prop :=
  exists m e : Z,
    Z.abs m < 2 ^ 53 /\ - 1074 <= e <= 971 /\ (y == inject_Z m * 2 ^ e)%Q.

(** The largest finite binary64 value. *)
Definition max_binary64 : Q := (inject_Z (2 ^ 53 - 1) * 2 ^ 971)%Q.

(** The value of a float of the kernel, 0 for what is not finite. *)
Definition Q_of_float (f : float) : Q :=
  match Prim2SF f with
  | S754_finite s m e =>
      Qred (inject_Z (if s then Z.neg m else Z.pos m) * 2 ^ e)%Q
  | _ => 0%Q
  end.

(** [statistics.mean] of a non-empty list of floats: the samples are
    added up exactly, the sum is divided by their number, and the
    quotient is rounded once, to the nearest binary64 value. *)
Definition Qsum (l : list Q) : Q := List.fold_right Qplus 0%Q l.

Definition statistics_mean (l : list Q) : Q :=
  binary64 (Qsum l / inject_Z (Z.of_nat (length l)))%Q.

(** [l[-n:]] after [len(l) > n] has been checked. *)
Definition keep_last {A} (n : nat) (l : list A) : list A :=
  drop (length l - n)%nat l.

Section Pipeline.

Variable rt : Runtime.
Variable settings : Settings.

(** *** Enrichment functions *)

(** [_get_session_info] (a mock in the source). *)
Definition _get_session_info (env : Env) (user_id : value) : value :=
  VDict (dict_update ∅
    [ ("session_id",
       VStr ("session_" ++ py_str rt user_id ++ "_"
             ++ str_of_int (py_int (time_time env 2))));
      ("session_start", VStr (session_start env));
      ("device_type", VStr "web");
      ("location", VStr "unknown") ]).

(** The [try] block of [_default_processor]. *)
Definition _default_processor_body (env : Env) (data : value) : result value :=
  match data with
  | VDict d =>
      let processed_data :=
        dict_update d
          [ ("processor_id", VStr "default");
            ("enriched_at", VStr (datetime_now env 0));
            ("processing_version", VStr "1.0") ] in
      let processed_data := ensure_timestamp (datetime_now env 1) processed_data in
      let? processed_data :=
        match processed_data !! "event_type" with
        | Some event_type =>
            let? c := _categorize_event rt event_type in
            Return (<["event_category" := VStr c]> processed_data)
        | None => Return processed_data
        end in
      let? processed_data :=
        match processed_data !! "amount" with
        | Some amount =>
            if is_int_or_float amount then
              let? c := _categorize_amount amount in
              Return (<["amount_category" := VStr c]> processed_data)
            else Return processed_data
        | None => Return processed_data
        end in
      let processed_data :=
        match processed_data !! "user_id" with
        | Some user_id =>
            <["session_info" := _get_session_info env user_id]> processed_data
        | None => processed_data
        end in
      Return (VDict processed_data)
  | _ => Raise
  end.

(** [_default_processor]: the original data is returned when the
    enrichment raises. *)
Definition _default_processor (env : Env) (data : value) : value :=
  match _default_processor_body env data with
  | Return processed_data => processed_data
  | Raise => data
  end.

(** [_determine_user_segment] (a mock in the source); lists and dicts are
    not hashable. *)
Definition _determine_user_segment (user_id : value) : result string :=
  match user_id with
  | VList _ | VDict _ => Raise
  | _ =>
      let hash_val := py_hash rt user_id mod 4 in
      match ["bronze"; "silver"; "gold"; "platinum"] !! Z.to_nat hash_val with
      | Some segment => Return segment
      | None => Raise
      end
  end.

Definition _get_geo_location (ip_address : value) : value :=
  VDict (dict_update ∅
    [ ("country", VStr "US"); ("region", VStr "CA");
      ("city", VStr "San Francisco") ]).

(** [item.get("quantity", 0) for item in items]. *)
Fixpoint quantities (items : list value) : result (list value) :=
  match items with
  | [] => Return []
  | VDict item :: items' =>
      let? qs := quantities items' in
      Return (default (VInt 0) (item !! "quantity") :: qs)
  | _ :: _ => Raise
  end.

Definition order_processor : Processor := fun env data =>
  match data with
  | VDict processed =>
      let? processed :=
        match processed !! "items" with
        | Some (VList items) =>
            let processed :=
              <["item_count" := VInt (Z.of_nat (length items))]> processed in
            let? qs := quantities items in
            let? total := builtin_sum rt qs in
            Return (<["total_quantity" := total]> processed)
        | _ => Return processed
        end in
      let? processed :=
        match processed !! "total_amount" with
        | Some total_amount =>
            let? c := _categorize_amount total_amount in
            Return (<["order_size_category" := VStr c]> processed)
        | None => Return processed
        end in
      Return (VDict (<["processed_by" := VStr "order_processor"]> processed))
  | _ => Raise
  end.

Definition user_processor : Processor := fun env data =>
  match data with
  | VDict processed =>
      let? processed :=
        match processed !! "user_id" with
        | Some user_id =>
            let? segment := _determine_user_segment user_id in
            Return (<["user_segment" := VStr segment]> processed)
        | None => Return processed
        end in
      let? processed :=
        match processed !! "email" with
        | Some (VStr email) =>
            let processed :=
              <["email_domain" := VStr (last_piece (split "@" email))]>
                processed in
            Return (delete "email" processed)
        | Some _ => Raise
        | None => Return processed
        end in
      Return (VDict (<["processed_by" := VStr "user_processor"]> processed))
  | _ => Raise
  end.

(** The product [time.time() * 1000000] is a binary64 product; beyond the
    range of binary64 it is an infinity, which [int] refuses. *)
Definition event_processor : Processor := fun env data =>
  match data with
  | VDict processed =>
      let micros := binary64 (time_time env 3 * 1000000)%Q in
      let? event_id :=
        if Qle_bool (Qabs micros) max_binary64
        then Return ("evt_" ++ str_of_int (py_int micros))
        else Raise in
      let processed := <["event_id" := VStr event_id]> processed in
      let processed := <["processing_latency" := VInt 0]> processed in
      let processed :=
        match processed !! "ip_address" with
        | Some ip_address =>
            <["geo_location" := _get_geo_location ip_address]> processed
        | None => processed
        end in
      Return (VDict (<["processed_by" := VStr "event_processor"]> processed))
  | _ => Raise
  end.

(** *** The registry *)

Definition register_processor (topic : string) (processor : Processor)
    (sp : StreamProcessor) : StreamProcessor :=
  set_processors (<[topic := processor]> (_processors sp)) sp.

Definition _register_default_processors (sp : StreamProcessor)
    : StreamProcessor :=
  set_processors
    (<["events" := event_processor]>
       (<["users" := user_processor]>
          (<["orders" := order_processor]> (_processors sp)))) sp.

(** The processor that lines 123-127 of [_process_message] select for a
    topic (the spec's [resolve]): the registered one when the topic is a key
    of [_processors], the default processor otherwise. *)
Definition resolve (processors : gmap string Processor) (topic : string)
    : Processor :=
  match processors !! topic with
  | Some processor => processor
  | None => fun env value => Return (_default_processor env value)
  end.

(** *** Fan-out *)

(** The record that [_handle_processed_data] appends to the metrics
    buffer. *)
Definition metric_record (env : Env) (original_topic : string)
    (processed_data : gmap string value) (original_message : RawMessage.t)
    : MetricRecord.t :=
  {| MetricRecord.timestamp := datetime_now env 5;
     MetricRecord.topic := original_topic;
     MetricRecord.message_size :=
       Z.of_nat (String.length (json_dumps rt (VDict processed_data)));
     MetricRecord.original_partition := RawMessage.partition original_message;
     MetricRecord.original_offset := RawMessage.offset original_message |}.

(** [original_message.get("key") or str(processed_data.get("id", ""))]. *)
Definition partition_key_of (processed_data : gmap string value)
    (original_message : RawMessage.t) : string :=
  match RawMessage.key original_message with
  | Some k =>
      if String.eqb k "" then
        py_str rt (default (VStr "") (processed_data !! "id"))
      else k
  | None => py_str rt (default (VStr "") (processed_data !! "id"))
  end.

(** [_handle_processed_data]: stamp, publish to the broker sink, then to
    the secondary-stream sink, then record a metric.  The handler of its
    [try] logs and raises again. *)
Definition _handle_processed_data (env : Env) (original_topic : string)
    (processed_data : value) (original_message : RawMessage.t)
    : M StreamProcessor unit :=
  try_except
    (match processed_data with
     | VDict processed_data =>
         let processed_data :=
           dict_update processed_data
             [ ("processed_at", VStr (datetime_now env 2));
               ("original_topic", VStr original_topic);
               ("original_offset", VInt (RawMessage.offset original_message));
               ("original_partition",
                VInt (RawMessage.partition original_message)) ] in
         let! processed_data :=
           if enable_kafka_output settings then
             on_field kafka_service set_kafka_service
               (KafkaService.produce_message env
                  (original_topic ++ "_processed") processed_data
                  (RawMessage.key original_message))
           else ret processed_data in
         let! processed_data :=
           if enable_kinesis_output settings then
             on_field kinesis_service set_kinesis_service
               (KinesisService.put_record rt env
                  (original_topic ++ "-processed") processed_data
                  (partition_key_of processed_data original_message))
           else ret processed_data in
         modify (fun sp =>
           set_metrics_buffer
             (_metrics_buffer sp
                ++ [metric_record env original_topic processed_data
                      original_message]) sp)
     | _ => raise
     end)%M
    raise.

(** *** Processing one message *)

(** The [try] block of [_process_message]. *)
Definition _process_message_body (env : Env) (message_data : RawMessage.t)
    : M StreamProcessor unit :=
  (let start_time := time_time env 0 in
   let topic := RawMessage.topic message_data in
   let value := RawMessage.value message_data in
   let! processors := gets _processors in
   let! processed_data := lift_result (resolve processors topic env value) in
   _handle_processed_data env topic processed_data message_data ;;
   let processing_time := (time_time env 1 - start_time)%Q in
   modify (fun sp =>
     set_processing_times (_processing_times sp ++ [processing_time]) sp) ;;
   modify (fun sp =>
     if (1000 <? length (_processing_times sp))%nat then
       set_processing_times (keep_last 1000 (_processing_times sp)) sp
     else sp) ;;
   modify (fun sp =>
     set_processing_stats
       (set_messages_processed
          (messages_processed (_processing_stats sp) + 1)
          (_processing_stats sp)) sp))%M.

(** [_process_message]: any exception of the body is counted and not
    propagated. *)
Definition _process_message (env : Env) (message_data : RawMessage.t)
    (sp : StreamProcessor) : StreamProcessor :=
  snd (try_except
         (_process_message_body env message_data)
         (modify (fun sp =>
            set_processing_stats
              (set_processing_errors
                 (processing_errors (_processing_stats sp) + 1)
                 (_processing_stats sp)) sp))
         sp).

(** *** Metrics *)

(** The value that [_flush_metrics_buffer] sends to the broker: the whole
    buffer as one batch. *)
Definition metrics_batch (env : Env) (buffer : list MetricRecord.t)
    : gmap string value :=
  dict_update ∅
    [ ("metrics", VList (MetricRecord.to_value <$> buffer));
      ("flushed_at", VStr (datetime_now env 6));
      ("count", VInt (Z.of_nat (length buffer))) ].

(** [_flush_metrics_buffer]; its handler only logs.  The timestamps of
    the first and of the last record, which the source reads for its log
    line, are there in every record. *)
Definition _flush_metrics_buffer (env : Env) : M StreamProcessor unit :=
  try_except
    (let! buffer := gets _metrics_buffer in
     match buffer with
     | [] => ret tt
     | _ :: _ =>
         (if enable_metrics_to_kafka settings then
            on_field kafka_service set_kafka_service
              (KafkaService.produce_message env "processing_metrics"
                 (metrics_batch env buffer) None) ;;
            ret tt
          else ret tt) ;;
         modify (set_metrics_buffer [])
     end)%M
    (ret tt).

(** One turn of the loop of [_collect_metrics], after its sleep;
    [time_time env 0] is the reading of [current_time].  Nothing in the
    turn can raise, the flush having a handler of its own. *)
Definition _collect_metrics_cycle (env : Env) (sp : StreamProcessor)
    : StreamProcessor :=
  let current_time := time_time env 0 in
  let time_diff := (current_time - _last_metrics_flush sp)%Q in
  let sp :=
    match _processing_times sp with
    | [] => sp
    | _ :: _ =>
        set_processing_stats
          (set_avg_processing_time (statistics_mean (_processing_times sp))
             (_processing_stats sp)) sp
    end in
  let messages_per_second :=
    match (0 ?= time_diff)%Q with
    | Lt => (inject_Z (messages_processed (_processing_stats sp)) / time_diff)%Q
    | _ => 0%Q
    end in
  let sp :=
    set_processing_stats
      (set_messages_per_second messages_per_second (_processing_stats sp)) sp in
  let sp :=
    if (metrics_buffer_size settings <? Z.of_nat (length (_metrics_buffer sp)))
    then snd (_flush_metrics_buffer env sp)
    else sp in
  let sp :=
    set_processing_stats
      (set_messages_processed 0 (_processing_stats sp)) sp in
  let sp :=
    set_processing_stats
      (set_processing_errors 0 (_processing_stats sp)) sp in
  set_last_metrics_flush current_time sp.

(** *** Runs *)

(** What happens to the processor over time: processors are registered,
    messages are delivered and metrics turns are taken, each with what it
    observes. *)
Inductive event : Type :=
  | Register (topic : string) (processor : Processor)
  | Deliver (env : Env) (message_data : RawMessage.t)
  | MetricsCycle (env : Env).

Definition step (sp : StreamProcessor) (ev : event) : StreamProcessor :=
  match ev with
  | Register topic processor => register_processor topic processor sp
  | Deliver env message_data => _process_message env message_data sp
  | MetricsCycle env => _collect_metrics_cycle env sp
  end.

Definition run (evs : list event) (sp : StreamProcessor) : StreamProcessor :=
  foldl step sp evs.

End Pipeline.

(** ** Availability of the sinks, and success of a message *)

(** The broker sink delivers when the service is started and one of the
    three attempts is acknowledged. *)
Definition broker_delivers (env : Env) (ks : KafkaService.t) : bool :=
  KafkaService.producer ks && KafkaService.is_running ks
  && (broker_ack env 0 || broker_ack env 1 || broker_ack env 2).

Definition kinesis_delivers (env : Env) (ks : KinesisService.t) : bool :=
  KinesisService.client ks && KinesisService.is_running ks
  && (kinesis_ack env 0 || kinesis_ack env 1 || kinesis_ack env 2).

(** The fan-out of a stamped payload succeeds when every enabled sink
    delivers. *)
Definition fan_out_succeeds (settings : Settings) (env : Env)
    (sp : StreamProcessor) : bool :=
  (negb (enable_kafka_output settings)
   || broker_delivers env (kafka_service sp))
  && (negb (enable_kinesis_output settings)
      || kinesis_delivers env (kinesis_service sp)).

(** A message is handled when its processor returns a dict and the fan-out
    succeeds. *)
Definition handled (rt : Runtime) (settings : Settings) (env : Env)
    (message_data : RawMessage.t) (sp : StreamProcessor) : bool :=
  match resolve rt (_processors sp) (RawMessage.topic message_data) env
          (RawMessage.value message_data) with
  | Return (VDict _) => fan_out_succeeds settings env sp
  | _ => false
  end.

(** The number of handled messages among the deliveries of a run, and
    runs in which no metrics turn is taken. *)
Fixpoint handled_count (rt : Runtime) (settings : Settings)
    (evs : list event) (sp : StreamProcessor) : Z :=
  match evs with
  | [] => 0
  | ev :: evs' =>
      match ev with
      | Deliver env message_data =>
          if handled rt settings env message_data sp then 1 else 0
      | _ => 0
      end
      + handled_count rt settings evs' (step rt settings sp ev)
  end.

Definition no_metrics_cycle (evs : list event) : bool :=
  forallb (fun ev => match ev with MetricsCycle _ => false | _ => true end)
    evs.

(** The payload as [_handle_processed_data] stamps it. *)
Definition stamped (env : Env) (message_data : RawMessage.t)
    (processed_data : gmap string value) : gmap string value :=
  dict_update processed_data
    [ ("processed_at", VStr (datetime_now env 2));
      ("original_topic", VStr (RawMessage.topic message_data));
      ("original_offset", VInt (RawMessage.offset message_data));
      ("original_partition", VInt (RawMessage.partition message_data)) ].

(** [dom] is what follows the last ['@'] of [s]; all of [s] when it has
    none. *)
Fixpoint has_char (c : ascii) (s : string) : bool :=
  match s with
  | EmptyString => false
  | String c' s' => Ascii.eqb c' c || has_char c s'
  end.

Definition after_last_at (s dom : string) : Prop :=
  has_char "@" dom = false
  /\ (s = dom \/ exists pre, s = pre ++ String "@" dom).

(** A [user_id] that [hash] accepts, or none. *)
Definition user_id_hashable (d : gmap string value) : bool :=
  match d !! "user_id" with
  | Some (VList _) | Some (VDict _) => false
  | _ => true
  end.

(** [amount] is below the integer [k], as numbers: the order of the
    integers for ints and bools, the order of binary64 for floats (no
    bound is above a NaN). *)
Definition below (amount : value) (k : Z) : Prop :=
  match amount with
  | VInt n => n < k
  | VBool b => Z.b2z b < k
  | VFloat x => PrimFloat.ltb x (PrimFloat.of_uint63 (Uint63.of_Z k)) = true
  | _ => False
  end.

(** The classification fields a payload is due: the category of its
    [event_type] and the bucket of its numeric [amount], and what the
    payload already carries when it has no such source field. *)
Definition event_category_of (rt : Runtime) (d : gmap string value)
    : option value :=
  match d !! "event_type" with
  | Some event_type =>
      match _categorize_event rt event_type with
      | Return c => Some (VStr c)
      | Raise => d !! "event_category"
      end
  | None => d !! "event_category"
  end.

Definition amount_category_of (d : gmap string value) : option value :=
  match d !! "amount" with
  | Some amount =>
      if is_int_or_float amount then
        match _categorize_amount amount with
        | Return c => Some (VStr c)
        | Raise => d !! "amount_category"
        end
      else d !! "amount_category"
  | None => d !! "amount_category"
  end.

(** ** Concrete surroundings for the scenarios *)

Definition scenario_runtime : Runtime :=
  {| py_str := fun v => match v with
                        | VStr s => s
                        | VInt n => str_of_int n
                        | _ => ""
                        end;
     py_hash := fun v => match v with VInt n => n | _ => 0 end;
     json_dumps := fun _ => "{}";
     builtin_sum := fun vs =>
       foldr (fun v acc =>
                match v, acc with
                | VInt n, Return (VInt m) => Return (VInt (n + m))
                | _, _ => Raise
                end) (Return (VInt 0)) vs;
     str_lower := fun s => s |}.

(** Clock readings one second apart, and sinks that answer [broker] and
    [kinesis] at every attempt. *)
Definition scenario_env (broker kinesis : bool) : Env :=
  {| time_time := fun i => inject_Z (1700000000 + Z.of_nat i);
     datetime_now := fun _ => "2024-01-01T00:00:00";
     session_start := "2023-12-31T23:30:00";
     uuid4 := "00000000-0000-4000-8000-000000000000";
     broker_ack := fun _ => broker;
     kinesis_ack := fun _ => kinesis |}.

Definition started_kafka : KafkaService.t :=
  {| KafkaService.producer := true; KafkaService.is_running := true;
     KafkaService.produced_count := 0; KafkaService.error_count := 0;
     KafkaService.sent := [] |}.

Definition started_kinesis : KinesisService.t :=
  {| KinesisService.client := true; KinesisService.is_running := true;
     KinesisService.produced_count := 0; KinesisService.error_count := 0;
     KinesisService.sent := [] |}.

Definition both_sinks : Settings :=
  {| enable_kafka_output := true; enable_kinesis_output := true;
     enable_metrics_to_kafka := true; metrics_buffer_size := 1000 |}.

Definition scenario_processor : StreamProcessor :=
  _register_default_processors scenario_runtime
    (__init__ started_kafka started_kinesis "2024-01-01T00:00:00"
       (inject_Z 1700000000)).

Definition purchase_message : RawMessage.t :=
  {| RawMessage.topic := "unknown_topic"; RawMessage.partition := 0;
     RawMessage.offset := 42; RawMessage.key := Some "k1";
     RawMessage.value :=
       VDict (dict_update ∅ [("event_type", VStr "purchase")]) |}.

(** The payload the default processor returns for the purchase event of
    the scenarios. *)
Definition purchase_enriched : gmap string value :=
  match _default_processor scenario_runtime (scenario_env true false)
          (RawMessage.value purchase_message) with
  | VDict d => d
  | _ => ∅
  end.

(** The surroundings of a metrics turn taken ten seconds after the
    construction of [scenario_processor]. *)
Definition metrics_env : Env :=
  {| time_time := fun _ => inject_Z 1700000010;
     datetime_now := fun _ => "2024-01-01T00:00:10";
     session_start := "2023-12-31T23:30:10";
     uuid4 := "00000000-0000-4000-8000-000000000000";
     broker_ack := fun _ => true;
     kinesis_ack := fun _ => true |}.


(** A record of the metrics buffer, for a message of the ["orders"]
    topic. *)
Definition orders_metric : MetricRecord.t :=
  {| MetricRecord.timestamp := "2024-01-01T00:00:00";
     MetricRecord.topic := "orders";
     MetricRecord.message_size := 2;
     MetricRecord.original_partition := 0;
     MetricRecord.original_offset := 41 |}.

(** * More of the code: runs, health, the consumer loop, the batch call *)

(** ** Runs, counted *)

(** The number of deliveries of a run. *)
Fixpoint deliveries (evs : list event) : Z :=
  match evs with
  | [] => 0
  | Deliver _ _ :: evs' => 1 + deliveries evs'
  | _ :: evs' => deliveries evs'
  end.

(** The processing times of the handled messages of a run, oldest
    first. *)
Fixpoint handled_durations (rt : Runtime) (settings : Settings)
    (evs : list event) (sp : StreamProcessor) : list Q :=
  match evs with
  | [] => []
  | ev :: evs' =>
      match ev with
      | Deliver env message_data =>
          if handled rt settings env message_data sp
          then [(time_time env 1 - time_time env 0)%Q] else []
      | _ => []
      end
      ++ handled_durations rt settings evs' (step rt settings sp ev)
  end.

(** The last 1000 samples of a list, all of it when it has no more. *)
Definition last_1000 (l : list Q) : list Q :=
  if (1000 <? length l)%nat then keep_last 1000 l else l.

(** A message of the ["users"] topic with an email and a key. *)
Definition user_message : RawMessage.t :=
  {| RawMessage.topic := "users"; RawMessage.partition := 1;
     RawMessage.offset := 7; RawMessage.key := Some "u-17";
     RawMessage.value :=
       VDict (dict_update ∅ [("email", VStr "ada@example.org");
                              ("name", VStr "Ada")]) |}.

(** An [event_type], if any, that is a string: what the default
    processor needs to enrich a dict. *)
Definition event_type_ok (d : gmap string value) : bool :=
  match d !! "event_type" with
  | Some (VStr _) | None => true
  | _ => false
  end.

(** An order whose total is a string, for the ["orders"] topic. *)
Definition bad_order_message : RawMessage.t :=
  {| RawMessage.topic := "orders"; RawMessage.partition := 0;
     RawMessage.offset := 3; RawMessage.key := None;
     RawMessage.value :=
       VDict (dict_update ∅ [("total_amount", VStr "12.50")]) |}.

(** ** Health *)

(** [KafkaService.is_healthy]: [False] when the service is not running or
    has no producer, and otherwise whether the broker answers the probe
    ([reachable]; a probe that raises gives [False]). *)
Definition kafka_is_healthy (reachable : bool) (ks : KafkaService.t) : bool :=
  if negb (KafkaService.is_running ks) || negb (KafkaService.producer ks)
  then false
  else reachable.

(** [KinesisService.is_healthy], likewise. *)
Definition kinesis_is_healthy (reachable : bool) (ks : KinesisService.t)
    : bool :=
  if negb (KinesisService.is_running ks) || negb (KinesisService.client ks)
  then false
  else reachable.

(** [StreamProcessor.is_healthy].  The ceiling
    [settings.max_allowed_processing_errors], which [Settings] in
    [app/core/config.py] does not declare, is taken as given; with it
    nothing in the body can raise. *)
Definition is_healthy (max_allowed_processing_errors : Z)
    (kafka_reachable kinesis_reachable : bool) (sp : StreamProcessor) : bool :=
  let kafka_healthy := kafka_is_healthy kafka_reachable (kafka_service sp) in
  let kinesis_healthy :=
    kinesis_is_healthy kinesis_reachable (kinesis_service sp) in
  let recent_errors := processing_errors (_processing_stats sp) in
  is_running sp && kafka_healthy && kinesis_healthy
  && (recent_errors <? max_allowed_processing_errors).

(** The attempts of a call on a started broker service that fail before
    the call returns or gives up. *)
Definition failed_attempts (env : Env) : Z :=
  if broker_ack env 0 then 0
  else if broker_ack env 1 then 1
  else if broker_ack env 2 then 2
  else 3.

(** [scenario_processor], running. *)
Definition running_processor : StreamProcessor :=
  {| kafka_service := kafka_service scenario_processor;
     kinesis_service := kinesis_service scenario_processor;
     is_running := true;
     _processors := _processors scenario_processor;
     _metrics_buffer := _metrics_buffer scenario_processor;
     _processing_stats := _processing_stats scenario_processor;
     _processing_times := _processing_times scenario_processor;
     _last_metrics_flush := _last_metrics_flush scenario_processor |}.

(** ** The consumer loop of the broker service *)

(** A record as the consumer of the broker client yields it. *)
Module ConsumerRecord.
Record t : Type := {
  topic : string;
  partition : Z;
  offset : Z;
  key : option string;
  value : Py.value;
  timestamp : Z;
  headers : list (string * string)
}.
End ConsumerRecord.

(** The dict [message_data] that [KafkaService._consume_messages] builds
    from a record.  Its [timestamp] and [headers] entries, which the
    handler of the stream processor never reads, have no field in
    [RawMessage.t]. *)
Definition message_data_of (message : ConsumerRecord.t) : RawMessage.t :=
  {| RawMessage.topic := ConsumerRecord.topic message;
     RawMessage.partition := ConsumerRecord.partition message;
     RawMessage.offset := ConsumerRecord.offset message;
     RawMessage.key := ConsumerRecord.key message;
     RawMessage.value := ConsumerRecord.value message |}.

(** [error_count += 1] on the broker service of the stream processor,
    which is the service that runs the consumer loop. *)
Definition count_consumer_error (sp : StreamProcessor) : StreamProcessor :=
  set_kafka_service
    {| KafkaService.producer := KafkaService.producer (kafka_service sp);
       KafkaService.is_running := KafkaService.is_running (kafka_service sp);
       KafkaService.produced_count :=
         KafkaService.produced_count (kafka_service sp);
       KafkaService.error_count :=
         KafkaService.error_count (kafka_service sp) + 1;
       KafkaService.sent := KafkaService.sent (kafka_service sp) |}
    sp.

(** One turn of the loop of [_consume_messages]: the handler is awaited
    on the message, which is then counted as consumed; when the handler
    raises, the error is counted instead and the loop goes on.  The state
    is the stream processor with the [consumed_count] of the service. *)
Definition consume_one (message_handler : Env -> RawMessage.t ->
                                          M StreamProcessor unit)
    (state : StreamProcessor * Z) (delivery : Env * ConsumerRecord.t)
    : StreamProcessor * Z :=
  let '(sp, consumed_count) := state in
  let '(env, message) := delivery in
  match message_handler env (message_data_of message) sp with
  | (Return _, sp') => (sp', consumed_count + 1)
  | (Raise, sp') => (count_consumer_error sp', consumed_count)
  end.

Definition _consume_messages (message_handler : Env -> RawMessage.t ->
                                                M StreamProcessor unit)
    (deliveries : list (Env * ConsumerRecord.t))
    (state : StreamProcessor * Z) : StreamProcessor * Z :=
  foldl (consume_one message_handler) state deliveries.

(** The handler that [_start_consumers] subscribes for every topic:
    [self._process_message], which returns [None] and never raises. *)
Definition stream_message_handler (rt : Runtime) (settings : Settings)
    : Env -> RawMessage.t -> M StreamProcessor unit :=
  fun env message_data sp =>
    (Return tt, _process_message rt settings env message_data sp).

(** The deliveries of a consumer loop, as events of the processor. *)
Definition delivery_events (deliveries : list (Env * ConsumerRecord.t))
    : list event :=
  map (fun delivery => Deliver delivery.1 (message_data_of delivery.2))
    deliveries.

(** ** The batch call of the secondary stream:
       [KinesisService.put_records] *)

Module KinesisBatch.

(** An entry of [kinesis_records]; the partition key is whatever the
    caller's record holds under ["partition_key"]. *)
Record entry : Type := {
  Data : string;
  PartitionKey : Py.value
}.

(** An element of [response['Records']]: it carries an ['ErrorCode'] with
    its ['ErrorMessage'], or a ['ShardId'] with its ['SequenceNumber']. *)
Inductive record_result : Type :=
  | Accepted (ShardId SequenceNumber : string)
  | Rejected (ErrorCode ErrorMessage : string).

Record successful_result : Type := {
  shard_id : string;
  sequence_number : string
}.

Record failed_result : Type := {
  index : nat;
  error_code : string;
  error_message : string
}.

(** The dict that [put_records] returns. *)
Record summary : Type := {
  stream_name : string;
  total_records : nat;
  successful_records : nat;
  failed_records : nat;
  successful_results : list successful_result;
  failed_results : list failed_result
}.

(** A call of [client.put_records] that returned: [StreamName] and
    [Records]. *)
Definition call : Type := string * list entry.

(** [range(0, stop, step)], for a positive [step]. *)
Definition py_range (stop step : nat) : list nat :=
  map (fun k => k * step)%nat (seq 0 ((stop + step - 1) / step)%nat).

(** [l[i:j]] for [0 <= i <= j]. *)
Definition slice {A} (i j : nat) (l : list A) : list A :=
  take (j - i) (drop i l).

Definition batch_size : nat := 500.

(** [self.error_count += n]. *)
Definition count_errors (n : nat) (ks : KinesisService.t) : KinesisService.t :=
  {| KinesisService.client := KinesisService.client ks;
     KinesisService.is_running := KinesisService.is_running ks;
     KinesisService.produced_count := KinesisService.produced_count ks;
     KinesisService.error_count :=
       KinesisService.error_count ks + Z.of_nat n;
     KinesisService.sent := KinesisService.sent ks |}.

Section PutRecords.

Variable rt : Runtime.
(** [datetime.now().isoformat()] and [str(uuid.uuid4())] as read while the
    record at a position is prepared. *)
Variable now : nat -> string.
Variable uuid : nat -> string.
(** [client.put_records] at the n-th call of an invocation:
    [response['Records']], or an exception. *)
Variable client_put_records :
  nat -> string -> list entry -> result (list record_result).

(** [if "timestamp" not in data: data["timestamp"] = now]: on a dict the
    key is looked up; on a str the test is a substring test and on a list
    a membership test, and the assignment raises; on any other value the
    test raises. *)
Definition stamped_data (k : nat) (data : Py.value) : result Py.value :=
  match data with
  | VDict d => Return (VDict (ensure_timestamp (now k) d))
  | VStr s =>
      match String.index 0 "timestamp" s with
      | Some _ => Return data
      | None => Raise
      end
  | VList l =>
      if existsb (fun v => match v with
                           | VStr s => String.eqb s "timestamp"
                           | _ => false
                           end) l
      then Return data
      else Raise
  | _ => Raise
  end.

(** The body of the first loop, for the record at position [k]. *)
Definition prepare_record (k : nat) (record : Py.value) : result entry :=
  match record with
  | VDict r =>
      let data := default (VDict ∅) (r !! "data") in
      let? data := stamped_data k data in
      let partition_key := default (VStr (uuid k)) (r !! "partition_key") in
      Return {| Data := json_dumps rt data; PartitionKey := partition_key |}
  | _ => Raise
  end.

Fixpoint prepare (k : nat) (records : list Py.value) : result (list entry) :=
  match records with
  | [] => Return []
  | record :: records =>
      let? e := prepare_record k record in
      let? es := prepare (S k) records in
      Return (e :: es)
  end.

(** The loop over [enumerate(response['Records'])], from position [j]. *)
Fixpoint process_response (i j : nat) (response : list record_result)
    (acc : list successful_result * list failed_result)
    : list successful_result * list failed_result :=
  match response with
  | [] => acc
  | Accepted s q :: response =>
      process_response i (S j) response
        ((acc.1 ++ [ {| shard_id := s; sequence_number := q |} ])%list,
         acc.2)
  | Rejected c m :: response =>
      process_response i (S j) response
        (acc.1,
         (acc.2 ++ [ {| index := i + j; error_code := c;
                        error_message := m |} ])%list)
  end.

(** The loop over [range(0, len(kinesis_records), batch_size)]: [starts]
    are the values of [i] still to come and [n] counts the calls made. *)
Fixpoint put_batches (stream_name : string) (kinesis_records : list entry)
    (starts : list nat) (n : nat)
    (acc : list successful_result * list failed_result)
    : M (list call) (list successful_result * list failed_result) :=
  match starts with
  | [] => fun calls => (Return acc, calls)
  | i :: starts => fun calls =>
      let batch := slice i (i + batch_size) kinesis_records in
      match client_put_records n stream_name batch with
      | Raise => (Raise, calls)
      | Return response =>
          put_batches stream_name kinesis_records starts (S n)
            (process_response i 0 response acc)
            (calls ++ [(stream_name, batch)])%list
      end
  end.

(** [put_records]; the state is the service with the calls of
    [client.put_records] that returned. *)
Definition put_records (stream_name : string) (records : list Py.value)
    : M (KinesisService.t * list call) summary :=
  fun '(ks, calls) =>
    if negb (KinesisService.client ks) || negb (KinesisService.is_running ks)
    then (Raise, (ks, calls))
    else
      match prepare 0 records with
      | Raise => (Raise, (count_errors (length records) ks, calls))
      | Return kinesis_records =>
          match put_batches stream_name kinesis_records
                  (py_range (length kinesis_records) batch_size) 0 ([], [])
                  calls with
          | (Raise, calls') =>
              (Raise, (count_errors (length records) ks, calls'))
          | (Return (results, failed_records), calls') =>
              let successful_count := length results in
              let failed_count := length failed_records in
              (Return {| stream_name := stream_name;
                         total_records := length records;
                         successful_records := successful_count;
                         failed_records := failed_count;
                         successful_results := results;
                         failed_results := failed_records |},
               ({| KinesisService.client := KinesisService.client ks;
                   KinesisService.is_running := KinesisService.is_running ks;
                   KinesisService.produced_count :=
                     KinesisService.produced_count ks
                     + Z.of_nat successful_count;
                   KinesisService.error_count :=
                     KinesisService.error_count ks + Z.of_nat failed_count;
                   KinesisService.sent := KinesisService.sent ks |},
                calls'))
          end
      end.

End PutRecords.
End KinesisBatch.

(** Surroundings for the scenarios of the batch call: a record, a client
    that rejects the first entry of every batch, and a client whose
    second call raises. *)
Definition batch_record : Py.value :=
  VDict (dict_update ∅
           [("data", VDict (dict_update ∅ [("n", VInt 1)]));
            ("partition_key", VStr "p-1")]).

Definition rejecting_client (n : nat) (stream_name : string)
    (batch : list KinesisBatch.entry)
    : result (list KinesisBatch.record_result) :=
  Return (imap (fun j _ =>
                  match j with
                  | O => KinesisBatch.Rejected "ThrottlingException" "slow"
                  | S _ => KinesisBatch.Accepted "shard-0" "1"
                  end) batch).

Definition failing_second_call (n : nat) (stream_name : string)
    (batch : list KinesisBatch.entry)
    : result (list KinesisBatch.record_result) :=
  match n with
  | O => Return (map (fun _ => KinesisBatch.Accepted "shard-0" "1") batch)
  | S _ => Raise
  end.

(** * Properties *)

(** ** Sanity checks of the Python helpers *)

Example categorize_amount_nan :
  _categorize_amount (VFloat PrimFloat.nan) = Return "enterprise".
Proof. reflexivity. Qed.

Example categorize_event_Purchase :
  _categorize_event scenario_runtime (VStr "Purchase")
  = Return "transaction".
Proof. vm_compute. reflexivity. Qed.

Example split_email :
  split "@" "ada@example.org" = ["ada"; "example.org"].
Proof. reflexivity. Qed.

Example split_twice : split "@" "a@@b" = ["a"; ""; "b"].
Proof. reflexivity. Qed.

Example keep_last_2 : keep_last 2 [1; 2; 3] = [2; 3].
Proof. reflexivity. Qed.

(** An event type with a KELVIN SIGN (U+212A, bytes 226 132 170), on a
    runtime that lowers it to [k] as the Unicode database does. *)
Example categorize_event_kelvin :
  _categorize_event
    {| py_str := py_str scenario_runtime;
       py_hash := py_hash scenario_runtime;
       json_dumps := json_dumps scenario_runtime;
       builtin_sum := builtin_sum scenario_runtime;
       str_lower := fun s =>
         if String.eqb s ("clic" ++ String "226" (String "132"
                                      (String "170" "")))
         then "click" else s |}
    (VStr ("clic" ++ String "226" (String "132" (String "170" ""))))
  = Return "analytics".
Proof. vm_compute. reflexivity. Qed.

(** [binary64] agrees with the division and the product of the kernel's
    floats, and goes to the even neighbour from half-way. *)
Example binary64_third : binary64 (4 # 3) = Q_of_float (4 / 3)%float.
Proof. vm_compute. reflexivity. Qed.

Example binary64_tenth : binary64 (- 1 # 10) = Q_of_float (- 1 / 10)%float.
Proof. vm_compute. reflexivity. Qed.

Example binary64_product :
  binary64 ((1700000003 + (1 # 1048576)) * 1000000)
  = Q_of_float (1700000003.00000095367431640625 * 1000000)%float.
Proof. vm_compute. reflexivity. Qed.

Example binary64_ties :
  binary64 (inject_Z (2 ^ 53 + 1)) = inject_Z (2 ^ 53)
  /\ binary64 (inject_Z (2 ^ 53 + 3)) = inject_Z (2 ^ 53 + 4).
Proof. vm_compute. split; reflexivity. Qed.

Example binary64_subnormal :
  binary64 (3 # 2 ^ 1075) = binary64 (1 # 2 ^ 1073)
  /\ binary64 (1 # 2 ^ 1075) = 0%Q.
Proof. vm_compute. split; reflexivity. Qed.

Example statistics_mean_rounds :
  statistics_mean [1; 1; 2]%Q = Q_of_float (4 / 3)%float
  /\ statistics_mean [1; 3]%Q = 2%Q.
Proof. vm_compute. split; reflexivity. Qed.

(** The [event_id] at a reading of 1700000003 + 2^-20 seconds: the exact
    product ends in ...000000.95, the binary64 product is ...000001. *)
Example event_id_rounds :
  match event_processor
          {| time_time := fun _ => (1700000003 + (1 # 1048576))%Q;
             datetime_now := fun _ => "2024-01-01T00:00:00";
             session_start := "2023-12-31T23:30:00";
             uuid4 := "uuid-1";
             broker_ack := fun _ => true;
             kinesis_ack := fun _ => true |}
          (VDict ∅) with
  | Return out => field out "event_id"
  | Raise => None
  end
  = Some (VStr "evt_1700000003000001").
Proof. vm_compute. reflexivity. Qed.

(** ** The sinks *)

Lemma ensure_timestamp_idem now d :
  ensure_timestamp now (ensure_timestamp now d) = ensure_timestamp now d.
Proof.
  unfold ensure_timestamp.
  destruct (d !! "timestamp") eqn:E.
  - by rewrite E.
  - by rewrite lookup_insert_eq.
Qed.

(** [produce_message] either appends one record to the broker's log and
    returns the dict with its timestamp, or raises and appends nothing. *)
Lemma produce_message_spec env topic value key ks :
  exists ks',
    KafkaService.produce_message env topic value key ks
    = (if broker_delivers env ks
       then Return (ensure_timestamp (datetime_now env 3) value)
       else Raise, ks')
    /\ KafkaService.producer ks' = KafkaService.producer ks
    /\ KafkaService.is_running ks' = KafkaService.is_running ks
    /\ KafkaService.sent ks'
       = if broker_delivers env ks
         then (KafkaService.sent ks
               ++ [ {| KafkaService.topic := topic;
                       KafkaService.value :=
                         ensure_timestamp (datetime_now env 3) value;
                       KafkaService.key := key |} ])%list
         else KafkaService.sent ks.
Proof.
  unfold broker_delivers, KafkaService.produce_message.
  destruct ks as [p r pc ec s]; simpl.
  destruct p, r; simpl; try (eexists; repeat split; reflexivity).
  destruct (broker_ack env 0) eqn:E0; simpl; rewrite ?E0; simpl;
    [eexists; repeat split; reflexivity|].
  rewrite ?ensure_timestamp_idem.
  destruct (broker_ack env 1) eqn:E1; simpl; rewrite ?E1; simpl;
    [eexists; repeat split; reflexivity|].
  rewrite ?ensure_timestamp_idem.
  destruct (broker_ack env 2) eqn:E2; simpl; rewrite ?E2; simpl;
    eexists; repeat split; reflexivity.
Qed.

(** A stopped broker service is left as it was: no attempt reaches the
    broker. *)
Lemma produce_message_not_started env topic value key ks :
  KafkaService.producer ks && KafkaService.is_running ks = false ->
  KafkaService.produce_message env topic value key ks = (Raise, ks).
Proof.
  intros H. unfold KafkaService.produce_message. simpl. rewrite H. simpl.
  rewrite H. simpl. rewrite H. reflexivity.
Qed.

Lemma put_record_spec rt env stream_name data partition_key ks :
  exists ks',
    KinesisService.put_record rt env stream_name data partition_key ks
    = (if kinesis_delivers env ks
       then Return (ensure_timestamp (datetime_now env 4) data)
       else Raise, ks')
    /\ KinesisService.client ks' = KinesisService.client ks
    /\ KinesisService.is_running ks' = KinesisService.is_running ks
    /\ KinesisService.sent ks'
       = if kinesis_delivers env ks
         then (KinesisService.sent ks
               ++ [ {| KinesisService.StreamName := stream_name;
                       KinesisService.Data :=
                         json_dumps rt
                           (VDict (ensure_timestamp (datetime_now env 4) data));
                       KinesisService.PartitionKey :=
                         if String.eqb partition_key ""
                         then uuid4 env else partition_key |} ])%list
         else KinesisService.sent ks.
Proof.
  unfold kinesis_delivers, KinesisService.put_record.
  destruct ks as [p r pc ec s]; simpl.
  destruct p, r; simpl; try (eexists; repeat split; reflexivity).
  destruct (kinesis_ack env 0) eqn:E0; simpl; rewrite ?E0; simpl;
    [eexists; repeat split; reflexivity|].
  rewrite ?ensure_timestamp_idem.
  destruct (kinesis_ack env 1) eqn:E1; simpl; rewrite ?E1; simpl;
    [eexists; repeat split; reflexivity|].
  rewrite ?ensure_timestamp_idem.
  destruct (kinesis_ack env 2) eqn:E2; simpl; rewrite ?E2; simpl;
    eexists; repeat split; reflexivity.
Qed.

(** ** Fan-out: what it leaves alone, and when it succeeds *)

Section FanOut.

Variable rt : Runtime.
Variable settings : Settings.

(** The fan-out touches the two services and the metrics buffer only. *)
Lemma handle_frame env topic processed_data message_data sp :
  let sp' :=
    snd (_handle_processed_data rt settings env topic processed_data
           message_data sp) in
  _processing_stats sp' = _processing_stats sp
  /\ _processing_times sp' = _processing_times sp
  /\ _processors sp' = _processors sp
  /\ _last_metrics_flush sp' = _last_metrics_flush sp.
Proof.
  unfold _handle_processed_data, try_except, bind, on_field, ret, raise, modify.
  destruct processed_data; simpl; try done.
  destruct (enable_kafka_output settings); simpl.
  - destruct (KafkaService.produce_message _ _ _ _ _) as [[d1|] ks]; simpl;
      [|done].
    destruct (enable_kinesis_output settings); simpl; [|done].
    destruct (KinesisService.put_record _ _ _ _ _ _) as [[d2|] ks2]; simpl;
      done.
  - destruct (enable_kinesis_output settings); simpl; [|done].
    destruct (KinesisService.put_record _ _ _ _ _ _) as [[d2|] ks2]; simpl;
      done.
Qed.

(** The fan-out of a dict returns exactly when every enabled sink
    delivers. *)
Lemma handle_outcome env topic d message_data sp :
  fst (_handle_processed_data rt settings env topic (VDict d) message_data sp)
  = if fan_out_succeeds settings env sp then Return tt else Raise.
Proof.
  unfold _handle_processed_data, fan_out_succeeds, try_except, bind, on_field,
    ret, raise, modify.
  destruct (enable_kafka_output settings); simpl.
  - destruct (produce_message_spec env (topic ++ "_processed")
                (dict_update d
                   [("processed_at", VStr (datetime_now env 2));
                    ("original_topic", VStr topic);
                    ("original_offset", VInt (RawMessage.offset message_data));
                    ("original_partition",
                     VInt (RawMessage.partition message_data))])
                (RawMessage.key message_data) (kafka_service sp))
      as (ks & H & _ & _ & _).
    simpl in H. rewrite H. clear H.
    destruct (broker_delivers env (kafka_service sp)); simpl; [|done].
    destruct (enable_kinesis_output settings); simpl; [|done].
    match goal with
    | |- context [KinesisService.put_record ?a ?b ?c ?e ?f ?g] =>
        destruct (put_record_spec a b c e f g) as (ks2 & H & _ & _ & _);
        rewrite H; clear H
    end.
    destruct (kinesis_delivers env (kinesis_service sp)); done.
  - destruct (enable_kinesis_output settings); simpl; [|done].
    match goal with
    | |- context [KinesisService.put_record ?a ?b ?c ?e ?f ?g] =>
        destruct (put_record_spec a b c e f g) as (ks2 & H & _ & _ & _);
        rewrite H; clear H
    end.
    destruct (kinesis_delivers env (kinesis_service sp)); done.
Qed.

(** A payload that is not a dict cannot be stamped. *)
Lemma handle_not_dict env topic processed_data message_data sp :
  (forall d, processed_data <> VDict d) ->
  _handle_processed_data rt settings env topic processed_data message_data sp
  = (Raise, sp).
Proof.
  intros H. unfold _handle_processed_data, try_except, raise.
  destruct processed_data; try done. by destruct (H d).
Qed.

(** The body of [_process_message] returns exactly for the handled
    messages. *)
Lemma process_message_body_outcome env message_data sp :
  fst (_process_message_body rt settings env message_data sp)
  = if handled rt settings env message_data sp then Return tt else Raise.
Proof.
  unfold _process_message_body, handled, bind, gets, lift_result, modify.
  destruct (resolve rt (_processors sp) (RawMessage.topic message_data) env
              (RawMessage.value message_data)) as [processed_data|]; [|done].
  pose proof (handle_outcome env (RawMessage.topic message_data)) as Hout.
  destruct processed_data;
    try (rewrite handle_not_dict by (intros ? ?; discriminate); done).
  specialize (Hout d message_data sp).
  destruct (_handle_processed_data _ _ _ _ _ _ _) as [[[]|] sp1];
    simpl in *; by rewrite <- Hout.
Qed.

End FanOut.

(** ** Counting messages *)

(** What one delivered message does to the stream processor: a handled
    message extends the window of processing times and counts as
    processed; any other message counts as an error and leaves the window
    alone. *)
Lemma process_message_effect rt settings env message_data sp :
  let sp' := _process_message rt settings env message_data sp in
  let stats := _processing_stats sp in
  let stats' := _processing_stats sp' in
  let times := (_processing_times sp
                ++ [(time_time env 1 - time_time env 0)%Q])%list in
  _processors sp' = _processors sp
  /\ _last_metrics_flush sp' = _last_metrics_flush sp
  /\ avg_processing_time stats' = avg_processing_time stats
  /\ messages_per_second stats' = messages_per_second stats
  /\ if handled rt settings env message_data sp
     then messages_processed stats' = messages_processed stats + 1
          /\ processing_errors stats' = processing_errors stats
          /\ _processing_times sp'
             = if (1000 <? length times)%nat then keep_last 1000 times
               else times
     else messages_processed stats' = messages_processed stats
          /\ processing_errors stats' = processing_errors stats + 1
          /\ _processing_times sp' = _processing_times sp.
Proof.
  pose proof (process_message_body_outcome rt settings env message_data sp)
    as Hout.
  unfold _process_message, try_except.
  unfold _process_message_body, bind, gets, lift_result, modify in *.
  destruct (handled rt settings env message_data sp);
    destruct (resolve rt (_processors sp) (RawMessage.topic message_data) env
                (RawMessage.value message_data)) as [processed_data|];
    simpl in *; try done.
  - pose proof (handle_frame rt settings env (RawMessage.topic message_data)
                  processed_data message_data sp) as (Hs & Ht & Hp & Hl).
    destruct (_handle_processed_data _ _ _ _ _ _ _) as [[[]|] sp1];
      simpl in *; [|done].
    rewrite Ht.
    destruct (1000 <? _)%nat; simpl; rewrite ?Hs, ?Hp, ?Hl; done.
  - pose proof (handle_frame rt settings env (RawMessage.topic message_data)
                  processed_data message_data sp) as (Hs & Ht & Hp & Hl).
    destruct (_handle_processed_data _ _ _ _ _ _ _) as [[[]|] sp1];
      simpl in *; [done|].
    rewrite ?Hs, ?Ht, ?Hp, ?Hl. done.
Qed.

(** C1 (as amended).  For every delivered message: when the processor and
    the handling of its result (stamping, publishing to every enabled sink,
    recording the metric) succeed, [messages_processed] grows by exactly 1
    and [processing_errors] is unchanged; when the processor or the
    handling fails, [processing_errors] grows by exactly 1 and
    [messages_processed] is unchanged.  No message increments both, and a
    message whose processor raises is always counted as an error. *)
Theorem process_message_counts_once rt settings env message_data sp :
  let sp' := _process_message rt settings env message_data sp in
  let stats := _processing_stats sp in
  let stats' := _processing_stats sp' in
  messages_processed stats'
  = messages_processed stats
    + (if handled rt settings env message_data sp then 1 else 0)
  /\ processing_errors stats'
     = processing_errors stats
       + (if handled rt settings env message_data sp then 0 else 1)
  /\ (resolve rt (_processors sp) (RawMessage.topic message_data) env
        (RawMessage.value message_data) = Raise ->
      messages_processed stats' = messages_processed stats
      /\ processing_errors stats' = processing_errors stats + 1).
Proof.
  pose proof (process_message_effect rt settings env message_data sp)
    as (_ & _ & _ & _ & H).
  cbv zeta.
  assert (Hraise :
    resolve rt (_processors sp) (RawMessage.topic message_data) env
      (RawMessage.value message_data) = Raise ->
    handled rt settings env message_data sp = false).
  { intros E. unfold handled. by rewrite E. }
  destruct (handled rt settings env message_data sp).
  - destruct H as (Hm & He & _). rewrite Hm, He.
    split; [lia|]. split; [lia|].
    intros E. by specialize (Hraise E).
  - destruct H as (Hm & He & _). rewrite Hm, He.
    split; [lia|]. split; [lia|]. done.
Qed.

(** C1, counterexample.  The default processor succeeds on a purchase
    event, but the broker sink is down: the message is counted as an
    error, not as processed. *)
Lemma processor_success_counted_as_error :
  let sp := scenario_processor in
  let env := scenario_env false true in
  let sp' := _process_message scenario_runtime both_sinks env
               purchase_message sp in
  (exists out,
     resolve scenario_runtime (_processors sp)
       (RawMessage.topic purchase_message) env
       (RawMessage.value purchase_message) = Return (VDict out)
     /\ out !! "event_category" = Some (VStr "transaction"))
  /\ messages_processed (_processing_stats sp) = 0
  /\ processing_errors (_processing_stats sp) = 0
  /\ messages_processed (_processing_stats sp') = 0
  /\ processing_errors (_processing_stats sp') = 1.
Proof.
  cbv zeta. split.
  - eexists. split; [vm_compute; reflexivity|]. vm_compute. reflexivity.
  - vm_compute. repeat split; reflexivity.
Qed.

(** ** Fan-out: the order of the two sinks *)

Section FanOutOrder.

Variable rt : Runtime.
Variable settings : Settings.

(** The services and the metrics buffer after a message are those the
    fan-out leaves. *)
Lemma process_message_services env message_data sp processed_data :
  resolve rt (_processors sp) (RawMessage.topic message_data) env
    (RawMessage.value message_data) = Return processed_data ->
  let sp' := _process_message rt settings env message_data sp in
  let h := snd (_handle_processed_data rt settings env
                  (RawMessage.topic message_data) processed_data
                  message_data sp) in
  kafka_service sp' = kafka_service h
  /\ kinesis_service sp' = kinesis_service h
  /\ _metrics_buffer sp' = _metrics_buffer h.
Proof.
  intros E. unfold _process_message, try_except, _process_message_body,
    bind, gets, lift_result, modify.
  rewrite E. simpl.
  destruct (_handle_processed_data _ _ _ _ _ _ _) as [[[]|] sp1]; simpl;
    [|done].
  destruct (1000 <? _)%nat; done.
Qed.

(** What the fan-out of a dict does to the two sinks and to the metrics
    buffer: the broker sink comes first, and the secondary stream is only
    reached when the broker sink is disabled or has delivered. *)
Lemma handle_sinks env topic d message_data sp :
  let sp' :=
    snd (_handle_processed_data rt settings env topic (VDict d)
           message_data sp) in
  let d1 :=
    dict_update d
      [ ("processed_at", VStr (datetime_now env 2));
        ("original_topic", VStr topic);
        ("original_offset", VInt (RawMessage.offset message_data));
        ("original_partition", VInt (RawMessage.partition message_data)) ] in
  let d2 :=
    if enable_kafka_output settings
    then ensure_timestamp (datetime_now env 3) d1 else d1 in
  let d3 :=
    if enable_kinesis_output settings
    then ensure_timestamp (datetime_now env 4) d2 else d2 in
  let broker_ok :=
    negb (enable_kafka_output settings)
    || broker_delivers env (kafka_service sp) in
  KafkaService.sent (kafka_service sp')
  = (if enable_kafka_output settings && broker_delivers env (kafka_service sp)
     then (KafkaService.sent (kafka_service sp)
           ++ [ {| KafkaService.topic := topic ++ "_processed";
                   KafkaService.value := d2;
                   KafkaService.key := RawMessage.key message_data |} ])%list
     else KafkaService.sent (kafka_service sp))
  /\ (enable_kinesis_output settings && broker_ok = false ->
      kinesis_service sp' = kinesis_service sp)
  /\ KinesisService.sent (kinesis_service sp')
     = (if enable_kinesis_output settings && broker_ok
           && kinesis_delivers env (kinesis_service sp)
        then (KinesisService.sent (kinesis_service sp)
              ++ [ {| KinesisService.StreamName := topic ++ "-processed";
                      KinesisService.Data := json_dumps rt (VDict d3);
                      KinesisService.PartitionKey :=
                        if String.eqb (partition_key_of rt d2 message_data) ""
                        then uuid4 env
                        else partition_key_of rt d2 message_data |} ])%list
        else KinesisService.sent (kinesis_service sp))
  /\ _metrics_buffer sp'
     = (if fan_out_succeeds settings env sp
        then (_metrics_buffer sp
              ++ [metric_record rt env topic d3 message_data])%list
        else _metrics_buffer sp).
Proof.
  unfold _handle_processed_data, fan_out_succeeds, try_except, bind, on_field,
    ret, raise, modify.
  cbv zeta.
  set (d1 := dict_update d _).
  destruct (enable_kafka_output settings); simpl.
  - destruct (produce_message_spec env (topic ++ "_processed") d1
                (RawMessage.key message_data) (kafka_service sp))
      as (ks & H & _ & _ & Hsent).
    rewrite H. clear H.
    destruct (broker_delivers env (kafka_service sp)); simpl;
      [|destruct (enable_kinesis_output settings); done].
    destruct (enable_kinesis_output settings); simpl; [|done].
    match goal with
    | |- context [KinesisService.put_record ?a ?b ?c ?e ?f ?g] =>
        destruct (put_record_spec a b c e f g) as (ks2 & H & _ & _ & Hsent2);
        rewrite H; clear H
    end.
    destruct (kinesis_delivers env (kinesis_service sp)); simpl; done.
  - destruct (enable_kinesis_output settings); simpl; [|done].
    match goal with
    | |- context [KinesisService.put_record ?a ?b ?c ?e ?f ?g] =>
        destruct (put_record_spec a b c e f g) as (ks2 & H & _ & _ & Hsent2);
        rewrite H; clear H
    end.
    destruct (kinesis_delivers env (kinesis_service sp)); simpl; done.
Qed.

End FanOutOrder.

(** C2 (as amended).  With both sinks enabled and a processor that
    returned a dict, the fan-out is sequential, broker first.  When the
    secondary stream fails while the broker is up, the stamped message has
    been published to the broker sink, nothing reaches the secondary
    stream, and exactly one processing error is counted.  When the broker
    fails, the secondary stream is not attempted at all (its service is
    left as it was), nothing is published, and exactly one processing error
    is counted. *)
Theorem fan_out_broker_first rt settings env message_data sp d :
  enable_kafka_output settings = true ->
  enable_kinesis_output settings = true ->
  resolve rt (_processors sp) (RawMessage.topic message_data) env
    (RawMessage.value message_data) = Return (VDict d) ->
  let sp' := _process_message rt settings env message_data sp in
  let stats := _processing_stats sp in
  let stats' := _processing_stats sp' in
  let published :=
    {| KafkaService.topic := RawMessage.topic message_data ++ "_processed";
       KafkaService.value :=
         ensure_timestamp (datetime_now env 3) (stamped env message_data d);
       KafkaService.key := RawMessage.key message_data |} in
  (broker_delivers env (kafka_service sp) = true ->
   kinesis_delivers env (kinesis_service sp) = false ->
   KafkaService.sent (kafka_service sp')
   = (KafkaService.sent (kafka_service sp) ++ [published])%list
   /\ KinesisService.sent (kinesis_service sp')
      = KinesisService.sent (kinesis_service sp)
   /\ processing_errors stats' = processing_errors stats + 1
   /\ messages_processed stats' = messages_processed stats)
  /\ (broker_delivers env (kafka_service sp) = false ->
      kinesis_service sp' = kinesis_service sp
      /\ KafkaService.sent (kafka_service sp')
         = KafkaService.sent (kafka_service sp)
      /\ processing_errors stats' = processing_errors stats + 1
      /\ messages_processed stats' = messages_processed stats).
Proof.
  intros Hk Hs E. cbv zeta.
  destruct (process_message_services rt settings env message_data sp _ E)
    as (-> & -> & _).
  pose proof (handle_sinks rt settings env (RawMessage.topic message_data) d
                message_data sp) as (Hsent & Hskip & Hsent2 & _).
  pose proof (process_message_effect rt settings env message_data sp)
    as (_ & _ & _ & _ & Hcount).
  unfold handled, fan_out_succeeds in Hcount.
  rewrite E, Hk, Hs in Hcount. rewrite Hk, Hs in *. simpl in *.
  split.
  - intros Hb Hn. rewrite Hb, Hn in *. simpl in *.
    destruct Hcount as (? & ? & _). done.
  - intros Hb. rewrite Hb in *. simpl in *.
    destruct Hcount as (? & ? & _). split; [by apply Hskip|done].
Qed.

(** C2, witness: the broker is up and the secondary stream is down. *)
Lemma fan_out_broker_first_witness :
  KafkaService.sent
    (kafka_service
       (_process_message scenario_runtime both_sinks (scenario_env true false)
          purchase_message scenario_processor))
  = [ {| KafkaService.topic := "unknown_topic_processed";
         KafkaService.value :=
           ensure_timestamp "2024-01-01T00:00:00"
             (stamped (scenario_env true false) purchase_message
                purchase_enriched);
         KafkaService.key := Some "k1" |} ]
  /\ KinesisService.sent
       (kinesis_service
          (_process_message scenario_runtime both_sinks
             (scenario_env true false) purchase_message scenario_processor))
     = []
  /\ processing_errors
       (_processing_stats
          (_process_message scenario_runtime both_sinks
             (scenario_env true false) purchase_message scenario_processor))
     = 1.
Proof.
  destruct (fan_out_broker_first scenario_runtime both_sinks
              (scenario_env true false) purchase_message scenario_processor
              purchase_enriched eq_refl eq_refl)
    as [H _].
  - vm_compute. reflexivity.
  - destruct (H eq_refl eq_refl) as (H1 & H2 & H3 & _).
    split; [exact H1|]. split; [exact H2|exact H3].
Defined.

(** C2, counterexample.  Both sinks are enabled, the secondary stream is up
    and the broker is down: the failure of the broker suppresses the
    attempt on the secondary stream, whose service is left untouched. *)
Lemma broker_failure_suppresses_secondary_stream :
  let sp := scenario_processor in
  let env := scenario_env false true in
  let sp' := _process_message scenario_runtime both_sinks env
               purchase_message sp in
  kinesis_delivers env (kinesis_service sp) = true
  /\ broker_delivers env (kafka_service sp) = false
  /\ (exists out,
        resolve scenario_runtime (_processors sp)
          (RawMessage.topic purchase_message) env
          (RawMessage.value purchase_message) = Return (VDict out))
  /\ kinesis_service sp' = started_kinesis
  /\ KinesisService.sent (kinesis_service sp') = []
  /\ KinesisService.produced_count (kinesis_service sp') = 0
  /\ KinesisService.error_count (kinesis_service sp') = 0.
Proof.
  cbv zeta. split; [reflexivity|]. split; [reflexivity|]. split.
  - eexists. vm_compute. reflexivity.
  - vm_compute. repeat split; reflexivity.
Qed.

(** ** Flushing the metrics buffer *)

Section Flush.

Variable settings : Settings.

(** The flush never raises, and touches the broker service and the
    metrics buffer only. *)
Lemma flush_frame env sp :
  let sp' := snd (_flush_metrics_buffer settings env sp) in
  fst (_flush_metrics_buffer settings env sp) = Return tt
  /\ _processing_stats sp' = _processing_stats sp
  /\ _processing_times sp' = _processing_times sp
  /\ _processors sp' = _processors sp
  /\ _last_metrics_flush sp' = _last_metrics_flush sp
  /\ kinesis_service sp' = kinesis_service sp.
Proof.
  unfold _flush_metrics_buffer, try_except, bind, gets, on_field, ret, modify.
  simpl. destruct (_metrics_buffer sp); simpl; [done|].
  destruct (enable_metrics_to_kafka settings); simpl; [|done].
  destruct (KafkaService.produce_message _ _ _ _ _) as [[d|] ks]; done.
Qed.

(** The batch has no timestamp of its own: [produce_message] adds one. *)
Lemma metrics_batch_stamped env buffer now :
  ensure_timestamp now (metrics_batch env buffer)
  = <["timestamp" := VStr now]> (metrics_batch env buffer).
Proof.
  unfold ensure_timestamp, metrics_batch, dict_update. cbn [foldl fst snd].
  by simplify_map_eq.
Qed.

(** What the flush does to the buffer and to the broker's log. *)
Lemma flush_effect env sp :
  let sp' := snd (_flush_metrics_buffer settings env sp) in
  let buffer := _metrics_buffer sp in
  let sent := KafkaService.sent (kafka_service sp) in
  let batch :=
    {| KafkaService.topic := "processing_metrics";
       KafkaService.value :=
         ensure_timestamp (datetime_now env 3) (metrics_batch env buffer);
       KafkaService.key := None |} in
  match buffer with
  | [] => sp' = sp
  | _ :: _ =>
      if enable_metrics_to_kafka settings then
        if broker_delivers env (kafka_service sp) then
          _metrics_buffer sp' = []
          /\ KafkaService.sent (kafka_service sp') = (sent ++ [batch])%list
        else
          _metrics_buffer sp' = buffer
          /\ KafkaService.sent (kafka_service sp') = sent
      else
        _metrics_buffer sp' = [] /\ kafka_service sp' = kafka_service sp
  end.
Proof.
  unfold _flush_metrics_buffer, try_except, bind, gets, on_field, ret, modify.
  cbv zeta. simpl.
  destruct (_metrics_buffer sp) as [|r buffer] eqn:Hb; simpl; [done|].
  destruct (enable_metrics_to_kafka settings); simpl; [|done].
  destruct (produce_message_spec env "processing_metrics"
              (metrics_batch env (r :: buffer)) None (kafka_service sp))
    as (ks & H & _ & _ & Hsent).
  rewrite H. clear H.
  destruct (broker_delivers env (kafka_service sp)); simpl; done.
Qed.

End Flush.

(** C3 (as amended).  A flush never raises.  On a non-empty buffer: when
    the batch is sent to the broker and the broker delivers, the buffer is
    empty afterwards (so no record present before the flush is in it) and
    the records buffered before the flush have been emitted once, as a
    single batch that lists them in order with their count; when sending is
    disabled, the buffer is emptied and nothing is emitted; when the broker
    does not deliver, the buffer is left as it was and nothing is
    emitted. *)
Theorem flush_clears_after_emitting settings env sp :
  let sp' := snd (_flush_metrics_buffer settings env sp) in
  let buffer := _metrics_buffer sp in
  let sent := KafkaService.sent (kafka_service sp) in
  fst (_flush_metrics_buffer settings env sp) = Return tt
  /\ match buffer with
     | [] => sp' = sp
     | _ :: _ =>
         if enable_metrics_to_kafka settings then
           if broker_delivers env (kafka_service sp) then
             length (_metrics_buffer sp') = 0%nat
             /\ (forall r, r ∈ buffer -> r ∉ _metrics_buffer sp')
             /\ exists batch,
                  KafkaService.sent (kafka_service sp')
                  = (sent ++ [batch])%list
                  /\ KafkaService.topic batch = "processing_metrics"
                  /\ KafkaService.value batch !! "metrics"
                     = Some (VList (MetricRecord.to_value <$> buffer))
                  /\ KafkaService.value batch !! "count"
                     = Some (VInt (Z.of_nat (length buffer)))
           else
             _metrics_buffer sp' = buffer
             /\ KafkaService.sent (kafka_service sp') = sent
         else
           length (_metrics_buffer sp') = 0%nat
           /\ kafka_service sp' = kafka_service sp
     end.
Proof.
  cbv zeta. split; [apply flush_frame|].
  pose proof (flush_effect settings env sp) as H. cbv zeta in H.
  destruct (_metrics_buffer sp) as [|r buffer]; [done|].
  destruct (enable_metrics_to_kafka settings).
  - destruct (broker_delivers env (kafka_service sp)); [|done].
    destruct H as (Hb & Hs). rewrite Hb. split; [done|].
    split; [intros ? _; apply not_elem_of_nil|].
    eexists. split; [exact Hs|]. cbn [KafkaService.topic KafkaService.value].
    split; [done|]. rewrite metrics_batch_stamped.
    unfold metrics_batch, dict_update. cbn [foldl fst snd].
    split; by simplify_map_eq.
  - destruct H as (Hb & Hs). by rewrite Hb.
Qed.

(** C3, counterexample.  The batch is to be sent to the broker and the
    broker is down: after the flush the buffer still holds its record. *)
Lemma flush_keeps_buffer_when_broker_down :
  let r := orders_metric in
  let sp := set_metrics_buffer [r] scenario_processor in
  let sp' := snd (_flush_metrics_buffer both_sinks (scenario_env false true)
                    sp) in
  fst (_flush_metrics_buffer both_sinks (scenario_env false true) sp)
  = Return tt
  /\ _metrics_buffer sp' = [r]
  /\ length (_metrics_buffer sp') = 1%nat.
Proof.
  cbv zeta. split; [apply flush_frame|]. vm_compute. split; reflexivity.
Qed.

(** ** The metrics turn *)

(** What one metrics turn does to the statistics. *)
Lemma collect_metrics_cycle_effect settings env sp :
  let sp' := _collect_metrics_cycle settings env sp in
  let stats := _processing_stats sp in
  let stats' := _processing_stats sp' in
  let time_diff := (time_time env 0 - _last_metrics_flush sp)%Q in
  messages_processed stats' = 0
  /\ processing_errors stats' = 0
  /\ _last_metrics_flush sp' = time_time env 0
  /\ messages_per_second stats'
     = match (0 ?= time_diff)%Q with
       | Lt => (inject_Z (messages_processed stats) / time_diff)%Q
       | _ => 0%Q
       end
  /\ avg_processing_time stats'
     = match _processing_times sp with
       | [] => avg_processing_time stats
       | _ :: _ => statistics_mean (_processing_times sp)
       end
  /\ _processing_times sp' = _processing_times sp
  /\ _processors sp' = _processors sp.
Proof.
  unfold _collect_metrics_cycle. cbv zeta.
  set (sp1 := match _processing_times sp with [] => sp | _ => _ end).
  set (sp2 := set_processing_stats _ sp1).
  set (sp3 := if _ <? _ then _ else sp2).
  assert (H3 : _processing_stats sp3 = _processing_stats sp2
               /\ _processing_times sp3 = _processing_times sp2
               /\ _processors sp3 = _processors sp2).
  { unfold sp3. destruct (_ <? _); [|done].
    pose proof (flush_frame settings env sp2) as (_ & ? & ? & ? & _). done. }
  destruct H3 as (Hs & Ht & Hp). simpl. rewrite Hs, Ht, Hp.
  unfold sp2, sp1. destruct (_processing_times sp) eqn:E; simpl; done.
Qed.

Lemma Q_of_count_nonzero (n : nat) : ~ (inject_Z (Z.of_nat (S n)) == 0)%Q.
Proof. unfold Qeq. simpl. lia. Qed.


(** Between two metrics turns the counter of processed messages counts
    the handled deliveries, and the boundary stays where the last turn
    put it. *)
Lemma run_counts_handled rt settings evs sp :
  no_metrics_cycle evs = true ->
  messages_processed (_processing_stats (run rt settings evs sp))
  = messages_processed (_processing_stats sp)
    + handled_count rt settings evs sp
  /\ _last_metrics_flush (run rt settings evs sp) = _last_metrics_flush sp.
Proof.
  unfold run. revert sp.
  induction evs as [|ev evs IH]; intros sp Hn.
  { simpl. split; [lia|done]. }
  unfold no_metrics_cycle in Hn. cbn [forallb] in Hn.
  apply andb_prop in Hn as [Hev Hn].
  cbn [foldl handled_count].
  destruct (IH (step rt settings sp ev) Hn) as (-> & ->).
  destruct ev as [topic processor|env message_data|env]; [| |done];
    cbn [step].
  - simpl. split; [lia|done].
  - pose proof (process_message_effect rt settings env message_data sp)
      as (_ & Hl & _ & _ & H).
    cbv zeta in *. rewrite Hl. split; [|done].
    destruct (handled rt settings env message_data sp);
      destruct H as (-> & _); lia.
Qed.



(** ** Rounding to binary64 *)

Lemma round_half_even_nearest (n d M : Z) :
  0 < d ->
  2 * Z.abs (round_half_even n d * d - n) <= d
  /\ Z.abs (round_half_even n d * d - n) <= Z.abs (M * d - n).
Proof.
  intros Hd. unfold round_half_even.
  pose proof (Z.div_mod n d ltac:(lia)) as Hn.
  pose proof (Z.mod_pos_bound n d Hd) as Hr.
  set (q := n / d) in *. set (r := n mod d) in *.
  assert (HM : M <= q \/ q + 1 <= M) by lia.
  destruct (Z.ltb_spec (2 * r) d); [split; nia|].
  destruct (Z.ltb_spec d (2 * r)); [split; nia|].
  destruct (Z.even q); split; nia.
Qed.

Lemma inject_Z_pos (d : Z) : 0 < d -> (0 < inject_Z d)%Q.
Proof. intros H. unfold Qlt. simpl. lia. Qed.

Lemma Qabs_inject_Z (z : Z) : Qabs (inject_Z z) = inject_Z (Z.abs z).
Proof. reflexivity. Qed.

Lemma inject_Z_div_minus (a n d : Z) :
  0 < d ->
  (inject_Z a - inject_Z n / inject_Z d
   == inject_Z (a * d - n) / inject_Z d)%Q.
Proof.
  intros Hd. unfold Zminus. rewrite inject_Z_plus, inject_Z_mult, inject_Z_opp.
  field. intros H. apply (inject_Z_injective d 0) in H. lia.
Qed.

Lemma Qabs_div_pos (a : Q) (d : Z) :
  0 < d -> (Qabs (a / inject_Z d) == Qabs a / inject_Z d)%Q.
Proof.
  intros Hd. unfold Qdiv. rewrite Qabs_Qmult, Qabs_Qinv.
  rewrite (Qabs_pos (inject_Z d)); [reflexivity|].
  apply Qlt_le_weak. by apply inject_Z_pos.
Qed.

(** The rounded quotient is within one half of the quotient, and no
    integer is nearer. *)
Lemma round_half_even_Q (n d M : Z) :
  0 < d ->
  (Qabs (inject_Z (round_half_even n d) - inject_Z n / inject_Z d) <= 1 # 2
   /\ Qabs (inject_Z (round_half_even n d) - inject_Z n / inject_Z d)
      <= Qabs (inject_Z M - inject_Z n / inject_Z d))%Q.
Proof.
  intros Hd.
  destruct (round_half_even_nearest n d M Hd) as [H1 H2].
  assert (Hd' : (0 < inject_Z d)%Q) by (by apply inject_Z_pos).
  rewrite !inject_Z_div_minus, !Qabs_div_pos, !Qabs_inject_Z by done.
  split.
  - apply Qle_shift_div_r; [done|].
    rewrite Zle_Qle, inject_Z_mult in H1.
    change (inject_Z 2) with 2%Q in H1. lra.
  - apply Qmult_le_compat_r.
    + rewrite <- Zle_Qle. lia.
    + apply Qlt_le_weak, Qinv_lt_0_compat. done.
Qed.

Lemma pow2_pos (e : Z) : (0 < 2 ^ e)%Q.
Proof. by apply Qpower_0_lt. Qed.

Lemma pow2_nonzero (e : Z) : ~ (2 ^ e == 0)%Q.
Proof. pose proof (pow2_pos e). lra. Qed.

Lemma pow2_Z (e : Z) : 0 <= e -> (inject_Z (2 ^ e) == 2 ^ e)%Q.
Proof. intros H. by rewrite Zpower_Qpower. Qed.

Lemma pow2_succ (e : Z) : (2 ^ (e + 1) == 2 * 2 ^ e)%Q.
Proof. rewrite Qpower_plus by done. rewrite Qpower_1_r. ring. Qed.

Lemma pow2_pred (e : Z) : (2 ^ (e - 1) == (1 # 2) * 2 ^ e)%Q.
Proof.
  pose proof (pow2_succ (e - 1)) as H.
  replace (e - 1 + 1) with e in H by lia. lra.
Qed.

Lemma pow2_le (a b : Z) : a <= b -> (2 ^ a <= 2 ^ b)%Q.
Proof. intros H. by apply Qpower_le_compat_l. Qed.

(** The quotient that [binary64] rounds is [x] in units of [2^e]. *)
Lemma binary64_scaled (x : Q) (e : Z) :
  0 < Z.pos (Qden x) * 2 ^ Z.max 0 e
  /\ (inject_Z (Qnum x * 2 ^ Z.max 0 (- e))
      / inject_Z (Z.pos (Qden x) * 2 ^ Z.max 0 e)
      == x / 2 ^ e)%Q.
Proof.
  split; [lia|].
  destruct x as [a b]. cbn [Qnum Qden].
  rewrite (Qmake_Qdiv a b), !inject_Z_mult.
  rewrite !pow2_Z by lia.
  assert (Hb : ~ (inject_Z (Z.pos b) == 0)%Q)
    by (pose proof (inject_Z_pos (Z.pos b) ltac:(lia)); lra).
  destruct (Z.le_gt_cases 0 e) as [He|He].
  - replace (Z.max 0 (- e)) with 0 by lia.
    replace (Z.max 0 e) with e by lia.
    rewrite Qpower_0_r.
    field; repeat split; first [apply pow2_nonzero | exact Hb].
  - replace (Z.max 0 (- e)) with (- e) by lia.
    replace (Z.max 0 e) with 0 by lia.
    rewrite Qpower_0_r, Qpower_opp.
    field; repeat split; first [apply pow2_nonzero | exact Hb].
Qed.

(** [binary64 x] is a multiple of [2^e], within half of [2^e] of [x], and
    no multiple of [2^e] is nearer. *)
Lemma binary64_multiple (x : Q) :
  ~ (x == 0)%Q ->
  exists m,
    (binary64 x == inject_Z m * 2 ^ binary64_exponent x)%Q
    /\ (Qabs (binary64 x - x) <= 2 ^ (binary64_exponent x - 1))%Q
    /\ (forall M,
          Qabs (binary64 x - x)
          <= Qabs (inject_Z M * 2 ^ binary64_exponent x - x))%Q.
Proof.
  intros Hx. unfold binary64.
  destruct (Z.eqb_spec (Qnum x) 0) as [H0|_].
  { destruct Hx. destruct x as [a b]. simpl in H0. by subst. }
  cbv zeta. set (e := binary64_exponent x).
  destruct (binary64_scaled x e) as [Hd Hs].
  set (n := Qnum x * 2 ^ Z.max 0 (- e)) in *.
  set (d := Z.pos (Qden x) * 2 ^ Z.max 0 e) in *.
  exists (round_half_even n d).
  rewrite Qred_correct. split; [reflexivity|].
  pose proof (pow2_pos e) as Hp.
  assert (A : forall M,
    (Qabs (inject_Z M * 2 ^ e - x)
     == Qabs (inject_Z M - inject_Z n / inject_Z d) * 2 ^ e)%Q).
  { intros M. rewrite Hs.
    rewrite <- (Qabs_pos (2 ^ e)) at 3 by lra.
    rewrite <- Qabs_Qmult. apply Qabs_wd. field. apply pow2_nonzero. }
  split.
  - rewrite A, pow2_pred.
    destruct (round_half_even_Q n d 0 Hd) as [H _].
    apply (Qmult_le_compat_r _ _ (2 ^ e)) in H; [done|lra].
  - intros M. rewrite Qred_correct, !A.
    destruct (round_half_even_Q n d M Hd) as [_ H].
    apply Qmult_le_compat_r; [done|lra].
Qed.

Lemma log2_bounds_Q (p : Z) :
  0 < p ->
  (2 ^ Z.log2 p <= inject_Z p)%Q /\ (inject_Z p < 2 * 2 ^ Z.log2 p)%Q.
Proof.
  intros Hp. pose proof (Z.log2_spec p Hp) as [H1 H2].
  pose proof (Z.log2_nonneg p) as H0.
  rewrite Zle_Qle, pow2_Z in H1 by done.
  rewrite Zlt_Qlt, pow2_Z in H2 by lia.
  replace (Z.succ (Z.log2 p)) with (Z.log2 p + 1) in H2 by lia.
  rewrite pow2_succ in H2. done.
Qed.

(** [Qlog2 x] is the binary order of magnitude of [x]. *)
Lemma Qlog2_spec (x : Q) :
  ~ (x == 0)%Q ->
  (2 ^ Qlog2 x <= Qabs x)%Q /\ (Qabs x < 2 ^ (Qlog2 x + 1))%Q.
Proof.
  intros Hx. destruct x as [a b]. unfold Qlog2. cbn [Qnum Qden].
  assert (Ha : 0 < Z.abs a).
  { destruct (Z.eq_dec a 0) as [->|]; [|lia]. by destruct Hx. }
  change (Qabs (a # b)) with (Z.abs a # b).
  rewrite (Qmake_Qdiv (Z.abs a) b).
  set (p := Z.abs a) in *. set (q := Z.pos b).
  assert (Hq : 0 < q) by done.
  destruct (log2_bounds_Q p Ha) as [Hp1 Hp2].
  destruct (log2_bounds_Q q Hq) as [Hq1 Hq2].
  pose proof (inject_Z_pos q Hq) as HQ.
  set (d := Z.log2 p - Z.log2 q).
  assert (Hd : (2 ^ d * 2 ^ Z.log2 q == 2 ^ Z.log2 p)%Q).
  { rewrite <- Qpower_plus by done. by replace (d + Z.log2 q) with (Z.log2 p)
      by (unfold d; lia). }
  pose proof (pow2_pos d) as Hd0.
  assert (Hlo : (2 ^ d * 2 ^ Z.log2 q <= 2 ^ d * inject_Z q)%Q).
  { rewrite !(Qmult_comm (2 ^ d)). apply Qmult_le_compat_r; lra. }
  assert (Hhi : (2 ^ d * inject_Z q < 2 ^ d * (2 * 2 ^ Z.log2 q))%Q).
  { rewrite !(Qmult_comm (2 ^ d)). apply Qmult_lt_compat_r; lra. }
  assert (T : q * 2 ^ Z.max 0 d <= p * 2 ^ Z.max 0 (- d)
              <-> (2 ^ d * inject_Z q <= inject_Z p)%Q).
  { rewrite Zle_Qle, !inject_Z_mult, !pow2_Z by lia.
    destruct (Z.le_gt_cases 0 d) as [H|H].
    - replace (Z.max 0 d) with d by lia.
      replace (Z.max 0 (- d)) with 0 by lia.
      rewrite Qpower_0_r. split; intros; lra.
    - replace (Z.max 0 d) with 0 by lia.
      replace (Z.max 0 (- d)) with (- d) by lia.
      rewrite Qpower_0_r, Qpower_opp.
      pose proof (Qmult_inv_r (2 ^ d) (pow2_nonzero d)) as Hi.
      pose proof (Qinv_lt_0_compat _ Hd0) as Hi0.
      split; intros H'.
      + apply (Qmult_le_compat_r _ _ (2 ^ d)) in H'; [|lra].
        assert (E : (inject_Z p * / 2 ^ d * 2 ^ d == inject_Z p)%Q)
          by (field; apply pow2_nonzero).
        rewrite E in H'. lra.
      + apply (Qmult_le_compat_r _ _ (/ 2 ^ d)) in H'; [|lra].
        assert (E : (2 ^ d * inject_Z q * / 2 ^ d == inject_Z q)%Q)
          by (field; apply pow2_nonzero).
        rewrite E in H'. lra. }
  destruct (Z.leb_spec (q * 2 ^ Z.max 0 d) (p * 2 ^ Z.max 0 (- d)))
    as [H|H].
  - apply T in H. split.
    + apply Qle_shift_div_l; [done|lra].
    + apply Qlt_shift_div_r; [done|]. rewrite pow2_succ. lra.
  - assert (H' : (inject_Z p < 2 ^ d * inject_Z q)%Q).
    { apply Qnot_le_lt. intros H'. apply T in H'. lia. }
    split.
    + apply Qle_shift_div_l; [done|]. rewrite pow2_pred. lra.
    + replace (d - 1 + 1) with d by lia.
      apply Qlt_shift_div_r; [done|lra].
Qed.

Lemma Qnum_zero (x : Q) : Qnum x = 0 <-> (x == 0)%Q.
Proof. destruct x as [a b]. unfold Qeq. simpl. lia. Qed.

Lemma binary64_zero (x : Q) : (x == 0)%Q -> binary64 x = 0%Q.
Proof.
  intros H. apply Qnum_zero in H. unfold binary64. by rewrite H.
Qed.

(** A binary64 value whose last digit is below [2^e] is smaller than
    every value of 53 digits that ends at [2^e], by half of [2^e] at
    least. *)
Lemma is_binary64_below (m e e' : Z) :
  Z.abs m < 2 ^ 53 -> e' < e ->
  (Qabs (inject_Z m * 2 ^ e') <= 2 ^ (e + 52) - 2 ^ (e - 1))%Q.
Proof.
  intros Hm He.
  rewrite Qabs_Qmult, Qabs_inject_Z, (Qabs_pos (2 ^ e'))
    by (apply Qlt_le_weak, pow2_pos).
  assert (H1 : (inject_Z (Z.abs m) <= inject_Z (2 ^ 53) - 1)%Q).
  { assert (H : Z.abs m <= 2 ^ 53 + - (1)) by lia.
    rewrite Zle_Qle, inject_Z_plus in H. exact H. }
  assert (H2 : (2 ^ e' <= 2 ^ (e - 1))%Q) by (apply pow2_le; lia).
  assert (H3 : (2 ^ (e + 52) == inject_Z (2 ^ 53) * 2 ^ (e - 1))%Q).
  { rewrite pow2_Z by lia. rewrite <- Qpower_plus by done.
    by replace (53 + (e - 1)) with (e + 52) by lia. }
  rewrite H3.
  pose proof (pow2_pos e') as P1. pose proof (pow2_pos (e - 1)) as P2.
  assert (H4 : (inject_Z (Z.abs m) * 2 ^ e'
                <= (inject_Z (2 ^ 53) - 1) * 2 ^ (e - 1))%Q).
  { apply Qmult_le_compat_nonneg; split; try lra.
    rewrite <- Qabs_inject_Z. apply Qabs_nonneg. }
  set (u := (2 ^ (e - 1))%Q) in *. set (c := inject_Z (2 ^ 53)) in *.
  lra.
Qed.

(** No binary64 value is nearer to [x] than [binary64 x]. *)
Lemma binary64_nearest (x y : Q) :
  is_binary64 y -> (Qabs (binary64 x - x) <= Qabs (y - x))%Q.
Proof.
  intros (m & e' & Hm & He' & Hy).
  destruct (Qeq_dec x 0) as [H0|H0].
  { rewrite (binary64_zero x H0), H0.
    change (0 <= Qabs (y - 0))%Q. apply Qabs_nonneg. }
  destruct (binary64_multiple x H0) as (m0 & _ & Herr & Hnear).
  set (e := binary64_exponent x) in *.
  destruct (Z.le_gt_cases e e') as [H|H].
  - rewrite Hy.
    assert (E : (inject_Z m * 2 ^ e'
                 == inject_Z (m * 2 ^ (e' - e)) * 2 ^ e)%Q).
    { rewrite inject_Z_mult, pow2_Z by lia.
      rewrite <- Qmult_assoc, <- Qpower_plus by done.
      by replace (e' - e + e) with e' by lia. }
    rewrite E. apply Hnear.
  - assert (Hk : e = Qlog2 x - 52) by (unfold e, binary64_exponent in *; lia).
    destruct (Qlog2_spec x H0) as [Hlo _].
    replace (Qlog2 x) with (e + 52) in Hlo by lia.
    pose proof (is_binary64_below m e e' Hm H) as Hb.
    rewrite <- Hy in Hb.
    pose proof (Qabs_triangle_reverse x y) as Ht.
    rewrite (Qabs_Qminus y x).
    set (u := (2 ^ (e - 1))%Q) in *. set (v := (2 ^ (e + 52))%Q) in *.
    lra.
Qed.

Lemma max_binary64_lt : (max_binary64 < 2 ^ 1024)%Q.
Proof.
  unfold max_binary64.
  assert (H : (2 ^ 1024 == inject_Z (2 ^ 53) * 2 ^ 971)%Q).
  { rewrite pow2_Z by lia. by rewrite <- Qpower_plus. }
  rewrite H. apply Qmult_lt_compat_r; [apply pow2_pos|].
  rewrite <- Zlt_Qlt. lia.
Qed.

(** Within the range of binary64, [binary64 x] is a binary64 value. *)
Lemma binary64_is_binary64 (x : Q) :
  (Qabs x <= max_binary64)%Q -> is_binary64 (binary64 x).
Proof.
  intros Hmax.
  destruct (Qeq_dec x 0) as [H0|H0].
  { rewrite (binary64_zero x H0). exists 0, 0. by repeat split. }
  destruct (binary64_multiple x H0) as (m & Hm & Herr & _).
  destruct (Qlog2_spec x H0) as [Hlo Hhi].
  set (e := binary64_exponent x) in *.
  assert (He : - 1074 <= e /\ Qlog2 x - 52 <= e)
    by (unfold e, binary64_exponent; lia).
  assert (Hk : Qlog2 x < 1024).
  { apply (Qpower_lt_compat_l_inv 2); [|done].
    pose proof max_binary64_lt. lra. }
  assert (He' : e <= 971) by (unfold e, binary64_exponent; lia).
  pose proof (pow2_pos e) as Hu.
  assert (Hx : (Qabs x < inject_Z (2 ^ 53) * 2 ^ e)%Q).
  { rewrite pow2_Z by lia. rewrite <- Qpower_plus by done.
    eapply Qlt_le_trans; [exact Hhi|]. apply pow2_le. lia. }
  assert (B : (inject_Z (Z.abs m) * 2 ^ e <= Qabs x + (1 # 2) * 2 ^ e)%Q).
  { pose proof (Qabs_triangle x (binary64 x - x)) as T.
    assert (Ew : (x + (binary64 x - x) == binary64 x)%Q) by ring.
    rewrite Ew, Hm, Qabs_Qmult, Qabs_inject_Z in T.
    rewrite (Qabs_pos (2 ^ e)) in T by lra.
    rewrite Hm, pow2_pred in Herr. lra. }
  assert (Hm53 : Z.abs m <= 2 ^ 53).
  { apply Z.nlt_ge. intros H.
    assert (H' : 2 ^ 53 + 1 <= Z.abs m) by lia.
    rewrite Zle_Qle, inject_Z_plus in H'.
    apply (Qmult_le_compat_r _ _ (2 ^ e)) in H'; [|lra].
    change (inject_Z 1) with 1%Q in H'.
    set (u := (2 ^ e)%Q) in *. set (c := inject_Z (2 ^ 53)) in *.
    set (a := inject_Z (Z.abs m)) in *. lra. }
  destruct (Z.eq_dec (Z.abs m) (2 ^ 53)) as [E|E].
  - assert (He970 : e <= 970).
    { apply Z.nlt_ge. intros H. assert (e = 971) as He971 by lia.
      unfold max_binary64 in Hmax. rewrite <- He971 in Hmax.
      rewrite E in B.
      unfold Zminus in Hmax. rewrite inject_Z_plus in Hmax.
      change (inject_Z (- (1))) with (- (1))%Q in Hmax.
      set (u := (2 ^ e)%Q) in *. set (c := inject_Z (2 ^ 53)) in *. lra. }
    exists (m / 2), (e + 1). split; [|split; [lia|]].
    + assert (Z.abs (m / 2) = 2 ^ 52) as ->; [|done].
      destruct (Z.abs_spec m) as [[_ A]|[_ A]]; rewrite A in E.
      * rewrite E. done.
      * replace m with (- 2 ^ 53) by lia. done.
    + rewrite Hm, pow2_succ.
      assert (A : m = 2 * (m / 2)).
      { destruct (Z.abs_spec m) as [[_ A]|[_ A]]; rewrite A in E.
        - rewrite E. done.
        - replace m with (- 2 ^ 53) by lia. done. }
      rewrite A at 1. rewrite inject_Z_mult.
      change (inject_Z 2) with 2%Q. ring.
  - exists m, e. split; [lia|]. split; [lia|done].
Qed.

(** A binary64 value is its own rounding. *)
Lemma binary64_exact (x : Q) : is_binary64 x -> (binary64 x == x)%Q.
Proof.
  intros H. pose proof (binary64_nearest x x H) as Hn.
  assert (E : (x - x == 0)%Q) by ring. rewrite E in Hn.
  change (Qabs 0) with 0%Q in Hn.
  apply Qabs_Qle_condition in Hn. lra.
Qed.

Lemma is_binary64_bound (y : Q) :
  is_binary64 y -> (Qabs y <= max_binary64)%Q.
Proof.
  intros (m & e & Hm & He & ->).
  rewrite Qabs_Qmult, Qabs_inject_Z, (Qabs_pos (2 ^ e))
    by (apply Qlt_le_weak, pow2_pos).
  unfold max_binary64.
  apply Qmult_le_compat_nonneg; split.
  - rewrite <- Qabs_inject_Z. apply Qabs_nonneg.
  - rewrite <- Zle_Qle. lia.
  - apply Qlt_le_weak, pow2_pos.
  - apply pow2_le. lia.
Qed.

(** The mean of samples that are bounded by [b] is bounded by [b]. *)
Lemma Qsum_bound (b : Q) (l : list Q) :
  Forall (fun x => Qabs x <= b)%Q l ->
  (Qabs (fold_right Qplus 0 l) <= inject_Z (Z.of_nat (length l)) * b)%Q.
Proof.
  induction 1 as [|x l Hx Hl IH]; cbn [fold_right length].
  { change (0 <= 0 * b)%Q. lra. }
  rewrite Nat2Z.inj_succ. unfold Z.succ. rewrite inject_Z_plus.
  change (inject_Z 1) with 1%Q.
  pose proof (Qabs_triangle x (fold_right Qplus 0%Q l)). lra.
Qed.

Lemma mean_bound (b : Q) (l : list Q) :
  l <> [] ->
  Forall (fun x => Qabs x <= b)%Q l ->
  (Qabs (fold_right Qplus 0 l / inject_Z (Z.of_nat (length l))) <= b)%Q.
Proof.
  intros Hl H. pose proof (Qsum_bound b l H) as Hs.
  assert (Hn : 0 < Z.of_nat (length l)) by (destruct l; [done|simpl; lia]).
  rewrite Qabs_div_pos by done.
  apply Qle_shift_div_r; [by apply inject_Z_pos|]. lra.
Qed.

Lemma round_half_even_tie (n d : Z) :
  0 < d ->
  2 * Z.abs (round_half_even n d * d - n) = d ->
  Z.even (round_half_even n d) = true.
Proof.
  intros Hd. unfold round_half_even.
  pose proof (Z.div_mod n d ltac:(lia)) as Hn.
  pose proof (Z.mod_pos_bound n d Hd) as Hr.
  set (q := n / d) in *. set (r := n mod d) in *.
  destruct (Z.ltb_spec (2 * r) d); [nia|].
  destruct (Z.ltb_spec d (2 * r)); [nia|].
  destruct (Z.even q) eqn:E; [done|].
  intros _. rewrite Z.even_add, E. done.
Qed.

(** Half-way between two multiples of [2^e], [binary64 x] is the even
    one. *)
Lemma binary64_tie_even (x : Q) :
  exists m,
    (binary64 x == inject_Z m * 2 ^ binary64_exponent x)%Q
    /\ ((Qabs (binary64 x - x) == 2 ^ (binary64_exponent x - 1))%Q ->
        Z.even m = true).
Proof.
  destruct (Qeq_dec x 0) as [H0|H0].
  { exists 0. rewrite (binary64_zero x H0). split; [|done].
    change (inject_Z 0) with 0%Q. ring. }
  unfold binary64.
  destruct (Z.eqb_spec (Qnum x) 0) as [Hz|_].
  { destruct H0. by apply Qnum_zero. }
  cbv zeta. set (e := binary64_exponent x).
  destruct (binary64_scaled x e) as [Hd Hs].
  set (n := Qnum x * 2 ^ Z.max 0 (- e)) in *.
  set (d := Z.pos (Qden x) * 2 ^ Z.max 0 e) in *.
  exists (round_half_even n d).
  rewrite Qred_correct. split; [reflexivity|].
  intros Ht. apply round_half_even_tie; [done|].
  pose proof (pow2_pos e) as Hp.
  pose proof (inject_Z_pos d Hd) as Hd'.
  assert (A : (Qabs (inject_Z (round_half_even n d) * 2 ^ e - x)
               == inject_Z (Z.abs (round_half_even n d * d - n))
                  / inject_Z d * 2 ^ e)%Q).
  { rewrite <- Qabs_inject_Z, <- Qabs_div_pos, <- inject_Z_div_minus, Hs
      by done.
    rewrite <- (Qabs_pos (2 ^ e)) at 3 by lra.
    rewrite <- Qabs_Qmult. apply Qabs_wd. field. apply pow2_nonzero. }
  rewrite A, pow2_pred in Ht.
  apply Qmult_inj_r in Ht; [|apply pow2_nonzero].
  apply (Qmult_inj_r _ _ (inject_Z d)) in Ht; [|lra].
  assert (E : (inject_Z (Z.abs (round_half_even n d * d - n)) / inject_Z d
               * inject_Z d
               == inject_Z (Z.abs (round_half_even n d * d - n)))%Q)
    by (field; lra).
  rewrite E in Ht.
  apply inject_Z_injective.
  rewrite inject_Z_mult. change (inject_Z 2) with 2%Q. lra.
Qed.

(** C9.  A metrics turn leaves [avg_processing_time] as it was when the
    window of processing times is empty.  Otherwise it sets it to the
    arithmetic mean of the window as binary64 arithmetic has it: the
    rounding of the exact sum of the samples over their number.  No
    binary64 value is nearer to that exact mean than the value written;
    the value written is a binary64 value when the samples are; it is the
    exact mean itself when that is a binary64 value; and half-way between
    two neighbours it is the one with the even significand. *)
Theorem metrics_cycle_average settings env sp :
  let sp' := _collect_metrics_cycle settings env sp in
  let window := _processing_times sp in
  let avg := avg_processing_time (_processing_stats sp) in
  let avg' := avg_processing_time (_processing_stats sp') in
  match window with
  | [] => avg' = avg
  | _ :: _ =>
      let mean :=
        (fold_right Qplus 0 window
         / inject_Z (Z.of_nat (length window)))%Q in
      avg' = binary64 mean
      /\ (forall y, is_binary64 y ->
           (Qabs (avg' - mean) <= Qabs (y - mean))%Q)
      /\ (Forall is_binary64 window -> is_binary64 avg')
      /\ (is_binary64 mean -> (avg' == mean)%Q)
      /\ (exists m,
            (avg' == inject_Z m * 2 ^ binary64_exponent mean)%Q
            /\ ((Qabs (avg' - mean) == 2 ^ (binary64_exponent mean - 1))%Q
                -> Z.even m = true))
  end.
Proof.
  cbv zeta.
  pose proof (collect_metrics_cycle_effect settings env sp)
    as (_ & _ & _ & _ & Ha & _).
  destruct (_processing_times sp) as [|x window] eqn:E; [done|].
  cbv zeta in Ha. rewrite Ha. unfold statistics_mean, Qsum.
  split; [done|]. split; [|split; [|split]].
  - intros y Hy. by apply binary64_nearest.
  - intros Hw. apply binary64_is_binary64, mean_bound; [done|].
    eapply Forall_impl; [exact Hw|]. apply is_binary64_bound.
  - apply binary64_exact.
  - apply binary64_tie_even.
Qed.

(** When the elapsed time is not positive the rate is set to zero. *)
Lemma metrics_cycle_rate_guard settings env sp :
  (time_time env 0 <= _last_metrics_flush sp)%Q ->
  messages_per_second
    (_processing_stats (_collect_metrics_cycle settings env sp)) = 0%Q.
Proof.
  intros Hle.
  pose proof (collect_metrics_cycle_effect settings env sp)
    as (_ & _ & _ & Hr & _).
  cbv zeta in Hr. rewrite Hr.
  destruct (0 ?= _)%Q eqn:E; try done.
  apply Qlt_alt in E. exfalso. apply (Qlt_not_le _ _ E).
  apply (Qplus_le_l _ _ (_last_metrics_flush sp)). ring_simplify. exact Hle.
Qed.

(** ** Classification of amounts *)

Lemma lt_int_below amount k :
  is_int_or_float amount = true ->
  exists c, lt_int amount k = Return c /\ (c = true <-> below amount k).
Proof.
  destruct amount; try discriminate; intros _; simpl; eexists;
    (split; [reflexivity|]).
  - apply Z.ltb_lt.
  - apply Z.ltb_lt.
  - reflexivity.
Qed.

(** C5.  Every numeric amount (int, bool or float) gets exactly the
    bucket of the thresholds: below 10 ["micro"], else below 100 ["small"],
    else below 1000 ["medium"], else below 10000 ["large"], and
    ["enterprise"] for all the others; the boundary values fall as
    listed. *)
Theorem categorize_amount_boundaries :
  (forall amount, is_int_or_float amount = true ->
     exists c,
       _categorize_amount amount = Return c
       /\ (below amount 10 -> c = "micro")
       /\ (~ below amount 10 -> below amount 100 -> c = "small")
       /\ (~ below amount 10 -> ~ below amount 100 ->
           below amount 1000 -> c = "medium")
       /\ (~ below amount 10 -> ~ below amount 100 ->
           ~ below amount 1000 -> below amount 10000 -> c = "large")
       /\ (~ below amount 10 -> ~ below amount 100 ->
           ~ below amount 1000 -> ~ below amount 10000 ->
           c = "enterprise"))
  /\ (forall n : Z,
        _categorize_amount (VInt n)
        = Return (if decide (n < 10) then "micro"
                  else if decide (n < 100) then "small"
                  else if decide (n < 1000) then "medium"
                  else if decide (n < 10000) then "large"
                  else "enterprise"))
  /\ _categorize_amount (VFloat 9.99) = Return "micro"
  /\ _categorize_amount (VInt 10) = Return "small"
  /\ _categorize_amount (VFloat 10) = Return "small"
  /\ _categorize_amount (VFloat 99.99) = Return "small"
  /\ _categorize_amount (VInt 100) = Return "medium"
  /\ _categorize_amount (VFloat 100) = Return "medium"
  /\ _categorize_amount (VFloat 999.99) = Return "medium"
  /\ _categorize_amount (VInt 1000) = Return "large"
  /\ _categorize_amount (VFloat 1000) = Return "large"
  /\ _categorize_amount (VFloat 9999.99) = Return "large"
  /\ _categorize_amount (VInt 10000) = Return "enterprise"
  /\ _categorize_amount (VFloat 10000) = Return "enterprise".
Proof.
  split; [|split; [|repeat split; reflexivity]].
  2:{ intros n. unfold _categorize_amount, lt_int. simpl.
      repeat case_decide;
        repeat match goal with
               | |- context [?a <? ?b] =>
                   destruct (Z.ltb_spec a b); simpl; try lia
               end; reflexivity. }
  intros amount Hnum. unfold _categorize_amount.
  destruct (lt_int_below amount 10 Hnum) as (c1 & -> & H1).
  destruct (lt_int_below amount 100 Hnum) as (c2 & -> & H2).
  destruct (lt_int_below amount 1000 Hnum) as (c3 & -> & H3).
  destruct (lt_int_below amount 10000 Hnum) as (c4 & -> & H4).
  simpl.
  assert (Hn : forall (c : bool) P, (c = true <-> P) -> c = false -> ~ P).
  { intros c P H E HP. apply H in HP. congruence. }
  destruct c1 eqn:E1.
  { eexists. split; [reflexivity|]. pose proof (proj1 H1 eq_refl).
    repeat split; intros; first [reflexivity | contradiction]. }
  pose proof (Hn _ _ H1 eq_refl) as N1.
  destruct c2 eqn:E2.
  { eexists. split; [reflexivity|]. pose proof (proj1 H2 eq_refl).
    repeat split; intros; first [reflexivity | contradiction]. }
  pose proof (Hn _ _ H2 eq_refl) as N2.
  destruct c3 eqn:E3.
  { eexists. split; [reflexivity|]. pose proof (proj1 H3 eq_refl).
    repeat split; intros; first [reflexivity | contradiction]. }
  pose proof (Hn _ _ H3 eq_refl) as N3.
  destruct c4 eqn:E4.
  { eexists. split; [reflexivity|]. pose proof (proj1 H4 eq_refl).
    repeat split; intros; first [reflexivity | contradiction]. }
  pose proof (Hn _ _ H4 eq_refl) as N4.
  eexists. split; [reflexivity|].
  repeat split; intros; first [reflexivity | contradiction].
Qed.

(** ** The window of processing times *)

Lemma keep_last_length {A} (n : nat) (l : list A) :
  (n < length l)%nat -> length (keep_last n l) = n.
Proof. intros H. unfold keep_last. rewrite length_drop. lia. Qed.

Lemma keep_last_suffix {A} (n : nat) (l : list A) :
  (take (length l - n) l ++ keep_last n l)%list = l.
Proof. apply take_drop. Qed.

Section Window.

Variable rt : Runtime.
Variable settings : Settings.

(** The window after one delivered message. *)
Lemma process_message_window env message_data sp :
  let times := (_processing_times sp
                ++ [(time_time env 1 - time_time env 0)%Q])%list in
  _processing_times (_process_message rt settings env message_data sp)
  = if handled rt settings env message_data sp
    then if (1000 <? length times)%nat then keep_last 1000 times else times
    else _processing_times sp.
Proof.
  pose proof (process_message_effect rt settings env message_data sp)
    as (_ & _ & _ & _ & H).
  cbv zeta in *. destruct (handled rt settings env message_data sp);
    by destruct H as (_ & _ & ->).
Qed.

(** Every step keeps a window of at most 1000 samples that way. *)
Lemma step_window_bounded sp ev :
  (length (_processing_times sp) <= 1000)%nat ->
  (length (_processing_times (step rt settings sp ev)) <= 1000)%nat.
Proof.
  intros Hle. destruct ev as [topic processor|env message_data|env];
    cbn [step].
  - exact Hle.
  - rewrite process_message_window.
    destruct (handled rt settings env message_data sp); [|exact Hle].
    destruct (Nat.ltb_spec 1000
                (length (_processing_times sp
                         ++ [(time_time env 1 - time_time env 0)%Q]))).
    + by rewrite keep_last_length.
    + done.
  - pose proof (collect_metrics_cycle_effect settings env sp)
      as (_ & _ & _ & _ & _ & Ht & _).
    cbv zeta in Ht. by rewrite Ht.
Qed.

Lemma run_window_bounded evs sp :
  (length (_processing_times sp) <= 1000)%nat ->
  (length (_processing_times (run rt settings evs sp)) <= 1000)%nat.
Proof.
  unfold run. revert sp.
  induction evs as [|ev evs IH]; intros sp Hle; simpl; [exact Hle|].
  apply IH, step_window_bounded, Hle.
Qed.

End Window.

(** C6.  However many processors are registered, messages delivered and
    metrics turns taken after the construction of the stream processor,
    the window of processing times holds at most 1000 samples.  Each
    handled message appends its duration, and when that makes more than
    1000 samples only the last 1000 are kept: the oldest are dropped.  A
    message that is not handled leaves the window as it was. *)
Theorem processing_times_window_bounded rt settings :
  (forall kafka kinesis now t evs,
     (length (_processing_times
                (run rt settings evs (__init__ kafka kinesis now t)))
      <= 1000)%nat)
  /\ (forall env message_data sp,
        let times := (_processing_times sp
                      ++ [(time_time env 1 - time_time env 0)%Q])%list in
        _processing_times (_process_message rt settings env message_data sp)
        = if handled rt settings env message_data sp
          then if (1000 <? length times)%nat
               then keep_last 1000 times else times
          else _processing_times sp)
  /\ (forall times : list Q,
        (1000 < length times)%nat ->
        length (keep_last 1000 times) = 1000%nat
        /\ (take (length times - 1000) times ++ keep_last 1000 times)%list
           = times).
Proof.
  split; [|split].
  - intros. apply run_window_bounded. simpl. lia.
  - intros. apply process_message_window.
  - intros times H. split; [by apply keep_last_length|apply keep_last_suffix].
Qed.

(** ** The registry *)

(** C7.  Resolving a processor is total: for every registry and every
    topic it yields a processor, the registered one when the topic has one
    and the default processor otherwise, and the default processor returns
    a payload on every input.  The last registration for a topic wins, and
    after the registration of the built-in processors the topics
    ["orders"], ["users"] and ["events"] resolve to them. *)
Theorem resolve_total rt :
  (forall (processors : gmap string Processor) (topic : string),
     exists processor : Processor,
       resolve rt processors topic = processor
       /\ match processors !! topic with
          | Some registered => processor = registered
          | None =>
              processor
              = (fun env value => Return (_default_processor rt env value))
          end)
  /\ (forall (processors : gmap string Processor) topic env value,
        processors !! topic = None ->
        resolve rt processors topic env value
        = Return (_default_processor rt env value))
  /\ (forall sp topic processor,
        resolve rt (_processors (register_processor topic processor sp)) topic
        = processor)
  /\ (forall sp,
        let processors := _processors (_register_default_processors rt sp) in
        resolve rt processors "orders" = order_processor rt
        /\ resolve rt processors "users" = user_processor rt
        /\ resolve rt processors "events" = event_processor).
Proof.
  split; [|split; [|split]].
  - intros processors topic. eexists. split; [reflexivity|].
    unfold resolve. by destruct (processors !! topic).
  - intros processors topic env value H. unfold resolve. by rewrite H.
  - intros sp topic processor. unfold resolve, register_processor. simpl.
    by rewrite lookup_insert_eq.
  - intros sp. unfold resolve, _register_default_processors. simpl.
    by simplify_map_eq.
Qed.

(** ** The default processor *)

Section DefaultProcessor.

Variable rt : Runtime.

(** The stamps of the default processor leave the other keys alone. *)
Lemma default_stamps_lookup env (d : gmap string value) (k : string) :
  k <> "processor_id" -> k <> "enriched_at" -> k <> "processing_version" ->
  k <> "timestamp" ->
  ensure_timestamp (datetime_now env 1)
    (dict_update d
       [ ("processor_id", VStr "default");
         ("enriched_at", VStr (datetime_now env 0));
         ("processing_version", VStr "1.0") ]) !! k
  = d !! k.
Proof.
  intros. unfold ensure_timestamp, dict_update. cbn [foldl fst snd].
  destruct (_ !! "timestamp"); by simplify_map_eq.
Qed.

(** A numeric amount always has a bucket. *)
Lemma categorize_amount_returns amount :
  is_int_or_float amount = true ->
  exists c, _categorize_amount amount = Return c.
Proof.
  intros H. unfold _categorize_amount.
  destruct (lt_int_below amount 10 H) as ([] & -> & _); simpl; eauto.
  destruct (lt_int_below amount 100 H) as ([] & -> & _); simpl; eauto.
  destruct (lt_int_below amount 1000 H) as ([] & -> & _); simpl; eauto.
  destruct (lt_int_below amount 10000 H) as ([] & -> & _); simpl; eauto.
Qed.

(** Reads the returned dict off the equation in the goal and looks its
    fields up; [L] says what the stamped dict holds. *)
Ltac fields_of_result L :=
  intros [= <-]; eexists; (split; [reflexivity|]);
  destruct (_ !! "user_id"); simplify_map_eq; rewrite ?L by done; done.

(** The enrichment of a dict, when it returns, returns a dict with the same
    source fields and with the classification fields the input is due. *)
Lemma default_processor_body_fields env d v :
  _default_processor_body rt env (VDict d) = Return v ->
  exists d',
    v = VDict d'
    /\ d' !! "event_type" = d !! "event_type"
    /\ d' !! "amount" = d !! "amount"
    /\ d' !! "event_category" = event_category_of rt d
    /\ d' !! "amount_category" = amount_category_of d.
Proof.
  unfold _default_processor_body, event_category_of, amount_category_of.
  set (p0 := ensure_timestamp _ _).
  assert (L : forall k, k <> "processor_id" -> k <> "enriched_at" ->
                        k <> "processing_version" -> k <> "timestamp" ->
                        p0 !! k = d !! k)
    by (intros; by apply default_stamps_lookup).
  clearbody p0.
  rewrite (L "event_type") by done.
  destruct (d !! "event_type") as [event_type|] eqn:Et.
  - destruct (_categorize_event rt event_type) as [c|]; simpl; [|done].
    rewrite lookup_insert_ne, (L "amount") by done.
    destruct (d !! "amount") as [amount|] eqn:Ea.
    + destruct (is_int_or_float amount) eqn:Hn.
      * destruct (categorize_amount_returns amount Hn) as (b & ->). simpl.
        fields_of_result L.
      * simpl. fields_of_result L.
    + simpl. fields_of_result L.
  - simpl. rewrite (L "amount") by done.
    destruct (d !! "amount") as [amount|] eqn:Ea.
    + destruct (is_int_or_float amount) eqn:Hn.
      * destruct (categorize_amount_returns amount Hn) as (b & ->). simpl.
        fields_of_result L.
      * simpl. fields_of_result L.
    + simpl. fields_of_result L.
Qed.

(** The enrichment raises exactly when the payload is not a dict or its
    [event_type] is not a string, whatever the clock shows. *)
Lemma default_processor_body_raises env data :
  _default_processor_body rt env data = Raise
  <-> match data with
      | VDict d =>
          exists event_type,
            d !! "event_type" = Some event_type
            /\ _categorize_event rt event_type = Raise
      | _ => True
      end.
Proof.
  destruct data; try done.
  unfold _default_processor_body.
  set (p0 := ensure_timestamp _ _).
  assert (L : forall k, k <> "processor_id" -> k <> "enriched_at" ->
                        k <> "processing_version" -> k <> "timestamp" ->
                        p0 !! k = d !! k)
    by (intros; by apply default_stamps_lookup).
  clearbody p0.
  rewrite (L "event_type") by done.
  assert (A : forall p : gmap string value,
    (let? processed_data :=
       match p !! "amount" with
       | Some amount =>
           if is_int_or_float amount then
             let? c := _categorize_amount amount in
             Return (<["amount_category" := VStr c]> p)
           else Return p
       | None => Return p
       end in
     Return
       (VDict
          match processed_data !! "user_id" with
          | Some user_id =>
              <["session_info" := _get_session_info rt env user_id]>
                processed_data
          | None => processed_data
          end)) <> Raise).
  { intros p. destruct (p !! "amount") as [amount|]; [|done].
    destruct (is_int_or_float amount) eqn:Hn; [|done].
    by destruct (categorize_amount_returns amount Hn) as (b & ->). }
  destruct (d !! "event_type") as [event_type|].
  - destruct (_categorize_event rt event_type) as [c|] eqn:Ec; simpl.
    + split; [intros H; by apply A in H|].
      intros (et & [= <-] & H). congruence.
    + split; [|done]. intros _. by exists event_type.
  - simpl. split; [intros H; by apply A in H|]. by intros (et & ? & _).
Qed.

End DefaultProcessor.

(** C8.  Applying the default processor to a payload it has already
    processed leaves [event_category] and [amount_category] as they are:
    the values computed again are the ones the payload carries, whatever
    the clock shows at each application. *)
Theorem default_processor_keeps_categories rt env1 env2 data :
  let once := _default_processor rt env1 data in
  let twice := _default_processor rt env2 once in
  field twice "event_category" = field once "event_category"
  /\ field twice "amount_category" = field once "amount_category".
Proof.
  cbv zeta.
  destruct (_default_processor_body rt env1 data) as [v|] eqn:E1.
  - assert (H1 : _default_processor rt env1 data = v)
      by (unfold _default_processor; by rewrite E1).
    rewrite H1. clear H1.
    destruct data as [| | | | | |d]; try discriminate E1.
    destruct (default_processor_body_fields rt env1 d v E1)
      as (d' & -> & Het & Ha & Hec & Hac).
    destruct (_default_processor_body rt env2 (VDict d')) as [v2|] eqn:E2.
    + assert (H2 : _default_processor rt env2 (VDict d') = v2)
        by (unfold _default_processor; by rewrite E2).
      rewrite H2. clear H2.
      destruct (default_processor_body_fields rt env2 d' v2 E2)
        as (d'' & -> & _ & _ & Hec2 & Hac2).
      simpl. rewrite Hec2, Hac2, Hec, Hac.
      unfold event_category_of, amount_category_of.
      rewrite Het, Ha, Hec, Hac.
      unfold event_category_of, amount_category_of. split.
      * destruct (d !! "event_type") as [event_type|]; [|done].
        by destruct (_categorize_event rt event_type).
      * destruct (d !! "amount") as [amount|]; [|done].
        destruct (is_int_or_float amount); [|done].
        by destruct (_categorize_amount amount).
    + assert (H2 : _default_processor rt env2 (VDict d') = VDict d')
        by (unfold _default_processor; by rewrite E2).
      by rewrite H2.
  - assert (H1 : _default_processor rt env1 data = data)
      by (unfold _default_processor; by rewrite E1).
    rewrite H1.
    apply default_processor_body_raises in E1.
    apply (default_processor_body_raises rt env2) in E1.
    assert (H2 : _default_processor rt env2 data = data)
      by (unfold _default_processor; by rewrite E1).
    by rewrite H2.
Qed.

(** ** The built-in processor of the ["users"] topic *)

Lemma split_nonempty sep s : split sep s <> [].
Proof.
  destruct s as [|c s]; simpl; [done|].
  destruct (Ascii.eqb c sep); [done|]. by destruct (split sep s).
Qed.

(** No piece of a split holds the separator. *)
Lemma split_pieces sep s : Forall (fun p => has_char sep p = false) (split sep s).
Proof.
  induction s as [|c s IH]; simpl; [by repeat constructor|].
  destruct (Ascii.eqb c sep) eqn:E; [by constructor|].
  destruct (split sep s) as [|piece pieces]; simpl.
  - repeat constructor. simpl. by rewrite E.
  - inversion IH as [|? ? Hp Hps]; subst. constructor; [|done].
    simpl. by rewrite E, Hp.
Qed.

(** Joining the pieces with the separator gives the string back. *)
Lemma concat_split sep s :
  String.concat (String sep EmptyString) (split sep s) = s.
Proof.
  induction s as [|c s IH]; simpl; [done|].
  destruct (Ascii.eqb_spec c sep) as [->|Hne].
  - pose proof (split_nonempty sep s).
    destruct (split sep s) as [|piece pieces]; [done|].
    simpl in *. by rewrite IH.
  - destruct (split sep s) as [|piece pieces] eqn:E.
    + by destruct (split_nonempty sep s).
    + simpl in *. destruct pieces; simpl in *; by rewrite <- IH.
Qed.

Lemma string_app_assoc (a b c : string) : (a ++ b) ++ c = a ++ b ++ c.
Proof.
  induction a as [|x a IH]; [done|].
  change (String x ((a ++ b) ++ c) = String x (a ++ b ++ c)).
  by rewrite IH.
Qed.

(** A joined non-empty list ends with its last element, which comes
    right after a separator when there is more than one element. *)
Lemma concat_last sep (l : list string) :
  l <> [] ->
  String.concat (String sep EmptyString) l = List.last l EmptyString
  \/ exists pre,
       String.concat (String sep EmptyString) l
       = pre ++ String sep (List.last l EmptyString).
Proof.
  induction l as [|x l IH]; [done|]. intros _.
  destruct l as [|y l]; [by left|].
  change (String.concat (String sep EmptyString) (x :: y :: l))
    with (x ++ String sep EmptyString
            ++ String.concat (String sep EmptyString) (y :: l)).
  change (List.last (x :: y :: l) EmptyString)
    with (List.last (y :: l) EmptyString).
  right. destruct IH as [IH|(pre & IH)]; [done| |]; rewrite IH.
  - by exists x.
  - exists (x ++ String sep pre).
    by rewrite string_app_assoc.
Qed.

(** [email.split("@")[-1]] is what follows the last ['@'] of the email. *)
Lemma split_last_after_at email :
  after_last_at email (last_piece (split "@" email)).
Proof.
  unfold after_last_at, last_piece. split.
  - pose proof (split_pieces "@" email) as H.
    pose proof (split_nonempty "@" email) as Hne.
    induction H as [|p l Hp Hl IH]; [done|].
    destruct l; [exact Hp|]. by apply IH.
  - pose proof (concat_last "@" (split "@" email) (split_nonempty _ _)) as H.
    by rewrite concat_split in H.
Qed.

Lemma determine_user_segment_returns rt user_id :
  match user_id with VList _ | VDict _ => False | _ => True end ->
  exists segment, _determine_user_segment rt user_id = Return segment.
Proof.
  intros H. unfold _determine_user_segment.
  pose proof (Z.mod_pos_bound (py_hash rt user_id) 4 eq_refl) as Hb.
  assert (Hlt : (Z.to_nat (py_hash rt user_id `mod` 4) < 4)%nat) by lia.
  destruct (Z.to_nat _) as [|[|[|[|n]]]]; [| | | |lia];
    destruct user_id; try done; simpl; eauto.
Qed.

(** C10.  Whenever the built-in processor of the ["users"] topic returns,
    its input was a dict and its output is a dict without [email]; when
    the input had an [email], it was a string and the output has an
    [email_domain] that is what follows the last ['@'] of that email;
    when the input had no [email], the output has the [email_domain] of
    the input, if any.  The processor returns for every dict whose
    [email], if any, is a string and whose [user_id], if any, is
    hashable. *)
Theorem user_processor_anonymizes_email rt env :
  (forall data out,
     user_processor rt env data = Return out ->
     exists d o,
       data = VDict d /\ out = VDict o
       /\ o !! "email" = None
       /\ match d !! "email" with
          | Some e =>
              exists email dom,
                e = VStr email
                /\ o !! "email_domain" = Some (VStr dom)
                /\ dom = last_piece (split "@" email)
                /\ after_last_at email dom
          | None => o !! "email_domain" = d !! "email_domain"
          end)
  /\ (forall d,
        user_id_hashable d = true ->
        match d !! "email" with Some (VStr _) | None => True | _ => False end ->
        exists o, user_processor rt env (VDict d) = Return (VDict o)).
Proof.
  split.
  - intros data out. unfold user_processor.
    destruct data as [| | | | | |d]; try discriminate.
    assert (Hstep : forall p : gmap string value,
      p !! "email" = d !! "email" ->
      p !! "email_domain" = d !! "email_domain" ->
      (let? processed :=
         match p !! "email" with
         | Some (VStr email) =>
             Return
               (delete "email"
                  (<["email_domain" := VStr (last_piece (split "@" email))]>
                     p))
         | Some _ => Raise
         | None => Return p
         end in
       Return (VDict (<["processed_by" := VStr "user_processor"]> processed)))
      = Return out ->
      exists d0 o,
        VDict d = VDict d0 /\ out = VDict o
        /\ o !! "email" = None
        /\ match d0 !! "email" with
           | Some e =>
               exists email dom,
                 e = VStr email
                 /\ o !! "email_domain" = Some (VStr dom)
                 /\ dom = last_piece (split "@" email)
                 /\ after_last_at email dom
           | None => o !! "email_domain" = d0 !! "email_domain"
           end).
    { intros p He Hd. rewrite He.
      destruct (d !! "email") as [e|] eqn:E; simpl.
      - destruct e; try discriminate. simpl. intros [= <-].
        exists d. eexists. split; [done|]. split; [done|].
        split; [by simplify_map_eq|]. rewrite E.
        exists s. eexists. split; [done|]. split; [by simplify_map_eq|].
        split; [done|]. apply split_last_after_at.
      - intros [= <-]. exists d. eexists. split; [done|]. split; [done|].
        rewrite E. split; by simplify_map_eq. }
    destruct (d !! "user_id") as [user_id|].
    + destruct (_determine_user_segment rt user_id) as [segment|]; simpl;
        [|discriminate].
      apply Hstep; by simplify_map_eq.
    + simpl. by apply Hstep.
  - intros d Hh He. unfold user_processor, user_id_hashable in *.
    destruct (d !! "user_id") as [user_id|] eqn:Eu.
    + destruct (determine_user_segment_returns rt user_id) as (segment & ->).
      { by destruct user_id. }
      simpl. rewrite lookup_insert_ne by done.
      destruct (d !! "email") as [[]|]; try done; simpl; eauto.
    + simpl. destruct (d !! "email") as [[]|]; try done; simpl; eauto.
Qed.

Example user_processor_example :
  user_processor scenario_runtime (scenario_env true true)
    (VDict (dict_update ∅ [("email", VStr "ada@example.org");
                            ("name", VStr "Ada")]))
  = Return
      (VDict (dict_update ∅ [("email_domain", VStr "example.org");
                              ("name", VStr "Ada");
                              ("processed_by", VStr "user_processor")])).
Proof. vm_compute. reflexivity. Qed.

(** * Further properties of the pipeline *)

(** ** Every delivery is counted once *)

Lemma run_counts_errors rt settings evs sp :
  no_metrics_cycle evs = true ->
  processing_errors (_processing_stats (run rt settings evs sp))
  = processing_errors (_processing_stats sp)
    + (deliveries evs - handled_count rt settings evs sp).
Proof.
  unfold run. revert sp.
  induction evs as [|ev evs IH]; intros sp Hn.
  { simpl. lia. }
  unfold no_metrics_cycle in Hn. cbn [forallb] in Hn.
  apply andb_prop in Hn as [Hev Hn].
  cbn [foldl handled_count].
  rewrite (IH (step rt settings sp ev) Hn).
  destruct ev as [topic processor|env message_data|env]; [| |done];
    cbn [step deliveries].
  - simpl. lia.
  - pose proof (process_message_effect rt settings env message_data sp)
      as (_ & _ & _ & _ & H).
    cbv zeta in H.
    destruct (handled rt settings env message_data sp);
      destruct H as (_ & -> & _); lia.
Qed.

(** X1.  Between two metrics turns every delivered message is counted
    exactly once: the two counters together grow by the number of
    deliveries, [messages_processed] by the handled ones and
    [processing_errors] by the others. *)
Theorem every_delivery_counted_once rt settings evs sp :
  no_metrics_cycle evs = true ->
  let stats := _processing_stats sp in
  let stats' := _processing_stats (run rt settings evs sp) in
  messages_processed stats' + processing_errors stats'
  = messages_processed stats + processing_errors stats + deliveries evs
  /\ messages_processed stats'
     = messages_processed stats + handled_count rt settings evs sp
  /\ processing_errors stats'
     = processing_errors stats
       + (deliveries evs - handled_count rt settings evs sp).
Proof.
  intros Hn. cbv zeta.
  destruct (run_counts_handled rt settings evs sp Hn) as [Hm _].
  pose proof (run_counts_errors rt settings evs sp Hn) as He.
  lia.
Qed.

(** X1, witness: two purchase events, the second with the broker down. *)
Lemma every_delivery_counted_once_witness :
  messages_processed
    (_processing_stats
       (run scenario_runtime both_sinks
          [Deliver (scenario_env true true) purchase_message;
           Deliver (scenario_env false true) purchase_message]
          scenario_processor)) = 1
  /\ processing_errors
       (_processing_stats
          (run scenario_runtime both_sinks
             [Deliver (scenario_env true true) purchase_message;
              Deliver (scenario_env false true) purchase_message]
             scenario_processor)) = 1.
Proof.
  destruct (every_delivery_counted_once scenario_runtime both_sinks
              [Deliver (scenario_env true true) purchase_message;
               Deliver (scenario_env false true) purchase_message]
              scenario_processor eq_refl)
    as (_ & Hm & He).
  split; [exact Hm|exact He].
Defined.

(** ** The window holds the last durations *)

Lemma last_1000_drop (l : list Q) : last_1000 l = drop (length l - 1000) l.
Proof.
  unfold last_1000, keep_last.
  destruct (Nat.ltb_spec 1000 (length l)); [done|].
  by replace (length l - 1000)%nat with 0%nat by lia.
Qed.

Lemma last_1000_app (a b : list Q) :
  last_1000 (last_1000 a ++ b) = last_1000 (a ++ b).
Proof.
  rewrite !last_1000_drop, !length_app, length_drop.
  destruct (Nat.le_gt_cases (length a) 1000) as [Hle|Hgt].
  - replace (length a - 1000)%nat with 0%nat by lia. simpl.
    by rewrite Nat.sub_0_r.
  - replace (length a - (length a - 1000) + length b - 1000)%nat
      with (length b) by lia.
    replace (length a + length b - 1000)%nat
      with ((length a - 1000) + length b)%nat by lia.
    rewrite <- drop_drop. f_equal.
    rewrite drop_app_le by lia. done.
Qed.

(** X2.  Starting from a window of at most 1000 samples, the window after
    any run is made of the last 1000 samples of the earlier window
    followed by the processing times of the handled messages, in the
    order of their delivery; registrations, unhandled messages and metrics
    turns contribute nothing. *)
Theorem window_holds_last_durations rt settings evs sp :
  (length (_processing_times sp) <= 1000)%nat ->
  _processing_times (run rt settings evs sp)
  = last_1000 (_processing_times sp
               ++ handled_durations rt settings evs sp).
Proof.
  unfold run. revert sp.
  induction evs as [|ev evs IH]; intros sp Hle.
  { simpl. rewrite app_nil_r, last_1000_drop.
    by replace (length (_processing_times sp) - 1000)%nat with 0%nat by lia. }
  cbn [foldl handled_durations].
  rewrite IH by (by apply step_window_bounded).
  destruct ev as [topic processor|env message_data|env]; cbn [step].
  - done.
  - rewrite process_message_window.
    destruct (handled rt settings env message_data sp); [|done].
    change (if (1000 <? length ?l)%nat then keep_last 1000 ?l else ?l)
      with (last_1000 l).
    by rewrite last_1000_app, <- app_assoc.
  - pose proof (collect_metrics_cycle_effect settings env sp)
      as (_ & _ & _ & _ & _ & Ht & _).
    cbv zeta in Ht. by rewrite Ht.
Qed.

(** X2, witness: a handled and an unhandled purchase event leave the one
    duration of the handled one. *)
Lemma window_holds_last_durations_witness :
  _processing_times
    (run scenario_runtime both_sinks
       [Deliver (scenario_env true true) purchase_message;
        Deliver (scenario_env false true) purchase_message]
       scenario_processor)
  = [1%Q].
Proof.
  rewrite (window_holds_last_durations scenario_runtime both_sinks
             [Deliver (scenario_env true true) purchase_message;
              Deliver (scenario_env false true) purchase_message]
             scenario_processor) by (simpl; lia).
  vm_compute. reflexivity.
Defined.

(** ** What a message leaves in the buffer and in the sinks *)

Lemma ensure_timestamp_lookup_ne now (d : gmap string value) k :
  k <> "timestamp" -> ensure_timestamp now d !! k = d !! k.
Proof.
  intros H. unfold ensure_timestamp.
  destruct (d !! "timestamp"); [done|]. by rewrite lookup_insert_ne.
Qed.

Lemma ensure_timestamp_is_Some now (d : gmap string value) :
  is_Some (ensure_timestamp now d !! "timestamp").
Proof.
  unfold ensure_timestamp. destruct (d !! "timestamp") eqn:E.
  - by rewrite E.
  - by rewrite lookup_insert_eq.
Qed.

(** A message whose processor raises leaves the sinks and the buffer
    alone. *)
Lemma process_message_raise_services rt settings env message_data sp :
  resolve rt (_processors sp) (RawMessage.topic message_data) env
    (RawMessage.value message_data) = Raise ->
  let sp' := _process_message rt settings env message_data sp in
  kafka_service sp' = kafka_service sp
  /\ kinesis_service sp' = kinesis_service sp
  /\ _metrics_buffer sp' = _metrics_buffer sp.
Proof.
  intros E. unfold _process_message, try_except, _process_message_body,
    bind, gets, lift_result, modify.
  by rewrite E.
Qed.

(** The metrics buffer after one message: a handled message appends one
    record, which names the topic, the partition and the offset of the
    message; any other message leaves the buffer as it was. *)
Lemma process_message_buffer rt settings env message_data sp :
  exists r,
    MetricRecord.topic r = RawMessage.topic message_data
    /\ MetricRecord.original_partition r = RawMessage.partition message_data
    /\ MetricRecord.original_offset r = RawMessage.offset message_data
    /\ _metrics_buffer (_process_message rt settings env message_data sp)
       = if handled rt settings env message_data sp
         then (_metrics_buffer sp ++ [r])%list
         else _metrics_buffer sp.
Proof.
  unfold handled.
  destruct (resolve rt (_processors sp) (RawMessage.topic message_data) env
              (RawMessage.value message_data)) as [processed_data|] eqn:E.
  - destruct (process_message_services rt settings env message_data sp _ E)
      as (_ & _ & ->).
    destruct processed_data as [|b|n|x|s|l|d];
      try (rewrite handle_not_dict by (intros ? ?; discriminate);
           by exists (metric_record rt env (RawMessage.topic message_data) ∅ message_data)).
    pose proof (handle_sinks rt settings env (RawMessage.topic message_data) d
                  message_data sp) as (_ & _ & _ & Hb).
    cbv zeta in Hb. eexists. split; [|split; [|split; [|exact Hb]]]; done.
  - destruct (process_message_raise_services rt settings env message_data sp E)
      as (_ & _ & ->).
    by exists (metric_record rt env (RawMessage.topic message_data) ∅ message_data).
Qed.

(** X3.  Between two metrics turns the metrics buffer only grows: it
    keeps what it held and gains one record per handled message, and
    every record it gains names the topic, partition and offset of a
    message delivered in the run. *)
Theorem buffer_gains_one_record_per_handled_message rt settings evs sp :
  no_metrics_cycle evs = true ->
  exists gained,
    _metrics_buffer (run rt settings evs sp)
    = (_metrics_buffer sp ++ gained)%list
    /\ Z.of_nat (length gained) = handled_count rt settings evs sp
    /\ Forall
         (fun r =>
            exists env message_data,
              Deliver env message_data ∈ evs
              /\ MetricRecord.topic r = RawMessage.topic message_data
              /\ MetricRecord.original_partition r
                 = RawMessage.partition message_data
              /\ MetricRecord.original_offset r
                 = RawMessage.offset message_data)
         gained.
Proof.
  unfold run. revert sp.
  induction evs as [|ev evs IH]; intros sp Hn.
  { exists []. simpl. by rewrite app_nil_r. }
  unfold no_metrics_cycle in Hn. cbn [forallb] in Hn.
  apply andb_prop in Hn as [Hev Hn].
  cbn [foldl handled_count].
  destruct (IH (step rt settings sp ev) Hn) as (gained & -> & Hlen & Hall).
  assert (Hall' : Forall
    (fun r =>
       exists env message_data,
         Deliver env message_data ∈ ev :: evs
         /\ MetricRecord.topic r = RawMessage.topic message_data
         /\ MetricRecord.original_partition r
            = RawMessage.partition message_data
         /\ MetricRecord.original_offset r
            = RawMessage.offset message_data) gained).
  { eapply Forall_impl; [exact Hall|].
    intros r (env & m & Hin & H). exists env, m. split; [|done].
    by apply list_elem_of_further. }
  destruct ev as [topic processor|env message_data|env];
    [| |discriminate Hev]; cbn [step] in *.
  - exists gained. split; [reflexivity|]. split; [lia|exact Hall'].
  - destruct (process_message_buffer rt settings env message_data sp)
      as (r & Ht & Hp & Ho & ->).
    destruct (handled rt settings env message_data sp).
    + exists (r :: gained). rewrite <- app_assoc. split; [done|].
      split; [cbn [length]; lia|]. constructor; [|exact Hall'].
      exists env, message_data. split; [apply list_elem_of_here|done].
    + exists gained. split; [done|]. split; [lia|exact Hall'].
Qed.

(** X3, witness: of two purchase events the handled one leaves its
    record. *)
Lemma buffer_gains_one_record_per_handled_message_witness :
  exists gained,
    _metrics_buffer
      (run scenario_runtime both_sinks
         [Deliver (scenario_env true true) purchase_message;
          Deliver (scenario_env false true) purchase_message]
         scenario_processor)
    = gained
    /\ Z.of_nat (length gained) = 1.
Proof.
  destruct (buffer_gains_one_record_per_handled_message scenario_runtime
              both_sinks
              [Deliver (scenario_env true true) purchase_message;
               Deliver (scenario_env false true) purchase_message]
              scenario_processor eq_refl)
    as (gained & Hb & Hlen & _).
  exists gained. split; [exact Hb|exact Hlen].
Defined.

(** X4.  When the broker output is enabled, the processor returned a dict
    and the broker delivers, the message is published once, to the topic
    [<topic>_processed] under the key of the message, whatever happens to
    the secondary stream afterwards.  The published payload carries the
    topic, offset and partition of the message, the time of processing
    and a timestamp, and every other field as the processor returned
    it. *)
Theorem published_payload_provenance rt settings env message_data sp d :
  enable_kafka_output settings = true ->
  resolve rt (_processors sp) (RawMessage.topic message_data) env
    (RawMessage.value message_data) = Return (VDict d) ->
  broker_delivers env (kafka_service sp) = true ->
  exists published,
    KafkaService.sent
      (kafka_service (_process_message rt settings env message_data sp))
    = (KafkaService.sent (kafka_service sp) ++ [published])%list
    /\ KafkaService.topic published
       = RawMessage.topic message_data ++ "_processed"
    /\ KafkaService.key published = RawMessage.key message_data
    /\ KafkaService.value published !! "original_topic"
       = Some (VStr (RawMessage.topic message_data))
    /\ KafkaService.value published !! "original_offset"
       = Some (VInt (RawMessage.offset message_data))
    /\ KafkaService.value published !! "original_partition"
       = Some (VInt (RawMessage.partition message_data))
    /\ KafkaService.value published !! "processed_at"
       = Some (VStr (datetime_now env 2))
    /\ is_Some (KafkaService.value published !! "timestamp")
    /\ (forall k,
          k <> "original_topic" -> k <> "original_offset" ->
          k <> "original_partition" -> k <> "processed_at" ->
          k <> "timestamp" ->
          KafkaService.value published !! k = d !! k).
Proof.
  intros Hk E Hb.
  destruct (process_message_services rt settings env message_data sp _ E)
    as (-> & _ & _).
  pose proof (handle_sinks rt settings env (RawMessage.topic message_data) d
                message_data sp) as (Hsent & _).
  cbv zeta in Hsent. rewrite Hk, Hb in Hsent. simpl in Hsent.
  eexists. split; [exact Hsent|].
  cbn [KafkaService.topic KafkaService.key KafkaService.value].
  split; [done|]. split; [done|].
  unfold dict_update. cbn [foldl fst snd].
  repeat split;
    try (rewrite ensure_timestamp_lookup_ne by done; by simplify_map_eq).
  - apply ensure_timestamp_is_Some.
  - intros k ? ? ? ? ?. rewrite ensure_timestamp_lookup_ne by done.
    by simplify_map_eq.
Qed.

(** X4, witness: the purchase event is published although the secondary
    stream is down and the message is counted as an error. *)
Lemma published_payload_provenance_witness :
  exists published,
    KafkaService.sent
      (kafka_service
         (_process_message scenario_runtime both_sinks
            (scenario_env true false) purchase_message scenario_processor))
    = [published]
    /\ KafkaService.topic published = "unknown_topic_processed"
    /\ KafkaService.value published !! "original_offset" = Some (VInt 42)
    /\ KafkaService.value published !! "event_type"
       = Some (VStr "purchase").
Proof.
  destruct (published_payload_provenance scenario_runtime both_sinks
              (scenario_env true false) purchase_message scenario_processor
              purchase_enriched eq_refl)
    as (published & Hs & Ht & _ & _ & Ho & _ & _ & _ & Hk).
  - vm_compute. reflexivity.
  - reflexivity.
  - exists published. split; [exact Hs|]. split; [exact Ht|].
    split; [exact Ho|]. rewrite Hk by done. vm_compute. reflexivity.
Defined.

(** ** Email addresses stay inside *)

(** Whatever the processor of the ["users"] topic returns is a dict
    without an email. *)
Lemma user_processor_drops_email rt env data out :
  user_processor rt env data = Return out ->
  exists o, out = VDict o /\ o !! "email" = None.
Proof.
  unfold user_processor. destruct data as [|b|n|x|s|l|d]; try discriminate.
  assert (Hstep : forall p : gmap string value,
    (let? processed :=
       match p !! "email" with
       | Some (VStr email) =>
           Return
             (delete "email"
                (<["email_domain" := VStr (last_piece (split "@" email))]> p))
       | Some _ => Raise
       | None => Return p
       end in
     Return (VDict (<["processed_by" := VStr "user_processor"]> processed)))
    = Return out ->
    exists o, out = VDict o /\ o !! "email" = None).
  { intros p. destruct (p !! "email") as [e|] eqn:E; simpl.
    - destruct e; try discriminate. simpl. intros [= <-].
      eexists. split; [done|]. by simplify_map_eq.
    - intros [= <-]. eexists. split; [done|]. by simplify_map_eq. }
  destruct (d !! "user_id") as [user_id|].
  - destruct (_determine_user_segment rt user_id); simpl; [|discriminate].
    apply Hstep.
  - simpl. apply Hstep.
Qed.

(** X5.  While the built-in processor is the one registered for
    ["users"], nothing that a message of that topic makes the pipeline
    send carries an [email] field: neither the record published to the
    broker nor the payload serialized for the secondary stream.  At most
    one record goes to each sink. *)
Theorem users_email_never_leaves rt settings env message_data sp :
  _processors sp !! "users" = Some (user_processor rt) ->
  RawMessage.topic message_data = "users" ->
  let sp' := _process_message rt settings env message_data sp in
  (exists published,
     KafkaService.sent (kafka_service sp')
     = (KafkaService.sent (kafka_service sp) ++ published)%list
     /\ (length published <= 1)%nat
     /\ Forall (fun r => KafkaService.value r !! "email" = None) published)
  /\ (exists put,
        KinesisService.sent (kinesis_service sp')
        = (KinesisService.sent (kinesis_service sp) ++ put)%list
        /\ (length put <= 1)%nat
        /\ Forall
             (fun r =>
                exists payload : gmap string value,
                  KinesisService.Data r = json_dumps rt (VDict payload)
                  /\ payload !! "email" = None) put).
Proof.
  intros Hreg Htopic. cbv zeta.
  assert (Hres :
    resolve rt (_processors sp) (RawMessage.topic message_data) env
      (RawMessage.value message_data)
    = user_processor rt env (RawMessage.value message_data)).
  { unfold resolve. by rewrite Htopic, Hreg. }
  destruct (user_processor rt env (RawMessage.value message_data))
    as [out|] eqn:E.
  - destruct (user_processor_drops_email rt env _ _ E) as (o & -> & Ho).
    destruct (process_message_services rt settings env message_data sp _ Hres)
      as (-> & -> & _).
    pose proof (handle_sinks rt settings env (RawMessage.topic message_data) o
                  message_data sp) as (Hk & _ & Hs & _).
    cbv zeta in Hk, Hs. rewrite Hk, Hs. clear Hk Hs.
    set (d1 := dict_update o _).
    set (d2 := if enable_kafka_output settings then _ else d1).
    set (d3 := if enable_kinesis_output settings then _ else d2).
    assert (H1 : d1 !! "email" = None).
    { unfold d1, dict_update. cbn [foldl fst snd]. by simplify_map_eq. }
    assert (H2 : d2 !! "email" = None).
    { unfold d2. destruct (enable_kafka_output settings); [|done].
      by rewrite ensure_timestamp_lookup_ne. }
    assert (H3 : d3 !! "email" = None).
    { unfold d3. destruct (enable_kinesis_output settings); [|done].
      by rewrite ensure_timestamp_lookup_ne. }
    clearbody d1 d2 d3.
    split.
    + destruct (_ && _).
      * eexists [_]. split; [done|]. split; [simpl; lia|].
        repeat constructor. exact H2.
      * exists []. rewrite app_nil_r. split; [done|]. split; [simpl; lia|].
        constructor.
    + destruct (_ && _ && _).
      * eexists [_]. split; [done|]. split; [simpl; lia|].
        repeat constructor. exists d3. by split.
      * exists []. rewrite app_nil_r. split; [done|]. split; [simpl; lia|].
        constructor.
  - destruct (process_message_raise_services rt settings env message_data sp)
      as (-> & -> & _); [by rewrite Hres|].
    split; exists []; rewrite app_nil_r; (split; [done|]);
      (split; [simpl; lia|constructor]).
Qed.

(** X5, witness: Ada's email does not reach the broker. *)
Lemma users_email_never_leaves_witness :
  exists published,
    KafkaService.sent
      (kafka_service
         (_process_message scenario_runtime both_sinks (scenario_env true true)
            user_message scenario_processor))
    = published
    /\ length published = 1%nat
    /\ Forall (fun r => KafkaService.value r !! "email" = None) published.
Proof.
  destruct (users_email_never_leaves scenario_runtime both_sinks
              (scenario_env true true) user_message scenario_processor
              eq_refl eq_refl)
    as ((published & Hs & _ & Hall) & _).
  exists published. split; [exact Hs|]. split; [|exact Hall].
  change (length published)
    with (length (KafkaService.sent (kafka_service scenario_processor)
                  ++ published)).
  rewrite <- Hs. vm_compute. reflexivity.
Defined.

(** ** One key for both sinks *)

(** X6.  A handled message with a non-empty key and both sinks enabled is
    published to the broker topic [<topic>_processed] under its key and
    put on the stream [<topic>-processed] with that same key as partition
    key. *)
Theorem same_key_on_both_sinks rt settings env message_data sp k :
  enable_kafka_output settings = true ->
  enable_kinesis_output settings = true ->
  handled rt settings env message_data sp = true ->
  RawMessage.key message_data = Some k ->
  k <> "" ->
  let sp' := _process_message rt settings env message_data sp in
  exists published put,
    KafkaService.sent (kafka_service sp')
    = (KafkaService.sent (kafka_service sp) ++ [published])%list
    /\ KinesisService.sent (kinesis_service sp')
       = (KinesisService.sent (kinesis_service sp) ++ [put])%list
    /\ KafkaService.topic published
       = RawMessage.topic message_data ++ "_processed"
    /\ KinesisService.StreamName put
       = RawMessage.topic message_data ++ "-processed"
    /\ KafkaService.key published = Some k
    /\ KinesisService.PartitionKey put = k.
Proof.
  intros Hk Hs Hh Hkey Hne. cbv zeta. unfold handled, fan_out_succeeds in Hh.
  destruct (resolve rt (_processors sp) (RawMessage.topic message_data) env
              (RawMessage.value message_data)) as [[|b|n|x|s|l|d]|] eqn:E;
    try discriminate.
  rewrite Hk, Hs in Hh. simpl in Hh. apply andb_prop in Hh as [Hb Hn].
  destruct (process_message_services rt settings env message_data sp _ E)
    as (-> & -> & _).
  pose proof (handle_sinks rt settings env (RawMessage.topic message_data) d
                message_data sp) as (H1 & _ & H2 & _).
  cbv zeta in H1, H2. rewrite Hk, Hb in H1. rewrite Hk, Hs, Hb, Hn in H2.
  simpl in H1, H2.
  do 2 eexists. split; [exact H1|]. split; [exact H2|].
  cbn [KafkaService.topic KafkaService.key KinesisService.StreamName
       KinesisService.PartitionKey].
  split; [done|]. split; [done|]. split; [done|].
  assert (Hnk : String.eqb k "" = false) by by apply String.eqb_neq.
  unfold partition_key_of. by rewrite Hkey, Hnk, Hnk.
Qed.

(** X6, witness: the purchase event keeps its key [k1]. *)
Lemma same_key_on_both_sinks_witness :
  exists published put,
    KafkaService.sent
      (kafka_service
         (_process_message scenario_runtime both_sinks (scenario_env true true)
            purchase_message scenario_processor)) = [published]
    /\ KinesisService.sent
         (kinesis_service
            (_process_message scenario_runtime both_sinks
               (scenario_env true true) purchase_message scenario_processor))
       = [put]
    /\ KafkaService.key published = Some "k1"
    /\ KinesisService.PartitionKey put = "k1".
Proof.
  destruct (same_key_on_both_sinks scenario_runtime both_sinks
              (scenario_env true true) purchase_message scenario_processor
              "k1" eq_refl eq_refl)
    as (published & put & H1 & H2 & _ & _ & H3 & H4); [|done|done|].
  - vm_compute. reflexivity.
  - exists published, put. split; [exact H1|]. split; [exact H2|].
    split; [exact H3|exact H4].
Defined.

(** ** The registry, composed *)

(** X7.  Registering the built-in processors replaces whatever was
    registered before for ["orders"], ["users"] and ["events"] and leaves
    the processors of all other topics in place; a processor registered
    afterwards replaces a built-in one; and registering a processor for
    one topic changes no other topic. *)
Theorem default_processors_overwrite rt :
  (forall sp topic (custom : Processor),
     let processors :=
       _processors
         (_register_default_processors rt
            (register_processor topic custom sp)) in
     resolve rt processors "orders" = order_processor rt
     /\ resolve rt processors "users" = user_processor rt
     /\ resolve rt processors "events" = event_processor
     /\ (topic <> "orders" -> topic <> "users" -> topic <> "events" ->
         resolve rt processors topic = custom))
  /\ (forall sp topic (custom : Processor),
        resolve rt
          (_processors
             (register_processor topic custom
                (_register_default_processors rt sp))) topic
        = custom)
  /\ (forall sp topic topic' (custom : Processor),
        topic <> topic' ->
        _processors (register_processor topic custom sp) !! topic'
        = _processors sp !! topic').
Proof.
  split; [|split].
  - intros sp topic custom. cbv zeta.
    unfold resolve, _register_default_processors, register_processor.
    simpl. repeat split; intros; by simplify_map_eq.
  - intros sp topic custom. unfold resolve, register_processor. simpl.
    by rewrite lookup_insert_eq.
  - intros sp topic topic' custom H. unfold register_processor. simpl.
    by rewrite lookup_insert_ne.
Qed.

(** ** Classification of events *)

Lemma lower_ascii_idem c : lower_ascii (lower_ascii c) = lower_ascii c.
Proof.
  destruct c as [[] [] [] [] [] [] [] []]; vm_compute; reflexivity.
Qed.

Lemma lower_ascii_7bit c :
  (nat_of_ascii (lower_ascii c) <? 128)%nat = (nat_of_ascii c <? 128)%nat.
Proof.
  destruct c as [[] [] [] [] [] [] [] []]; vm_compute; reflexivity.
Qed.

Lemma lower_ascii_text_isascii s :
  isascii (lower_ascii_text s) = isascii s.
Proof.
  induction s as [|c s IH]; simpl; [done|].
  by rewrite lower_ascii_7bit, IH.
Qed.

Lemma lower_ascii_text_idem s :
  lower_ascii_text (lower_ascii_text s) = lower_ascii_text s.
Proof.
  induction s as [|c s IH]; simpl; [done|].
  by rewrite lower_ascii_idem, IH.
Qed.

(** Lowering ASCII text gives ASCII text that lowering leaves alone,
    whatever the runtime does beyond ASCII. *)
Lemma lower_idem_ascii unicode_lower s :
  isascii s = true ->
  lower unicode_lower (lower unicode_lower s) = lower unicode_lower s.
Proof.
  intros H. unfold lower.
  rewrite H, lower_ascii_text_isascii, H. apply lower_ascii_text_idem.
Qed.

Lemma event_categories_values k c :
  event_categories !! k = Some c ->
  c ∈ ["authentication"; "transaction"; "analytics"; "system"].
Proof.
  unfold event_categories. intros H.
  apply elem_of_list_to_map_2 in H.
  rewrite !elem_of_cons, elem_of_nil in H. rewrite !elem_of_cons.
  repeat (destruct H as [[= _ <-]|H]; [by eauto 10|]). done.
Qed.

(** X8.  The category of an event type written in ASCII does not depend
    on the case of its letters.  The category of any string is one of the
    five category names, with ["other"] for every type whose lower-cased
    form the table does not list, and anything but a string is refused.
    Beyond ASCII the lower-cased form is the one the runtime gives. *)
Theorem categorize_event_case_insensitive rt :
  (forall s,
     isascii s = true ->
     _categorize_event rt (VStr s)
     = _categorize_event rt (VStr (lower (str_lower rt) s))
     /\ lower (str_lower rt) s = lower_ascii_text s)
  /\ (forall s,
        exists c,
          _categorize_event rt (VStr s) = Return c
          /\ c ∈ ["authentication"; "transaction"; "analytics"; "system";
                  "other"]
          /\ (event_categories !! lower (str_lower rt) s = None ->
              c = "other"))
  /\ (forall v, (forall s, v <> VStr s) -> _categorize_event rt v = Raise)
  /\ _categorize_event rt (VStr "PASSWORD_Reset") = Return "authentication".
Proof.
  split; [|split; [|split]].
  - intros s H. split.
    + unfold _categorize_event. by rewrite lower_idem_ascii.
    + unfold lower. by rewrite H.
  - intros s. unfold _categorize_event.
    destruct (event_categories !! lower (str_lower rt) s) as [c|] eqn:E;
      simpl.
    + exists c. split; [done|]. split; [|done].
      apply event_categories_values in E.
      rewrite !elem_of_cons in *. tauto.
    + exists "other". split; [done|]. split; [|done].
      rewrite !elem_of_cons. by eauto 10.
  - intros v H. destruct v; try done. by destruct (H s).
  - vm_compute. reflexivity.
Qed.

(** ** The default processor: what it writes and what it keeps *)

(** X9.  On a dict whose [event_type], if any, is a string, the default
    processor returns a dict that carries its three stamps, keeps a
    [timestamp] that was there and sets the current time otherwise,
    attaches session information exactly when there is a [user_id], and
    leaves every field it does not write as it was: no field is lost. *)
Theorem default_processor_keeps_fields rt env d :
  event_type_ok d = true ->
  exists out,
    _default_processor rt env (VDict d) = VDict out
    /\ out !! "processor_id" = Some (VStr "default")
    /\ out !! "enriched_at" = Some (VStr (datetime_now env 0))
    /\ out !! "processing_version" = Some (VStr "1.0")
    /\ out !! "timestamp"
       = Some (default (VStr (datetime_now env 1)) (d !! "timestamp"))
    /\ out !! "session_info"
       = match d !! "user_id" with
         | Some user_id => Some (_get_session_info rt env user_id)
         | None => d !! "session_info"
         end
    /\ (forall k,
          k <> "processor_id" -> k <> "enriched_at" ->
          k <> "processing_version" -> k <> "timestamp" ->
          k <> "event_category" -> k <> "amount_category" ->
          k <> "session_info" ->
          out !! k = d !! k).
Proof.
  intros Hok. unfold event_type_ok in Hok.
  unfold _default_processor, _default_processor_body.
  set (p0 := ensure_timestamp _ _).
  assert (L : forall k, k <> "processor_id" -> k <> "enriched_at" ->
                        k <> "processing_version" -> k <> "timestamp" ->
                        p0 !! k = d !! k)
    by (intros; by apply default_stamps_lookup).
  assert (P : p0 !! "processor_id" = Some (VStr "default")
              /\ p0 !! "enriched_at" = Some (VStr (datetime_now env 0))
              /\ p0 !! "processing_version" = Some (VStr "1.0")
              /\ p0 !! "timestamp"
                 = Some (default (VStr (datetime_now env 1))
                           (d !! "timestamp"))).
  { unfold p0, ensure_timestamp, dict_update. cbn [foldl fst snd].
    rewrite !lookup_insert_ne by done.
    destruct (d !! "timestamp") eqn:E; simpl; by simplify_map_eq. }
  destruct P as (P1 & P2 & P3 & P4). clearbody p0.
  rewrite (L "event_type") by done.
  assert (Hfin : forall p : gmap string value,
    p !! "processor_id" = Some (VStr "default") ->
    p !! "enriched_at" = Some (VStr (datetime_now env 0)) ->
    p !! "processing_version" = Some (VStr "1.0") ->
    p !! "timestamp"
    = Some (default (VStr (datetime_now env 1)) (d !! "timestamp")) ->
    (forall k, k <> "processor_id" -> k <> "enriched_at" ->
               k <> "processing_version" -> k <> "timestamp" ->
               k <> "event_category" -> k <> "amount_category" ->
               p !! k = d !! k) ->
    exists out,
      match
        (let? processed_data :=
           match p !! "amount" with
           | Some amount =>
               if is_int_or_float amount then
                 let? c := _categorize_amount amount in
                 Return (<["amount_category" := VStr c]> p)
               else Return p
           | None => Return p
           end in
         Return
           (VDict
              match processed_data !! "user_id" with
              | Some user_id =>
                  <["session_info" := _get_session_info rt env user_id]>
                    processed_data
              | None => processed_data
              end))
      with
      | Return processed_data => processed_data
      | Raise => VDict d
      end = VDict out
      /\ out !! "processor_id" = Some (VStr "default")
      /\ out !! "enriched_at" = Some (VStr (datetime_now env 0))
      /\ out !! "processing_version" = Some (VStr "1.0")
      /\ out !! "timestamp"
         = Some (default (VStr (datetime_now env 1)) (d !! "timestamp"))
      /\ out !! "session_info"
         = match d !! "user_id" with
           | Some user_id => Some (_get_session_info rt env user_id)
           | None => d !! "session_info"
           end
      /\ (forall k,
            k <> "processor_id" -> k <> "enriched_at" ->
            k <> "processing_version" -> k <> "timestamp" ->
            k <> "event_category" -> k <> "amount_category" ->
            k <> "session_info" ->
            out !! k = d !! k)).
  { intros p Q1 Q2 Q3 Q4 F.
    rewrite (F "amount") by done.
    destruct (d !! "amount") as [amount|] eqn:Ea.
    - destruct (is_int_or_float amount) eqn:Hn.
      + destruct (categorize_amount_returns amount Hn) as (b & ->). simpl.
        rewrite lookup_insert_ne, (F "user_id") by done.
        destruct (d !! "user_id") as [user_id|] eqn:Eu; eexists;
          (split; [reflexivity|]); repeat split; intros;
          simplify_map_eq; rewrite ?F by done; done.
      + simpl. rewrite (F "user_id") by done.
        destruct (d !! "user_id") as [user_id|] eqn:Eu; eexists;
          (split; [reflexivity|]); repeat split; intros;
          simplify_map_eq; rewrite ?F by done; done.
    - simpl. rewrite (F "user_id") by done.
      destruct (d !! "user_id") as [user_id|] eqn:Eu; eexists;
        (split; [reflexivity|]); repeat split; intros;
        simplify_map_eq; rewrite ?F by done; done. }
  destruct (d !! "event_type") as [[|b|n|x|s|l|d0]|] eqn:Et; try discriminate.
  - simpl. apply Hfin; intros; simplify_map_eq; rewrite ?L by done; done.
  - simpl. apply Hfin; intros; rewrite ?L by done; done.
Qed.

(** X9, witness: the purchase event keeps its [event_type] and gets the
    stamps. *)
Lemma default_processor_keeps_fields_witness :
  exists out,
    _default_processor scenario_runtime (scenario_env true true)
      (RawMessage.value purchase_message) = VDict out
    /\ out !! "processor_id" = Some (VStr "default")
    /\ out !! "event_type" = Some (VStr "purchase").
Proof.
  assert (Hok : event_type_ok
                  (dict_update ∅ [("event_type", VStr "purchase")]) = true)
    by (vm_compute; reflexivity).
  destruct (default_processor_keeps_fields scenario_runtime
              (scenario_env true true)
              (dict_update ∅ [("event_type", VStr "purchase")]) Hok)
    as (out & Ho & Hp & _ & _ & _ & _ & Hk).
  exists out. split; [exact Ho|]. split; [exact Hp|].
  by rewrite Hk.
Defined.

(** X10.  When the enrichment cannot be done, because the payload is not
    a dict or its [event_type] is not a string, the default processor
    returns the payload exactly as it came: without stamps, without
    timestamp, and with no category even for a numeric [amount]. *)
Theorem default_processor_falls_back rt env data :
  match data with
  | VDict d => event_type_ok d = false
  | _ => True
  end ->
  _default_processor rt env data = data.
Proof.
  intros H. unfold _default_processor.
  assert (E : _default_processor_body rt env data = Raise).
  { apply default_processor_body_raises.
    destruct data as [|b|n|x|s|l|d]; try done.
    unfold event_type_ok in H.
    destruct (d !! "event_type") as [[|b|n|x|s|l|d0]|]; try discriminate;
      eexists; (split; [reflexivity|done]). }
  by rewrite E.
Qed.

(** X10, witness: a numeric event type. *)
Lemma default_processor_falls_back_witness :
  _default_processor scenario_runtime (scenario_env true true)
    (VDict (dict_update ∅ [("event_type", VInt 7); ("amount", VInt 5)]))
  = VDict (dict_update ∅ [("event_type", VInt 7); ("amount", VInt 5)]).
Proof.
  apply (default_processor_falls_back scenario_runtime
           (scenario_env true true)
           (VDict (dict_update ∅ [("event_type", VInt 7);
                                   ("amount", VInt 5)]))).
  vm_compute. reflexivity.
Defined.

(** ** The built-in processors: what they refuse and what they keep *)

Lemma categorize_amount_raises amount :
  is_int_or_float amount = false -> _categorize_amount amount = Raise.
Proof. by destruct amount. Qed.

(** The order processor has no guard on [total_amount]: a total that is
    not a number makes it raise. *)
Lemma order_processor_bad_total rt env d total_amount :
  d !! "total_amount" = Some total_amount ->
  is_int_or_float total_amount = false ->
  order_processor rt env (VDict d) = Raise.
Proof.
  intros Ht Hn. unfold order_processor.
  assert (Hstep : forall p : gmap string value,
    p !! "total_amount" = Some total_amount ->
    (let? processed :=
       match p !! "total_amount" with
       | Some total_amount =>
           let? c := _categorize_amount total_amount in
           Return (<["order_size_category" := VStr c]> p)
       | None => Return p
       end in
     Return (VDict (<["processed_by" := VStr "order_processor"]> processed)))
    = Raise).
  { intros p ->. by rewrite (categorize_amount_raises _ Hn). }
  destruct (d !! "items") as [[|b|n|x|s|items|d0]|]; simpl;
    try by apply Hstep.
  destruct (quantities items) as [qs|]; simpl; [|done].
  destruct (builtin_sum rt qs) as [total|]; simpl; [|done].
  apply Hstep. by simplify_map_eq.
Qed.

(** X11.  While the built-in processor is the one registered for the
    topic, an order whose [total_amount] is present but not a number is
    never handled: it is counted as one processing error, nothing is sent
    to either sink and no metrics record is kept.  (The default processor,
    by contrast, skips an [amount] that is not a number.) *)
Theorem order_with_bad_total_is_an_error rt settings env message_data sp d
    total_amount :
  _processors sp !! RawMessage.topic message_data
  = Some (order_processor rt) ->
  RawMessage.value message_data = VDict d ->
  d !! "total_amount" = Some total_amount ->
  is_int_or_float total_amount = false ->
  let sp' := _process_message rt settings env message_data sp in
  processing_errors (_processing_stats sp')
  = processing_errors (_processing_stats sp) + 1
  /\ messages_processed (_processing_stats sp')
     = messages_processed (_processing_stats sp)
  /\ kafka_service sp' = kafka_service sp
  /\ kinesis_service sp' = kinesis_service sp
  /\ _metrics_buffer sp' = _metrics_buffer sp.
Proof.
  intros Hreg Hv Ht Hn. cbv zeta.
  assert (E :
    resolve rt (_processors sp) (RawMessage.topic message_data) env
      (RawMessage.value message_data) = Raise).
  { unfold resolve. rewrite Hreg, Hv.
    by apply (order_processor_bad_total rt env d total_amount). }
  destruct (process_message_raise_services rt settings env message_data sp E)
    as (-> & -> & ->).
  pose proof (process_message_effect rt settings env message_data sp)
    as (_ & _ & _ & _ & H).
  cbv zeta in H. unfold handled in H. rewrite E in H.
  destruct H as (-> & -> & _). done.
Qed.

(** X11, witness: an order whose total is the string ["12.50"]. *)
Lemma order_with_bad_total_is_an_error_witness :
  processing_errors
    (_processing_stats
       (_process_message scenario_runtime both_sinks (scenario_env true true)
          bad_order_message scenario_processor)) = 1
  /\ KafkaService.sent
       (kafka_service
          (_process_message scenario_runtime both_sinks
             (scenario_env true true) bad_order_message scenario_processor))
     = [].
Proof.
  assert (Hreg : _processors scenario_processor
                 !! RawMessage.topic bad_order_message
                 = Some (order_processor scenario_runtime))
    by (vm_compute; reflexivity).
  assert (Ht : dict_update ∅ [("total_amount", VStr "12.50")]
               !! "total_amount" = Some (VStr "12.50"))
    by (vm_compute; reflexivity).
  destruct (order_with_bad_total_is_an_error scenario_runtime both_sinks
              (scenario_env true true) bad_order_message scenario_processor
              _ _ Hreg eq_refl Ht eq_refl)
    as (He & _ & Hk & _).
  split; [exact He|]. by rewrite Hk.
Defined.

(** X12.  With a clock reading whose product with 1000000 is in the
    range of binary64, the processor of the ["events"] topic never fails
    on a dict.  Its output has a fresh [event_id] (one of the input is
    replaced), made of the clock reading times 1000000, rounded as a
    binary64 product is and then cut to an integer; it has a
    [processing_latency] of 0 and the processor's name, gets the
    geolocation exactly when there is an [ip_address], and keeps every
    other field.  An input that is not a dict is refused. *)
Theorem event_processor_keeps_fields env :
  (Qabs (time_time env 3 * 1000000) <= max_binary64)%Q ->
  (forall d,
     exists out,
       event_processor env (VDict d) = Return (VDict out)
       /\ out !! "event_id"
          = Some (VStr ("evt_"
                        ++ str_of_int
                             (py_int
                                (binary64 (time_time env 3 * 1000000)%Q))))
       /\ out !! "processing_latency" = Some (VInt 0)
       /\ out !! "processed_by" = Some (VStr "event_processor")
       /\ out !! "geo_location"
          = match d !! "ip_address" with
            | Some ip_address => Some (_get_geo_location ip_address)
            | None => d !! "geo_location"
            end
       /\ (forall k,
             k <> "event_id" -> k <> "processing_latency" ->
             k <> "processed_by" -> k <> "geo_location" ->
             out !! k = d !! k))
  /\ (forall data, (forall d, data <> VDict d) ->
        event_processor env data = Raise).
Proof.
  intros Hrange. split.
  - intros d. unfold event_processor. cbv zeta.
    assert (Hb : Qle_bool (Qabs (binary64 (time_time env 3 * 1000000)))
                   max_binary64 = true).
    { apply Qle_bool_iff, is_binary64_bound, binary64_is_binary64, Hrange. }
    rewrite Hb. cbn [result_bind].
    rewrite !lookup_insert_ne by done.
    destruct (d !! "ip_address") as [ip|] eqn:E; eexists;
      (split; [reflexivity|]); repeat split; intros; by simplify_map_eq.
  - intros data H. destruct data; try done. by destruct (H d).
Qed.

(** X12, witness: an event with an address, at 1700000003 seconds. *)
Lemma event_processor_keeps_fields_witness :
  exists out,
    event_processor (scenario_env true true)
      (VDict (dict_update ∅ [("ip_address", VStr "10.0.0.1");
                             ("event_id", VStr "e-1")]))
    = Return (VDict out)
    /\ out !! "event_id" = Some (VStr "evt_1700000003000000")
    /\ out !! "ip_address" = Some (VStr "10.0.0.1").
Proof.
  destruct (event_processor_keeps_fields (scenario_env true true))
    as [H _].
  { apply Qle_bool_imp_le. vm_compute. reflexivity. }
  destruct (H (dict_update ∅ [("ip_address", VStr "10.0.0.1");
                              ("event_id", VStr "e-1")]))
    as (out & Ho & Hid & _ & _ & _ & Hk).
  exists out. split; [exact Ho|]. split.
  - rewrite Hid. vm_compute. reflexivity.
  - rewrite (Hk "ip_address") by done. vm_compute. reflexivity.
Defined.

(** X13.  When the processor of the ["users"] topic returns for a payload
    with a [user_id], that [user_id] is neither a list nor a dict (those
    cannot be hashed and make the processor raise), and the output carries
    a [user_segment] that is one of the four segment names. *)
Theorem user_segment_is_a_known_segment rt env d user_id out :
  d !! "user_id" = Some user_id ->
  user_processor rt env (VDict d) = Return out ->
  match user_id with VList _ | VDict _ => False | _ => True end
  /\ exists segment,
       field out "user_segment" = Some (VStr segment)
       /\ segment ∈ ["bronze"; "silver"; "gold"; "platinum"].
Proof.
  intros Hu. unfold user_processor. rewrite Hu.
  unfold _determine_user_segment.
  assert (Hseg : forall i segment,
    ["bronze"; "silver"; "gold"; "platinum"] !! i = Some segment ->
    segment ∈ ["bronze"; "silver"; "gold"; "platinum"]).
  { intros i segment H. by eapply list_elem_of_lookup_2. }
  assert (Hstep : forall (segment : string) (p : gmap string value),
    p = <["user_segment" := VStr segment]> d ->
    (let? processed :=
       match p !! "email" with
       | Some (VStr email) =>
           Return
             (delete "email"
                (<["email_domain" := VStr (last_piece (split "@" email))]> p))
       | Some _ => Raise
       | None => Return p
       end in
     Return (VDict (<["processed_by" := VStr "user_processor"]> processed)))
    = Return out ->
    field out "user_segment" = Some (VStr segment)).
  { intros segment p ->. rewrite lookup_insert_ne by done.
    destruct (d !! "email") as [[|b|n|x|s|l|d0]|]; simpl; try discriminate;
      intros [= <-]; simpl; by simplify_map_eq. }
  destruct user_id as [|b|n|x|s|l|d0]; try discriminate;
    (destruct (_ !! Z.to_nat _) as [segment|] eqn:E; [|discriminate]);
    simpl; intros H; (split; [done|]); exists segment;
    (split; [by eapply Hstep|by eapply Hseg]).
Qed.

(** X13, witness: the user 17 gets a segment. *)
Lemma user_segment_is_a_known_segment_witness :
  exists segment,
    field
      (VDict (dict_update ∅ [("user_id", VInt 17);
                              ("user_segment", VStr "silver");
                              ("processed_by", VStr "user_processor")]))
      "user_segment"
    = Some (VStr segment)
    /\ segment ∈ ["bronze"; "silver"; "gold"; "platinum"].
Proof.
  assert (Hu : dict_update ∅ [("user_id", VInt 17)] !! "user_id"
               = Some (VInt 17)) by (vm_compute; reflexivity).
  assert (Hr : user_processor scenario_runtime (scenario_env true true)
                 (VDict (dict_update ∅ [("user_id", VInt 17)]))
               = Return
                   (VDict (dict_update ∅
                     [("user_id", VInt 17);
                      ("user_segment", VStr "silver");
                      ("processed_by", VStr "user_processor")])))
    by (vm_compute; reflexivity).
  exact (proj2 (user_segment_is_a_known_segment scenario_runtime
                  (scenario_env true true) _ _ _ Hu Hr)).
Defined.

(** ** The broker sink, counted *)

(** X14.  A call of [produce_message] on a service that is not started
    raises and leaves the service exactly as it was.  On a started
    service the call returns exactly when one of its three attempts is
    acknowledged; [error_count] grows by the number of failed attempts (so
    by 3 for a call that gives up), [produced_count] and the log grow by
    one record for a call that returns and not at all otherwise. *)
Theorem produce_message_accounting env topic value key ks :
  let r := fst (KafkaService.produce_message env topic value key ks) in
  let ks' := snd (KafkaService.produce_message env topic value key ks) in
  if KafkaService.producer ks && KafkaService.is_running ks then
    (r = Raise <-> failed_attempts env = 3)
    /\ KafkaService.error_count ks'
       = KafkaService.error_count ks + failed_attempts env
    /\ KafkaService.produced_count ks'
       = KafkaService.produced_count ks
         + (if broker_delivers env ks then 1 else 0)
    /\ Z.of_nat (length (KafkaService.sent ks'))
       = Z.of_nat (length (KafkaService.sent ks))
         + (if broker_delivers env ks then 1 else 0)
  else r = Raise /\ ks' = ks.
Proof.
  cbv zeta. unfold KafkaService.produce_message, failed_attempts,
    broker_delivers.
  destruct ks as [p ru pc ec s]; simpl.
  destruct p, ru; simpl; try done.
  destruct (broker_ack env 0) eqn:E0; simpl; rewrite ?E0; simpl.
  { rewrite length_app. simpl. repeat split; try done; lia. }
  destruct (broker_ack env 1) eqn:E1; simpl; rewrite ?E1; simpl.
  { rewrite length_app. simpl. repeat split; try done; lia. }
  destruct (broker_ack env 2) eqn:E2; simpl; rewrite ?E2; simpl.
  { rewrite length_app. simpl. repeat split; try done; lia. }
  repeat split; try done; lia.
Qed.

(** ** One payload for both sinks *)

Lemma ensure_timestamp_twice now now' (d : gmap string value) :
  ensure_timestamp now' (ensure_timestamp now d) = ensure_timestamp now d.
Proof.
  destruct (ensure_timestamp_is_Some now d) as (t & Ht).
  unfold ensure_timestamp at 1. by rewrite Ht.
Qed.

(** X15.  The dict is passed to both sinks by reference: with both sinks
    enabled, what a handled message puts on the secondary stream is the
    serialization of the very payload it published to the broker, with
    the timestamp that the broker call gave it. *)
Theorem same_payload_on_both_sinks rt settings env message_data sp :
  enable_kafka_output settings = true ->
  enable_kinesis_output settings = true ->
  handled rt settings env message_data sp = true ->
  let sp' := _process_message rt settings env message_data sp in
  exists published put,
    KafkaService.sent (kafka_service sp')
    = (KafkaService.sent (kafka_service sp) ++ [published])%list
    /\ KinesisService.sent (kinesis_service sp')
       = (KinesisService.sent (kinesis_service sp) ++ [put])%list
    /\ KinesisService.Data put
       = json_dumps rt (VDict (KafkaService.value published)).
Proof.
  intros Hk Hs Hh. cbv zeta. unfold handled, fan_out_succeeds in Hh.
  destruct (resolve rt (_processors sp) (RawMessage.topic message_data) env
              (RawMessage.value message_data)) as [[|b|n|x|s|l|d]|] eqn:E;
    try discriminate.
  rewrite Hk, Hs in Hh. simpl in Hh. apply andb_prop in Hh as [Hb Hn].
  destruct (process_message_services rt settings env message_data sp _ E)
    as (-> & -> & _).
  pose proof (handle_sinks rt settings env (RawMessage.topic message_data) d
                message_data sp) as (H1 & _ & H2 & _).
  cbv zeta in H1, H2. rewrite Hk, Hb in H1. rewrite Hk, Hs, Hb, Hn in H2.
  simpl in H1, H2.
  do 2 eexists. split; [exact H1|]. split; [exact H2|].
  cbn [KafkaService.value KinesisService.Data].
  by rewrite ensure_timestamp_twice.
Qed.

(** X15, witness: the purchase event, with both sinks up. *)
Lemma same_payload_on_both_sinks_witness :
  exists published put,
    KafkaService.sent
      (kafka_service
         (_process_message scenario_runtime both_sinks (scenario_env true true)
            purchase_message scenario_processor)) = [published]
    /\ KinesisService.sent
         (kinesis_service
            (_process_message scenario_runtime both_sinks
               (scenario_env true true) purchase_message scenario_processor))
       = [put]
    /\ KinesisService.Data put
       = json_dumps scenario_runtime (VDict (KafkaService.value published)).
Proof.
  assert (Hh : handled scenario_runtime both_sinks (scenario_env true true)
                 purchase_message scenario_processor = true)
    by (vm_compute; reflexivity).
  exact (same_payload_on_both_sinks scenario_runtime both_sinks
           (scenario_env true true) purchase_message scenario_processor
           eq_refl eq_refl Hh).
Defined.

(** ** Health *)

(** A flush keeps the running flag and the started flags of the broker
    service. *)
Lemma flush_flags settings env sp :
  let sp' := snd (_flush_metrics_buffer settings env sp) in
  is_running sp' = is_running sp
  /\ KafkaService.producer (kafka_service sp')
     = KafkaService.producer (kafka_service sp)
  /\ KafkaService.is_running (kafka_service sp')
     = KafkaService.is_running (kafka_service sp).
Proof.
  unfold _flush_metrics_buffer, try_except, bind, gets, on_field, ret, modify.
  simpl. destruct (_metrics_buffer sp) as [|r buffer]; simpl; [done|].
  destruct (enable_metrics_to_kafka settings); simpl; [|done].
  destruct (produce_message_spec env "processing_metrics"
              (metrics_batch env (r :: buffer)) None (kafka_service sp))
    as (ks & H & Hp & Hi & _).
  rewrite H. clear H.
  by destruct (broker_delivers env (kafka_service sp)).
Qed.

(** A metrics turn keeps the running flag and the started flags of both
    services. *)
Lemma collect_metrics_cycle_flags settings env sp :
  let sp' := _collect_metrics_cycle settings env sp in
  is_running sp' = is_running sp
  /\ KafkaService.producer (kafka_service sp')
     = KafkaService.producer (kafka_service sp)
  /\ KafkaService.is_running (kafka_service sp')
     = KafkaService.is_running (kafka_service sp)
  /\ kinesis_service sp' = kinesis_service sp.
Proof.
  unfold _collect_metrics_cycle. cbv zeta.
  set (sp1 := match _processing_times sp with [] => sp | _ => _ end).
  set (sp2 := set_processing_stats _ sp1).
  set (sp3 := if _ <? _ then _ else sp2).
  assert (H2 : is_running sp2 = is_running sp
               /\ kafka_service sp2 = kafka_service sp
               /\ kinesis_service sp2 = kinesis_service sp).
  { unfold sp2, sp1. by destruct (_processing_times sp). }
  destruct H2 as (Hr & Hk & Hn).
  assert (H3 : is_running sp3 = is_running sp2
               /\ KafkaService.producer (kafka_service sp3)
                  = KafkaService.producer (kafka_service sp2)
               /\ KafkaService.is_running (kafka_service sp3)
                  = KafkaService.is_running (kafka_service sp2)
               /\ kinesis_service sp3 = kinesis_service sp2).
  { unfold sp3. destruct (_ <? _); [|done].
    destruct (flush_flags settings env sp2) as (? & ? & ?).
    pose proof (flush_frame settings env sp2) as (_ & _ & _ & _ & _ & ?).
    done. }
  destruct H3 as (Hr3 & Hp3 & Hi3 & Hn3). simpl.
  rewrite Hr3, Hp3, Hi3, Hn3, Hr, Hk, Hn. done.
Qed.

(** X16.  A metrics turn resets the error count that the health check
    reads: with a positive ceiling, the processor is healthy right after
    a metrics turn exactly when it is running and both services are
    started and reachable, however many errors were counted before. *)
Theorem healthy_again_after_metrics_turn settings env sp max_allowed
    kafka_reachable kinesis_reachable :
  0 < max_allowed ->
  is_healthy max_allowed kafka_reachable kinesis_reachable
    (_collect_metrics_cycle settings env sp)
  = is_running sp
    && kafka_is_healthy kafka_reachable (kafka_service sp)
    && kinesis_is_healthy kinesis_reachable (kinesis_service sp).
Proof.
  intros Hmax. unfold is_healthy, kafka_is_healthy.
  destruct (collect_metrics_cycle_flags settings env sp)
    as (-> & -> & -> & ->).
  pose proof (collect_metrics_cycle_effect settings env sp) as (_ & He & _).
  cbv zeta in He. rewrite He.
  destruct (Z.ltb_spec 0 max_allowed); [|lia].
  by rewrite andb_true_r.
Qed.

(** X17.  Between two metrics turns every unhandled message brings the
    processor closer to unhealthy: once the errors counted before the run
    and the unhandled deliveries of the run reach the ceiling, the health
    check fails, whatever the state of the services. *)
Theorem unhealthy_after_too_many_errors rt settings evs sp max_allowed
    kafka_reachable kinesis_reachable :
  no_metrics_cycle evs = true ->
  max_allowed
  <= processing_errors (_processing_stats sp)
     + (deliveries evs - handled_count rt settings evs sp) ->
  is_healthy max_allowed kafka_reachable kinesis_reachable
    (run rt settings evs sp) = false.
Proof.
  intros Hn Hmax. unfold is_healthy.
  rewrite (run_counts_errors rt settings evs sp Hn).
  destruct (Z.ltb_spec
              (processing_errors (_processing_stats sp)
               + (deliveries evs - handled_count rt settings evs sp))
              max_allowed); [lia|].
  by rewrite andb_false_r.
Qed.

(** X16, witness: fifty errors are forgotten by a metrics turn. *)
Lemma healthy_again_after_metrics_turn_witness :
  is_healthy 10 true true
    (_collect_metrics_cycle both_sinks metrics_env
       (set_processing_stats
          (set_processing_errors 50 (_processing_stats running_processor))
          running_processor))
  = true.
Proof.
  rewrite (healthy_again_after_metrics_turn both_sinks metrics_env
             (set_processing_stats
                (set_processing_errors 50
                   (_processing_stats running_processor))
                running_processor) 10 true true) by lia.
  reflexivity.
Defined.

(** X17, witness: two purchase events with the broker down reach a
    ceiling of 2. *)
Lemma unhealthy_after_too_many_errors_witness :
  is_healthy 2 true true
    (run scenario_runtime both_sinks
       [Deliver (scenario_env false true) purchase_message;
        Deliver (scenario_env false true) purchase_message]
       running_processor)
  = false.
Proof.
  apply (unhealthy_after_too_many_errors scenario_runtime both_sinks
           [Deliver (scenario_env false true) purchase_message;
            Deliver (scenario_env false true) purchase_message]
           running_processor 2 true true eq_refl).
  vm_compute. discriminate.
Defined.

(** ** The consumer loop *)

(** X18.  The consumer loop, run with the handler of the stream
    processor, never takes its error branch: every delivered message is
    counted as consumed, also the ones that the stream processor counted
    as processing errors, and the stream processor ends in the state that
    the deliveries alone produce. *)
Theorem consumer_counts_every_message rt settings deliveries sp
    consumed_count :
  _consume_messages (stream_message_handler rt settings) deliveries
    (sp, consumed_count)
  = (run rt settings (delivery_events deliveries) sp,
     consumed_count + Z.of_nat (length deliveries)).
Proof.
  unfold _consume_messages, run, delivery_events.
  revert sp consumed_count.
  induction deliveries as [|[env message] deliveries IH];
    intros sp consumed_count.
  { simpl. f_equal. lia. }
  cbn [foldl map length fst snd consume_one stream_message_handler step].
  rewrite IH. f_equal. lia.
Qed.

(** ** The batch call of the secondary stream *)

Section BatchCall.
Import KinesisBatch.

Variable rt : Runtime.
Variable now : nat -> string.
Variable uuid : nat -> string.
Variable client_put_records :
  nat -> string -> list entry -> result (list record_result).

Lemma prepare_length k records kinesis_records :
  prepare rt now uuid k records = Return kinesis_records ->
  length kinesis_records = length records.
Proof.
  revert k kinesis_records.
  induction records as [|record records IH]; intros k kinesis_records.
  { by intros [= <-]. }
  cbn [prepare].
  destruct (prepare_record rt now uuid k record) as [e|]; [|done].
  cbn [result_bind].
  destruct (prepare rt now uuid (S k) records) as [es|] eqn:E; [|done].
  intros [= <-]. simpl. f_equal. by apply (IH (S k)).
Qed.

Lemma slices_concat {A} (step : nat) (l : list A) (m c : nat) :
  concat (map (fun i => slice i (i + step) l)
            (map (fun k => k * step)%nat (seq c m)))
  = take (m * step) (drop (c * step) l).
Proof.
  revert c. induction m as [|m IH]; intros c.
  { done. }
  cbn [seq map concat]. rewrite IH. unfold slice.
  replace (c * step + step - c * step)%nat with step by lia.
  replace (S c * step)%nat with (c * step + step)%nat by lia.
  rewrite <- (drop_drop l step (c * step)).
  rewrite take_take_drop. f_equal.
Qed.

Lemma py_range_slices {A} (step : nat) (l : list A) :
  (0 < step)%nat ->
  concat (map (fun i => slice i (i + step) l) (py_range (length l) step))
  = l.
Proof.
  intros Hs. unfold py_range. rewrite slices_concat. simpl.
  rewrite drop_0. apply take_ge.
  pose proof (Nat.mul_succ_div_gt (length l + step - 1) step) as H.
  nia.
Qed.

Lemma py_range_bound (stop step i : nat) :
  (0 < step)%nat -> i ∈ py_range stop step -> (i < stop)%nat.
Proof.
  intros Hs Hi. unfold py_range in Hi.
  apply list_elem_of_fmap in Hi as (k & -> & Hk).
  apply elem_of_seq in Hk.
  pose proof (Nat.Div0.mul_div_le (stop + step - 1) step). nia.
Qed.

Lemma py_range_length (stop step : nat) :
  length (py_range stop step) = ((stop + step - 1) / step)%nat.
Proof. unfold py_range. by rewrite length_map, length_seq. Qed.

Lemma slice_length {A} (step i : nat) (l : list A) :
  length (slice i (i + step) l) = (step `min` (length l - i))%nat.
Proof.
  unfold slice. rewrite length_take, length_drop. f_equal. lia.
Qed.

(** The calls of the second loop: all of [starts] when it returns, a
    part of them, in order, when a call raises. *)
Lemma put_batches_calls stream_name kinesis_records starts n acc calls :
  match put_batches client_put_records stream_name kinesis_records starts n
          acc calls with
  | (Return _, calls') =>
      calls'
      = (calls
         ++ map (fun i => (stream_name,
                           slice i (i + batch_size) kinesis_records))
              starts)%list
  | (Raise, calls') =>
      exists delivered rest,
        starts = (delivered ++ rest)%list
        /\ calls'
           = (calls
              ++ map (fun i => (stream_name,
                                slice i (i + batch_size) kinesis_records))
                   delivered)%list
  end.
Proof.
  revert n acc calls.
  induction starts as [|i starts IH]; intros n acc calls.
  { simpl. by rewrite app_nil_r. }
  cbn [put_batches].
  destruct (client_put_records n stream_name
              (slice i (i + batch_size) kinesis_records)) as [response|].
  - specialize (IH (S n) (process_response i 0 response acc)
                  (calls ++ [(stream_name,
                              slice i (i + batch_size) kinesis_records)])%list).
    destruct (put_batches _ _ _ _ _ _ _) as [[acc'|] calls'].
    + rewrite IH. by rewrite <- app_assoc.
    + destruct IH as (delivered & rest & -> & ->).
      exists (i :: delivered), rest. split; [done|].
      by rewrite <- app_assoc.
  - exists [], (i :: starts). split; [done|]. simpl. by rewrite app_nil_r.
Qed.

(** X19.  A batch call that returns has handed every prepared record to
    the client exactly once and in order: the [Records] of its calls,
    put end to end, are the prepared records, one per record of the
    caller; every call carries between 1 and 500 of them, and there are
    as many calls as 500 goes into the number of records, rounded up (so
    none for an empty list). *)
Theorem put_records_sends_each_record_once stream_name records ks calls
    result ks' calls' :
  put_records rt now uuid client_put_records stream_name records (ks, calls)
  = (Return result, (ks', calls')) ->
  exists kinesis_records batches,
    prepare rt now uuid 0 records = Return kinesis_records
    /\ length kinesis_records = length records
    /\ calls' = (calls ++ map (pair stream_name) batches)%list
    /\ concat batches = kinesis_records
    /\ Forall (fun batch => (0 < length batch <= 500)%nat) batches
    /\ length batches = ((length records + 499) / 500)%nat.
Proof.
  unfold put_records. intros E.
  destruct (negb (KinesisService.client ks)
            || negb (KinesisService.is_running ks)); [done|].
  destruct (prepare rt now uuid 0 records) as [kinesis_records|] eqn:Ep;
    [|done].
  pose proof (prepare_length _ _ _ Ep) as Hlen.
  pose proof (put_batches_calls stream_name kinesis_records
                (py_range (length kinesis_records) batch_size) 0 ([], [])
                calls) as Hc.
  destruct (put_batches _ _ _ _ _ _ _) as [[[results failed]|] calls''];
    [|done].
  injection E as _ _ <-.
  exists kinesis_records,
    (map (fun i => slice i (i + batch_size) kinesis_records)
       (py_range (length kinesis_records) batch_size)).
  split; [done|]. split; [done|]. split.
  { rewrite Hc. f_equal. by rewrite map_map. }
  split.
  { apply py_range_slices. unfold batch_size. lia. }
  split.
  { apply Forall_fmap, Forall_forall. intros i Hi. simpl.
    apply py_range_bound in Hi; [|unfold batch_size; lia].
    rewrite slice_length. unfold batch_size. lia. }
  rewrite length_map, py_range_length, Hlen. unfold batch_size.
  f_equal. lia.
Qed.

(** X20.  When a batch call on a started service raises, every record
    of the caller is counted as an error and none as produced, also the
    records of the batches that the client had already accepted, which
    are the first of the prepared records. *)
Theorem put_records_failure_counts_every_record stream_name records ks
    calls ks' calls' :
  KinesisService.client ks = true ->
  KinesisService.is_running ks = true ->
  put_records rt now uuid client_put_records stream_name records (ks, calls)
  = (Raise, (ks', calls')) ->
  KinesisService.produced_count ks' = KinesisService.produced_count ks
  /\ KinesisService.error_count ks'
     = KinesisService.error_count ks + Z.of_nat (length records)
  /\ exists delivered,
       calls' = (calls ++ map (pair stream_name) delivered)%list
       /\ match prepare rt now uuid 0 records with
          | Return kinesis_records =>
              concat delivered `prefix_of` kinesis_records
          | Raise => delivered = []
          end.
Proof.
  unfold put_records. intros -> -> E. cbn [negb orb] in E.
  destruct (prepare rt now uuid 0 records) as [kinesis_records|] eqn:Ep.
  - pose proof (put_batches_calls stream_name kinesis_records
                  (py_range (length kinesis_records) batch_size) 0 ([], [])
                  calls) as Hc.
    destruct (put_batches _ _ _ _ _ _ _) as [[[results failed]|] calls''];
      [done|].
    injection E as <- <-.
    destruct Hc as (delivered & rest & Hd & ->).
    split; [done|]. split; [done|].
    exists (map (fun i => slice i (i + batch_size) kinesis_records)
              delivered).
    split; [by rewrite map_map|].
    exists (concat (map (fun i => slice i (i + batch_size) kinesis_records)
                      rest)).
    rewrite <- concat_app, <- map_app, <- Hd.
    symmetry. apply py_range_slices. unfold batch_size. lia.
  - injection E as <- <-. split; [done|]. split; [done|].
    exists []. split; [|done]. simpl. by rewrite app_nil_r.
Qed.

Lemma process_response_spec i j response acc bound :
  (i + j + length response <= bound)%nat ->
  Forall (fun f => (index f < i + j)%nat) acc.2 ->
  StronglySorted (fun f g => (index f < index g)%nat) acc.2 ->
  let acc' := process_response i j response acc in
  (length acc'.1 + length acc'.2
   = length acc.1 + length acc.2 + length response)%nat
  /\ Forall (fun f => (index f < bound)%nat) acc'.2
  /\ StronglySorted (fun f g => (index f < index g)%nat) acc'.2.
Proof.
  cbv zeta. revert j acc.
  induction response as [|r response IH]; intros j acc Hb Hacc Hs.
  { simpl. split; [lia|]. split; [|done].
    eapply Forall_impl; [exact Hacc|]. simpl in Hb. intros f Hf.
    simpl in Hf. lia. }
  cbn [length] in Hb.
  destruct r as [s q|c m]; cbn [process_response].
  - destruct (IH (S j)
                (acc.1 ++ [ {| shard_id := s; sequence_number := q |} ],
                 acc.2)%list) as (Hl & Hf & Hs'); cbn [fst snd].
    + lia.
    + eapply Forall_impl; [exact Hacc|]. intros f Hf. simpl in Hf. lia.
    + done.
    + cbn [fst snd] in Hl. rewrite length_app in Hl. cbn [length] in Hl |- *.
      split; [lia|done].
  - destruct (IH (S j)
                (acc.1,
                 acc.2 ++ [ {| index := i + j; error_code := c;
                               error_message := m |} ])%list)
      as (Hl & Hf & Hs'); cbn [fst snd].
    + lia.
    + apply Forall_app_2.
      * eapply Forall_impl; [exact Hacc|]. intros f Hf. simpl in Hf. lia.
      * apply Forall_cons. split; [simpl; lia|done].
    + apply StronglySorted_app_2; [|done|].
      * intros f g Hf Hg. apply list_elem_of_singleton in Hg as ->.
        rewrite Forall_forall in Hacc. apply (Hacc f Hf).
      * apply SSorted_cons; [constructor|done].
    + cbn [fst snd] in Hl. rewrite length_app in Hl. cbn [length] in Hl |- *.
      split; [lia|done].
Qed.

Hypothesis one_result_per_entry : forall n stream_name batch response,
  client_put_records n stream_name batch = Return response ->
  length response = length batch.

(** The results of the second loop over the starts [c * batch_size],
    [(c + 1) * batch_size], ... of which the last one, if any, is a
    position of [kinesis_records]. *)
Lemma put_batches_results stream_name kinesis_records m c n acc calls
    acc' calls' :
  put_batches client_put_records stream_name kinesis_records
    (map (fun k => k * batch_size)%nat (seq c m)) n acc calls
  = (Return acc', calls') ->
  ((c + m) * batch_size < length kinesis_records + batch_size)%nat ->
  Forall (fun f => (index f < c * batch_size)%nat) acc.2 ->
  Forall (fun f => (index f < length kinesis_records)%nat) acc.2 ->
  StronglySorted (fun f g => (index f < index g)%nat) acc.2 ->
  (length acc'.1 + length acc'.2
   = length acc.1 + length acc.2
     + (m * batch_size) `min` (length kinesis_records - c * batch_size))%nat
  /\ Forall (fun f => (index f < length kinesis_records)%nat) acc'.2
  /\ StronglySorted (fun f g => (index f < index g)%nat) acc'.2.
Proof.
  revert c n acc calls.
  induction m as [|m IH]; intros c n acc calls E Hlast Hc Hn Hs.
  { simpl in E. injection E as <- <-. split; [|done].
    rewrite Nat.mul_0_l, Nat.min_0_l. lia. }
  cbn [seq map put_batches] in E.
  destruct (client_put_records n stream_name
              (slice (c * batch_size) (c * batch_size + batch_size)
                 kinesis_records)) as [response|] eqn:Er; [|done].
  apply one_result_per_entry in Er. rewrite slice_length in Er.
  assert (c * batch_size + 0 + length response
          <= (S c * batch_size) `min` length kinesis_records)%nat as Hb
    by (unfold batch_size in *; lia).
  destruct (process_response_spec (c * batch_size) 0 response acc _ Hb)
    as (Hl & Hf & Hs'); [by rewrite Nat.add_0_r|done|].
  cbv zeta in Hl, Hf, Hs'.
  destruct (IH (S c) (S n) _ _ E) as (Hl' & Hf' & Hs'').
  - lia.
  - eapply Forall_impl; [exact Hf|]. intros f H. cbv beta in H.
    unfold batch_size in *. lia.
  - eapply Forall_impl; [exact Hf|]. intros f H. cbv beta in H.
    unfold batch_size in *. lia.
  - done.
  - split; [|done]. rewrite Hl', Hl, Er. unfold batch_size in *. lia.
Qed.

(** X21.  With a client that answers one result per entry, a batch call
    that returns accounts for every record of the caller once: accepted
    and rejected records together are the records of the call, the
    counters of the service grow by the two numbers, and the rejected
    ones are reported in increasing order of [index], each [index] a
    position of the caller's list. *)
Theorem put_records_accounts_for_every_record stream_name records ks calls
    result ks' calls' :
  put_records rt now uuid client_put_records stream_name records (ks, calls)
  = (Return result, (ks', calls')) ->
  total_records result = length records
  /\ (successful_records result + failed_records result
      = length records)%nat
  /\ length (successful_results result) = successful_records result
  /\ length (failed_results result) = failed_records result
  /\ KinesisService.produced_count ks'
     = KinesisService.produced_count ks
       + Z.of_nat (successful_records result)
  /\ KinesisService.error_count ks'
     = KinesisService.error_count ks + Z.of_nat (failed_records result)
  /\ Forall (fun f => (index f < length records)%nat)
       (failed_results result)
  /\ StronglySorted (fun f g => (index f < index g)%nat)
       (failed_results result).
Proof.
  unfold put_records. intros E.
  destruct (negb (KinesisService.client ks)
            || negb (KinesisService.is_running ks)); [done|].
  destruct (prepare rt now uuid 0 records) as [kinesis_records|] eqn:Ep;
    [|done].
  pose proof (prepare_length _ _ _ Ep) as Hlen.
  destruct (put_batches _ _ _ _ _ _ _) as [[[results failed]|] calls'']
    eqn:Eb; [|done].
  injection E as <- <- _. cbn [total_records successful_records
    failed_records successful_results failed_results
    KinesisService.produced_count KinesisService.error_count].
  unfold py_range in Eb.
  apply put_batches_results in Eb as (Hl & Hf & Hs).
  - cbn [fst snd length] in Hl, Hf, Hs. rewrite <- Hlen.
    repeat split; try done.
    rewrite Hl, Nat.mul_0_l, Nat.sub_0_r.
    pose proof (Nat.mul_succ_div_gt
                  (length kinesis_records + batch_size - 1) batch_size).
    unfold batch_size in *. lia.
  - pose proof (Nat.Div0.mul_div_le
                  (length kinesis_records + batch_size - 1) batch_size).
    unfold batch_size in *. lia.
  - by cbn [snd].
  - by cbn [snd].
  - cbn [snd]. constructor.
Qed.

End BatchCall.

(** X19, witness: 501 records go out in two calls. *)
Lemma put_records_sends_each_record_once_witness :
  exists kinesis_records batches,
    KinesisBatch.prepare scenario_runtime (fun _ => "2024-01-01T00:00:05")
      (fun _ => "uuid-1") 0 (repeat batch_record 501)
    = Return kinesis_records
    /\ length kinesis_records = length (repeat batch_record 501)
    /\ snd (snd (KinesisBatch.put_records scenario_runtime
                   (fun _ => "2024-01-01T00:00:05") (fun _ => "uuid-1")
                   rejecting_client "events" (repeat batch_record 501)
                   (started_kinesis, [])))
       = ([] ++ map (pair "events") batches)%list
    /\ concat batches = kinesis_records
    /\ Forall (fun batch => (0 < length batch <= 500)%nat) batches
    /\ length batches
       = ((length (repeat batch_record 501) + 499) / 500)%nat.
Proof.
  eapply (put_records_sends_each_record_once scenario_runtime
            (fun _ => "2024-01-01T00:00:05") (fun _ => "uuid-1")
            rejecting_client "events" (repeat batch_record 501)
            started_kinesis []).
  vm_compute. reflexivity.
Defined.

(** X20, witness: of 501 records the first 500 are accepted and the
    second call raises; all 501 are counted as errors. *)
Lemma put_records_failure_counts_every_record_witness :
  KinesisService.produced_count
    (fst (snd (KinesisBatch.put_records scenario_runtime
                 (fun _ => "2024-01-01T00:00:05") (fun _ => "uuid-1")
                 failing_second_call "events" (repeat batch_record 501)
                 (started_kinesis, []))))
  = KinesisService.produced_count started_kinesis
  /\ KinesisService.error_count
       (fst (snd (KinesisBatch.put_records scenario_runtime
                    (fun _ => "2024-01-01T00:00:05") (fun _ => "uuid-1")
                    failing_second_call "events" (repeat batch_record 501)
                    (started_kinesis, []))))
     = KinesisService.error_count started_kinesis
       + Z.of_nat (length (repeat batch_record 501))
  /\ exists delivered,
       snd (snd (KinesisBatch.put_records scenario_runtime
                   (fun _ => "2024-01-01T00:00:05") (fun _ => "uuid-1")
                   failing_second_call "events" (repeat batch_record 501)
                   (started_kinesis, [])))
       = ([] ++ map (pair "events") delivered)%list
       /\ match KinesisBatch.prepare scenario_runtime
                  (fun _ => "2024-01-01T00:00:05") (fun _ => "uuid-1") 0
                  (repeat batch_record 501) with
          | Return kinesis_records =>
              concat delivered `prefix_of` kinesis_records
          | Raise => delivered = []
          end.
Proof.
  apply (put_records_failure_counts_every_record scenario_runtime
           (fun _ => "2024-01-01T00:00:05") (fun _ => "uuid-1")
           failing_second_call "events" (repeat batch_record 501)
           started_kinesis [] _ _ eq_refl eq_refl).
  vm_compute. reflexivity.
Defined.

Lemma rejecting_client_one_result_per_entry n stream_name batch response :
  rejecting_client n stream_name batch = Return response ->
  length response = length batch.
Proof. intros [= <-]. apply length_imap. Qed.

(** X21, witness: of 501 records the first of each of the two batches is
    rejected. *)
Lemma put_records_accounts_for_every_record_witness :
  (499 + 2 = length (repeat batch_record 501))%nat
  /\ Forall (fun f => (KinesisBatch.index f
                       < length (repeat batch_record 501))%nat)
       [ {| KinesisBatch.index := 0;
            KinesisBatch.error_code := "ThrottlingException";
            KinesisBatch.error_message := "slow" |};
         {| KinesisBatch.index := 500;
            KinesisBatch.error_code := "ThrottlingException";
            KinesisBatch.error_message := "slow" |} ].
Proof.
  destruct (put_records_accounts_for_every_record scenario_runtime
              (fun _ => "2024-01-01T00:00:05") (fun _ => "uuid-1")
              rejecting_client rejecting_client_one_result_per_entry
              "events" (repeat batch_record 501) started_kinesis []
              {| KinesisBatch.stream_name := "events";
                 KinesisBatch.total_records := 501;
                 KinesisBatch.successful_records := 499;
                 KinesisBatch.failed_records := 2;
                 KinesisBatch.successful_results :=
                   repeat {| KinesisBatch.shard_id := "shard-0";
                             KinesisBatch.sequence_number := "1" |} 499;
                 KinesisBatch.failed_results :=
                   [ {| KinesisBatch.index := 0;
                        KinesisBatch.error_code := "ThrottlingException";
                        KinesisBatch.error_message := "slow" |};
                     {| KinesisBatch.index := 500;
                        KinesisBatch.error_code := "ThrottlingException";
                        KinesisBatch.error_message := "slow" |} ] |}
              (fst (snd (KinesisBatch.put_records scenario_runtime
                           (fun _ => "2024-01-01T00:00:05")
                           (fun _ => "uuid-1") rejecting_client "events"
                           (repeat batch_record 501) (started_kinesis, []))))
              (snd (snd (KinesisBatch.put_records scenario_runtime
                           (fun _ => "2024-01-01T00:00:05")
                           (fun _ => "uuid-1") rejecting_client "events"
                           (repeat batch_record 501) (started_kinesis, [])))))
    as (_ & Hcount & _ & _ & _ & _ & Hindex & _).
  { vm_compute. reflexivity. }
  exact (conj Hcount Hindex).
Defined.
